(** * Melchior: the article-generation pipeline of [streamlit_app.py]

    A shallow embedding of [ArticleGenerator] (topic proposer, research
    stage, outline synthesizer, section-by-section drafter) and of the
    settings persistence helpers, together with the properties the
    specification states about them.

    Conventions of the embedding
    - a Python [str] is the list of its code points ([list N]); literals are
      written as UTF-8 text and decoded by [u8];
    - a Python [dict] with string keys is an association list in insertion
      order whose keys are pairwise distinct;
    - the generation service, the Streamlit widgets and the settings file
      are explicit state: every request is logged, every [st.*] call is an
      event, the file is an optional text;
    - an exception is a value of [exn]; a computation returns [Ok v] or
      [Raise e] together with the new state;
    - integers and nesting are unbounded: the limits of the interpreter
      (recursion depth, digits of an [int] literal) are not modelled. *)

From Stdlib Require Import ZArith NArith QArith List Bool Lia.
From Stdlib Require Import Strings.String Strings.Ascii Strings.Byte.
From Stdlib Require Import DecimalN DecimalFacts.
From stdpp Require Import base option list gmap.
Import ListNotations.

Set Warnings "-register-all".

(** ** Python strings *)

Module PyStr.

Definition char := N.
Definition str := list char.

(** Decoding of a UTF-8 literal into code points (well-formed input only;
    a stray byte is kept as it is). *)
Fixpoint utf8_decode (bs : list N) : str :=
  match bs with
  | [] => []
  | b :: rest =>
    if (b <? 0xC0)%N then b :: utf8_decode rest
    else if (b <? 0xE0)%N then
      match rest with
      | b1 :: r => ((b - 0xC0) * 64 + (b1 - 0x80))%N :: utf8_decode r
      | _ => b :: utf8_decode rest
      end
    else if (b <? 0xF0)%N then
      match rest with
      | b1 :: b2 :: r =>
        ((b - 0xE0) * 4096 + (b1 - 0x80) * 64 + (b2 - 0x80))%N :: utf8_decode r
      | _ => b :: utf8_decode rest
      end
    else
      match rest with
      | b1 :: b2 :: b3 :: r =>
        ((b - 0xF0) * 262144 + (b1 - 0x80) * 4096 + (b2 - 0x80) * 64 + (b3 - 0x80))%N
          :: utf8_decode r
      | _ => b :: utf8_decode rest
      end
  end.

Definition u8 (s : string) : str :=
  utf8_decode (map Byte.to_N (list_byte_of_string s)).

Definition chr (a : ascii) : char := N_of_ascii a.

Arguments u8 : simpl never.
Arguments chr : simpl never.

(** A literal that holds double quotes is written with single quotes in
    their place and passed through [dq]. *)
Definition dq (s : str) : str :=
  List.map (fun c => if (c =? 0x27)%N then 0x22%N else c) s.

(** [s == t] *)
Fixpoint str_eqb (s t : str) : bool :=
  match s, t with
  | [], [] => true
  | a :: s', b :: t' => (a =? b)%N && str_eqb s' t'
  | _, _ => false
  end.

(** [s.startswith(p)] *)
Fixpoint startswith (p s : str) : bool :=
  match p, s with
  | [], _ => true
  | a :: p', b :: s' => (a =? b)%N && startswith p' s'
  | _ :: _, [] => false
  end.

(** [p in s] for two strings: [p] occurs at some offset of [s]. *)
Fixpoint contains (p s : str) : bool :=
  startswith p s ||
  match s with
  | [] => false
  | _ :: s' => contains p s'
  end.

(** [str.isspace] on one code point, which is also what [\s] matches in a
    [str] pattern and what [str.split()] splits on. *)
Definition isspace (c : char) : bool :=
  ((0x09 <=? c) && (c <=? 0x0D) || (0x1C <=? c) && (c <=? 0x20)
   || (c =? 0x85) || (c =? 0xA0) || (c =? 0x1680)
   || (0x2000 <=? c) && (c <=? 0x200A)
   || (c =? 0x2028) || (c =? 0x2029) || (c =? 0x202F) || (c =? 0x205F)
   || (c =? 0x3000))%N.

(** [s.split()]: the maximal runs of non-whitespace, in order.  [cur] is
    the run being read, reversed. *)
Fixpoint split_go (cur : str) (s : str) : list str :=
  match s with
  | [] => match cur with [] => [] | _ => [rev cur] end
  | c :: s' =>
    if isspace c
    then match cur with [] => split_go [] s' | _ => rev cur :: split_go [] s' end
    else split_go (c :: cur) s'
  end.

Definition split (s : str) : list str := split_go [] s.

(** [s.split(sep)] for a separator of one character, as in
    [citation.split("?")]: the pieces between the occurrences, never an
    empty list. *)
Fixpoint split_on_go (sep : char) (cur : str) (s : str) : list str :=
  match s with
  | [] => [rev cur]
  | c :: s' =>
    if (c =? sep)%N then rev cur :: split_on_go sep [] s'
    else split_on_go sep (c :: cur) s'
  end.

Definition split_on (sep : char) (s : str) : list str := split_on_go sep [] s.

(** [sep.join(parts)] *)
Fixpoint join (sep : str) (parts : list str) : str :=
  match parts with
  | [] => []
  | [p] => p
  | p :: ps => p ++ sep ++ join sep ps
  end.

(** [s[-n:]] for [n > 0]: the start index [len(s) - n] is clipped at 0. *)
Definition slice_last (n : nat) (s : str) : str := drop (length s - n) s.

(** [s[:n]] *)
Definition slice_first (n : nat) (s : str) : str := take n s.

End PyStr.
Export PyStr.

(** ** Regular expressions

    The four patterns of the source are written as terms of [re] and run by
    a backtracking matcher with the priorities of Python's [re]: the left
    alternative first, a greedy repetition longest first, a lazy one
    shortest first.  None of them matches the empty string. *)

Module Re.

Inductive re : Type :=
  | Eps
  | Lit (c : char)
  | Cls (p : char -> bool)
  | Cat (r1 r2 : re)
  | Alt (r1 r2 : re)
  | Star (greedy : bool) (r : re)
  | Grp (r : re).

Definition Plus (greedy : bool) (r : re) : re := Cat r (Star greedy r).
Definition Opt (r : re) : re := Alt r Eps.

Fixpoint lits (s : str) : re :=
  match s with
  | [] => Eps
  | [c] => Lit c
  | c :: s' => Cat (Lit c) (lits s')
  end.

Definition first_some {A} (x y : option A) : option A :=
  match x with Some _ => x | None => y end.

(** [exec r s caps k]: match [r] at the head of [s], then continue with [k]
    on what is left and on the groups captured so far; the first success in
    priority order wins. *)
Fixpoint exec {A} (r : re) (s : str) (caps : list str)
    (k : str -> list str -> option A) : option A :=
  match r with
  | Eps => k s caps
  | Lit c =>
    match s with
    | d :: s' => if (c =? d)%N then k s' caps else None
    | [] => None
    end
  | Cls p =>
    match s with
    | d :: s' => if p d then k s' caps else None
    | [] => None
    end
  | Cat r1 r2 => exec r1 s caps (fun s1 caps1 => exec r2 s1 caps1 k)
  | Alt r1 r2 => first_some (exec r1 s caps k) (exec r2 s caps k)
  | Star greedy r1 =>
    (fix loop (n : nat) (s : str) (caps : list str) : option A :=
       match n with
       | O => k s caps
       | S n' =>
         let more :=
           exec r1 s caps (fun s1 caps1 =>
             if (length s1 <? length s)%nat then loop n' s1 caps1 else None) in
         if greedy then first_some more (k s caps)
         else first_some (k s caps) more
       end) (length s) s caps
  | Grp r1 =>
    exec r1 s caps (fun s1 caps1 =>
      k s1 (caps1 ++ [take (length s - length s1) s]))
  end.

(** [pattern.match(s)]: what is left after the match, and the groups. *)
Definition re_match (r : re) (s : str) : option (str * list str) :=
  exec r s [] (fun s1 caps => Some (s1, caps)).

(** Number of characters of the match at the head of [s], if any and if it
    is not empty. *)
Definition match_len (r : re) (s : str) : option nat :=
  match re_match r s with
  | Some (s1, _) =>
    if (length s1 <? length s)%nat then Some (length s - length s1)%nat else None
  | None => None
  end.

(** [re.sub(r, repl, s)]: the leftmost matches, not overlapping, replaced.
    [skip] counts the characters of the current match still to drop. *)
Fixpoint sub_go (r : re) (repl : str) (skip : nat) (s : str) : str :=
  match s with
  | [] => []
  | c :: s' =>
    match skip with
    | S n => sub_go r repl n s'
    | O =>
      match match_len r s with
      | Some n => repl ++ sub_go r repl (n - 1) s'
      | None => c :: sub_go r repl 0 s'
      end
    end
  end.

Definition re_sub (r : re) (repl : str) (s : str) : str := sub_go r repl 0 s.

(** [re.findall(r, s)] for a pattern without groups. *)
Fixpoint findall_go (r : re) (skip : nat) (s : str) : list str :=
  match s with
  | [] => []
  | _ :: s' =>
    match skip with
    | S n => findall_go r n s'
    | O =>
      match match_len r s with
      | Some n => take n s :: findall_go r (n - 1) s'
      | None => findall_go r 0 s'
      end
    end
  end.

Definition re_findall (r : re) (s : str) : list str := findall_go r 0 s.

(** [re.search(r, s)]: the groups of the leftmost match, [None] when there
    is no match. *)
Fixpoint re_search (r : re) (s : str) : option (list str) :=
  match re_match r s with
  | Some (_, caps) => Some caps
  | None =>
    match s with
    | [] => None
    | _ :: s' => re_search r s'
    end
  end.

(** [r'<[^>]+>'] *)
Definition tag_re : re :=
  Cat (Lit (chr "<")) (Cat (Plus true (Cls (fun c => negb (c =? chr ">")%N))) (Lit (chr ">"))).

(** [r'<h3>.*?</h3>\s*'] ([.] is any character but a newline) *)
Definition h3_re : re :=
  Cat (lits (u8 "<h3>"))
    (Cat (Star false (Cls (fun c => negb (c =? 0x0A)%N)))
       (Cat (lits (u8 "</h3>")) (Star true (Cls isspace)))).

(** [r'https?://[^\s)QUOTES]+'], where QUOTES stands for the double and
    the single quote character *)
Definition url_pattern : re :=
  Cat (lits (u8 "http"))
    (Cat (Opt (Lit (chr "s")))
       (Cat (lits (u8 "://"))
          (Plus true (Cls (fun c =>
             negb (isspace c || (c =? chr ")") || (c =? 0x22) || (c =? 0x27))%N))))).

(** [r'https?://(?:www\.)?([^/]+)'] *)
Definition domain_re : re :=
  Cat (lits (u8 "http"))
    (Cat (Opt (Lit (chr "s")))
       (Cat (lits (u8 "://"))
          (Cat (Opt (lits (u8 "www.")))
             (Grp (Plus true (Cls (fun c => negb (c =? chr "/")%N))))))).

End Re.
Export Re.

(** ** Python values that JSON can carry *)

(** The interpreter's [float] is not modelled bit by bit: the embedding is
    parametric in a type of floats with the few operations the program and
    the [json] module apply to them.  [float_of_str] is [float(s)],
    [float_repr] is [float.__repr__], [float_bool] is [bool(x)],
    [float_eq_int x n] is [x == n] for an [int] [n], and [float_class]
    tells the finite floats from the infinities and from NaN. *)
Inductive float_kind := FFinite | FInf | FNegInf | FNaN.

Class PyFloat := {
  pyfloat : Type;
  float_of_str : str -> pyfloat;
  float_repr : pyfloat -> str;
  float_bool : pyfloat -> bool;
  float_eq_int : pyfloat -> Z -> bool;
  float_class : pyfloat -> float_kind
}.

Section Values.
Context `{PyFloat}.

(** [None], [bool], [int], [float], [str], [list] and [dict] with string
    keys. *)
Inductive json : Type :=
  | JNull
  | JBool (b : bool)
  | JInt (z : Z)
  | JFloat (x : pyfloat)
  | JStr (s : str)
  | JArr (l : list json)
  | JObj (kvs : list (str * json)).

Definition pydict := list (str * json).

(** [d.get(key)] on the insertion-ordered pairs of a dict. *)
Fixpoint dict_lookup (d : pydict) (key : str) : option json :=
  match d with
  | [] => None
  | (k, v) :: d' => if str_eqb k key then Some v else dict_lookup d' key
  end.

(** [d.get(key, default)] *)
Definition dict_get (d : pydict) (key : str) (default : json) : json :=
  match dict_lookup d key with
  | Some v => v
  | None => default
  end.

(** [d[key] = v]: an existing key keeps its place, a new one goes last. *)
Fixpoint dict_set (d : pydict) (key : str) (v : json) : pydict :=
  match d with
  | [] => [(key, v)]
  | (k, w) :: d' =>
    if str_eqb k key then (k, v) :: d' else (k, w) :: dict_set d' key v
  end.

(** [bool(v)] *)
Definition truthy (v : json) : bool :=
  match v with
  | JNull => false
  | JBool b => b
  | JInt z => negb (z =? 0)%Z
  | JFloat x => float_bool x
  | JStr s => match s with [] => false | _ => true end
  | JArr l => match l with [] => false | _ => true end
  | JObj kvs => match kvs with [] => false | _ => true end
  end.

End Values.

(** ** Exceptions and results *)

Inductive exn :=
  | JSONDecodeError
  | KeyError
  | IndexError
  | TypeError
  | AttributeError
  | UnicodeEncodeError
  | APIError (message : str).

Inductive result (A : Type) : Type :=
  | Ok (a : A)
  | Raise (e : exn).
Arguments Ok {A} a.
Arguments Raise {A} e.

(** ** The [json] module: [json.loads] *)

Module JsonDecode.

(** Outcome of reading one value: the value and the rest of the text, a
    syntax error, or a recursion budget that ran out (which [json_loads]
    never lets happen, see [scan_once_fuel] and [json_loads_budget]). *)
Inductive parse (A : Type) : Type :=
  | Parsed (a : A) (rest : str)
  | Invalid
  | OutOfFuel.
Arguments Parsed {A} a rest.
Arguments Invalid {A}.
Arguments OutOfFuel {A}.

Section Decode.
Context `{PyFloat}.

Definition is_ws (c : char) : bool :=
  ((c =? 0x20) || (c =? 0x09) || (c =? 0x0A) || (c =? 0x0D))%N.

Fixpoint skip_ws (s : str) : str :=
  match s with
  | c :: s' => if is_ws c then skip_ws s' else s
  | [] => []
  end.

Definition is_digit (c : char) : bool := ((0x30 <=? c) && (c <=? 0x39))%N.

(** Longest prefix of digits, and the rest. *)
Fixpoint span_digits (s : str) : str * str :=
  match s with
  | c :: s' =>
    if is_digit c then let (ds, r) := span_digits s' in (c :: ds, r) else ([], s)
  | [] => ([], [])
  end.

(** The number at the head of [s]: its text, whether it has a fraction or
    an exponent, and the rest.  A dot not followed by a digit, and an
    exponent mark not followed by digits, are left unread. *)
Definition scan_int_part (s : str) : option (str * str) :=
  match s with
  | c :: s' =>
    if (c =? 0x30)%N then Some ([c], s')
    else if is_digit c then let (ds, r) := span_digits s' in Some (c :: ds, r)
    else None
  | [] => None
  end.

Definition scan_frac (s : str) : option (str * str) :=
  match s with
  | dot :: d :: s' =>
    if (dot =? chr ".")%N && is_digit d
    then let (ds, r) := span_digits s' in Some (dot :: d :: ds, r)
    else None
  | _ => None
  end.

Definition scan_exp (s : str) : option (str * str) :=
  match s with
  | e :: s1 =>
    if ((e =? chr "e") || (e =? chr "E"))%N then
      match s1 with
      | sg :: d :: s2 =>
        if ((sg =? chr "+") || (sg =? chr "-"))%N && is_digit d
        then let (ds, r) := span_digits s2 in Some (e :: sg :: d :: ds, r)
        else if is_digit sg
        then let (ds, r) := span_digits (d :: s2) in Some (e :: sg :: ds, r)
        else None
      | [d] => if is_digit d then Some ([e; d], []) else None
      | [] => None
      end
    else None
  | [] => None
  end.

Definition match_number (s : str) : option (str * bool * str) :=
  let (sign, s0) :=
    match s with
    | c :: s' => if (c =? chr "-")%N then ([c], s') else ([], s)
    | [] => ([], s)
    end in
  match scan_int_part s0 with
  | None => None
  | Some (ip, s1) =>
    let (fp, s2) := match scan_frac s1 with Some (f, r) => (f, r) | None => ([], s1) end in
    let (ep, s3) := match scan_exp s2 with Some (e, r) => (e, r) | None => ([], s2) end in
    Some (sign ++ ip ++ fp ++ ep,
          match fp, ep with [], [] => false | _, _ => true end, s3)
  end.

(** [int(text)] for an optional minus sign and decimal digits. *)
Definition digit_value (c : char) : N := (c - 0x30)%N.

Definition digits_value (ds : str) : N :=
  fold_left (fun acc c => (acc * 10 + digit_value c)%N) ds 0%N.

Definition int_of_str (s : str) : Z :=
  match s with
  | c :: ds => if (c =? chr "-")%N then (- Z.of_N (digits_value ds))%Z
               else Z.of_N (digits_value s)
  | [] => 0%Z
  end.

(** One hexadecimal digit of a [\uXXXX] escape. *)
Definition hex_value (c : char) : option N :=
  if is_digit c then Some (c - 0x30)%N
  else if ((0x61 <=? c) && (c <=? 0x66))%N then Some (c - 0x61 + 10)%N
  else if ((0x41 <=? c) && (c <=? 0x46))%N then Some (c - 0x41 + 10)%N
  else None.

Definition hex4 (a b c d : char) : option N :=
  match hex_value a, hex_value b, hex_value c, hex_value d with
  | Some x, Some y, Some z, Some w => Some (((x * 16 + y) * 16 + z) * 16 + w)%N
  | _, _, _, _ => None
  end.

Definition is_high_surrogate (c : N) : bool := ((0xD800 <=? c) && (c <=? 0xDBFF))%N.
Definition is_low_surrogate (c : N) : bool := ((0xDC00 <=? c) && (c <=? 0xDFFF))%N.
Definition join_surrogates (hi lo : N) : N :=
  (0x10000 + (hi - 0xD800) * 0x400 + (lo - 0xDC00))%N.

Definition simple_escape (c : char) : option char :=
  if (c =? 0x22)%N then Some 0x22%N
  else if (c =? 0x5C)%N then Some 0x5C%N
  else if (c =? chr "/")%N then Some (chr "/")
  else if (c =? chr "b")%N then Some 0x08%N
  else if (c =? chr "f")%N then Some 0x0C%N
  else if (c =? chr "n")%N then Some 0x0A%N
  else if (c =? chr "r")%N then Some 0x0D%N
  else if (c =? chr "t")%N then Some 0x09%N
  else None.

(** [scanstring] after the opening quote, in strict mode: the decoded
    string (accumulated in [acc], reversed) and what follows the closing
    quote. *)
Fixpoint scanstring (acc : str) (s : str) : option (str * str) :=
  match s with
  | [] => None
  | c :: s1 =>
    if (c =? 0x22)%N then Some (rev acc, s1)
    else if (c =? 0x5C)%N then
      match s1 with
      | [] => None
      | e :: s2 =>
        if (e =? chr "u")%N then
          match s2 with
          | h1 :: h2 :: h3 :: h4 :: s3 =>
            match hex4 h1 h2 h3 h4 with
            | None => None
            | Some u =>
              if is_high_surrogate u then
                match s3 with
                | b :: v :: g1 :: g2 :: g3 :: g4 :: s4 =>
                  if ((b =? 0x5C) && (v =? chr "u"))%N then
                    match hex4 g1 g2 g3 g4 with
                    | None => None
                    | Some u2 =>
                      if is_low_surrogate u2
                      then scanstring (join_surrogates u u2 :: acc) s4
                      else scanstring (u :: acc) s3
                    end
                  else scanstring (u :: acc) s3
                | _ => scanstring (u :: acc) s3
                end
              else scanstring (u :: acc) s3
            end
          | _ => None
          end
        else
          match simple_escape e with
          | Some d => scanstring (d :: acc) s2
          | None => None
          end
      end
    else if (c <=? 0x1F)%N then None
    else scanstring (c :: acc) s1
  end.

(** The elements of an array, from the first one on; [pv] reads one value. *)
Fixpoint parse_array (pv : str -> parse json) (fuel : nat) (acc : list json)
    (s : str) : parse (list json) :=
  match fuel with
  | O => OutOfFuel
  | S f =>
    match pv s with
    | Parsed v s1 =>
      match skip_ws s1 with
      | c :: s2 =>
        if (c =? chr "]")%N then Parsed (rev (v :: acc)) s2
        else if (c =? chr ",")%N then parse_array pv f (v :: acc) (skip_ws s2)
        else Invalid
      | [] => Invalid
      end
    | Invalid => Invalid
    | OutOfFuel => OutOfFuel
    end
  end.

(** The members of an object, from the first key on.  A key read twice
    keeps its first place and takes the last value, as [dict] does. *)
Fixpoint parse_object (pv : str -> parse json) (fuel : nat) (acc : pydict)
    (s : str) : parse pydict :=
  match fuel with
  | O => OutOfFuel
  | S f =>
    match s with
    | q :: s0 =>
      if (q =? 0x22)%N then
        match scanstring [] s0 with
        | None => Invalid
        | Some (key, s1) =>
          match skip_ws s1 with
          | colon :: s2 =>
            if (colon =? chr ":")%N then
              match pv (skip_ws s2) with
              | Parsed v s3 =>
                let acc' := dict_set acc key v in
                match skip_ws s3 with
                | c :: s4 =>
                  if (c =? chr "}")%N then Parsed acc' s4
                  else if (c =? chr ",")%N then parse_object pv f acc' (skip_ws s4)
                  else Invalid
                | [] => Invalid
                end
              | Invalid => Invalid
              | OutOfFuel => OutOfFuel
              end
            else Invalid
          | [] => Invalid
          end
        end
      else Invalid
    | [] => Invalid
    end
  end.

Definition map_parse {A B} (f : A -> B) (p : parse A) : parse B :=
  match p with
  | Parsed a r => Parsed (f a) r
  | Invalid => Invalid
  | OutOfFuel => OutOfFuel
  end.

(** [scan_once]: the value that starts at the head of [s]. *)
Fixpoint scan_once (fuel : nat) (s : str) : parse json :=
  match fuel with
  | O => OutOfFuel
  | S f =>
    match s with
    | [] => Invalid
    | c :: s1 =>
      if (c =? 0x22)%N then
        match scanstring [] s1 with
        | Some (t, r) => Parsed (JStr t) r
        | None => Invalid
        end
      else if (c =? chr "{")%N then
        match skip_ws s1 with
        | d :: s2 =>
          if (d =? chr "}")%N then Parsed (JObj []) s2
          else map_parse JObj (parse_object (scan_once f) f [] (d :: s2))
        | [] => Invalid
        end
      else if (c =? chr "[")%N then
        match skip_ws s1 with
        | d :: s2 =>
          if (d =? chr "]")%N then Parsed (JArr []) s2
          else map_parse JArr (parse_array (scan_once f) f [] (d :: s2))
        | [] => Invalid
        end
      else if startswith (u8 "null") s then Parsed JNull (drop 4 s)
      else if startswith (u8 "true") s then Parsed (JBool true) (drop 4 s)
      else if startswith (u8 "false") s then Parsed (JBool false) (drop 5 s)
      else if startswith (u8 "NaN") s
      then Parsed (JFloat (float_of_str (u8 "nan"))) (drop 3 s)
      else if startswith (u8 "Infinity") s
      then Parsed (JFloat (float_of_str (u8 "inf"))) (drop 8 s)
      else if startswith (u8 "-Infinity") s
      then Parsed (JFloat (float_of_str (u8 "-inf"))) (drop 9 s)
      else
        match match_number s with
        | Some (text, is_float, r) =>
          Parsed (if is_float then JFloat (float_of_str text) else JInt (int_of_str text)) r
        | None => Invalid
        end
    end
  end.

(** [json.loads(s)] for a [str]: no byte order mark, one value between
    optional whitespace, nothing after it.  Every syntax error is a
    [JSONDecodeError]. *)
Definition json_loads (s : str) : result json :=
  if startswith [0xFEFF%N] s then Raise JSONDecodeError
  else
    match scan_once (S (length s)) (skip_ws s) with
    | Parsed v r =>
      match skip_ws r with
      | [] => Ok v
      | _ => Raise JSONDecodeError
      end
    | _ => Raise JSONDecodeError
    end.

End Decode.
End JsonDecode.
Export JsonDecode.

(** ** The [json] module: [json.dump(obj, f, ensure_ascii=False, indent=2)] *)

Module JsonEncode.
Section Encode.
Context `{PyFloat}.

Definition hex_digit (n : N) : char :=
  if (n <? 10)%N then (0x30 + n)%N else (0x61 + (n - 10))%N.

(** The replacement of one character by [encode_basestring]: the quote, the
    backslash and the control characters are escaped, everything else is
    written as it is. *)
Definition escape_char (c : char) : str :=
  if (c =? 0x22)%N then [0x5C; 0x22]%N
  else if (c =? 0x5C)%N then [0x5C; 0x5C]%N
  else if (c =? 0x0A)%N then [0x5C%N; chr "n"]
  else if (c =? 0x0D)%N then [0x5C%N; chr "r"]
  else if (c =? 0x09)%N then [0x5C%N; chr "t"]
  else if (c =? 0x08)%N then [0x5C%N; chr "b"]
  else if (c =? 0x0C)%N then [0x5C%N; chr "f"]
  else if (c <? 0x20)%N
  then [0x5C%N; chr "u"; chr "0"; chr "0"; hex_digit (c / 16); hex_digit (c mod 16)]
  else [c].

Definition encode_basestring (s : str) : str :=
  0x22%N :: concat (map escape_char s) ++ [0x22%N].

Fixpoint digits_of_uint (u : Decimal.uint) : str :=
  match u with
  | Decimal.Nil => []
  | Decimal.D0 u' => chr "0" :: digits_of_uint u'
  | Decimal.D1 u' => chr "1" :: digits_of_uint u'
  | Decimal.D2 u' => chr "2" :: digits_of_uint u'
  | Decimal.D3 u' => chr "3" :: digits_of_uint u'
  | Decimal.D4 u' => chr "4" :: digits_of_uint u'
  | Decimal.D5 u' => chr "5" :: digits_of_uint u'
  | Decimal.D6 u' => chr "6" :: digits_of_uint u'
  | Decimal.D7 u' => chr "7" :: digits_of_uint u'
  | Decimal.D8 u' => chr "8" :: digits_of_uint u'
  | Decimal.D9 u' => chr "9" :: digits_of_uint u'
  end.

Definition N_repr (n : N) : str := digits_of_uint (N.to_uint n).

(** [int.__repr__] *)
Definition int_repr (z : Z) : str :=
  match z with
  | Zneg p => chr "-" :: N_repr (Npos p)
  | _ => N_repr (Z.to_N z)
  end.

(** The encoder's [floatstr], with [allow_nan] left at its default. *)
Definition floatstr (x : pyfloat) : str :=
  match float_class x with
  | FNaN => u8 "NaN"
  | FInf => u8 "Infinity"
  | FNegInf => u8 "-Infinity"
  | FFinite => float_repr x
  end.

(** A line break followed by two spaces per nesting level. *)
Definition newline_indent (level : nat) : str :=
  0x0A%N :: concat (repeat (u8 "  ") level).

(** The text that [_iterencode] yields for [v] at nesting level [level]. *)
Fixpoint iterencode (level : nat) (v : json) : str :=
  match v with
  | JNull => u8 "null"
  | JBool true => u8 "true"
  | JBool false => u8 "false"
  | JInt z => int_repr z
  | JFloat x => floatstr x
  | JStr s => encode_basestring s
  | JArr [] => u8 "[]"
  | JArr l =>
    chr "[" :: newline_indent (S level)
      ++ join (chr "," :: newline_indent (S level)) (map (iterencode (S level)) l)
      ++ newline_indent level ++ [chr "]"]
  | JObj [] => u8 "{}"
  | JObj kvs =>
    chr "{" :: newline_indent (S level)
      ++ join (chr "," :: newline_indent (S level))
           (map (fun kv => encode_basestring (fst kv) ++ u8 ": " ++ iterencode (S level) (snd kv)) kvs)
      ++ newline_indent level ++ [chr "}"]
  end.

Definition json_dumps (v : json) : str := iterencode 0 v.

End Encode.
End JsonEncode.
Export JsonEncode.

(** ** A float type for running the model

    Floats with one decimal digit, which is what the sliders of the
    settings panel produce: [Tenths.of_Z 7] stands for [0.7].  It serves
    the examples; the theorems hold for any [PyFloat]. *)

Module Tenths.

Definition tenths_repr (t : Z) : str :=
  (match t with Zneg _ => [chr "-"] | _ => [] end)
    ++ N_repr (Z.abs_N t / 10) ++ [chr "."] ++ N_repr (Z.abs_N t mod 10).

(** Reads [-?digits(.digit...)?]; further digits and an exponent are not
    looked at. *)
Definition tenths_of_str (s : str) : Z :=
  let (neg, s0) :=
    match s with
    | c :: s' => if (c =? chr "-")%N then (true, s') else (false, s)
    | [] => (false, s)
    end in
  let (ip, r) := span_digits s0 in
  let frac :=
    match r with
    | dot :: d :: _ => if (dot =? chr ".")%N && is_digit d then digit_value d else 0%N
    | _ => 0%N
    end in
  let m := Z.of_N (digits_value ip * 10 + frac) in
  if neg then (- m)%Z else m.

#[export] Instance tenths_float : PyFloat := {|
  pyfloat := Z;
  float_of_str := tenths_of_str;
  float_repr := tenths_repr;
  float_bool := fun t => negb (t =? 0)%Z;
  float_eq_int := fun t n => (t =? 10 * n)%Z;
  float_class := fun _ => FFinite
|}.

Definition of_Z (t : Z) : @pyfloat tenths_float := t.

End Tenths.

(** ** The world of the program

    The generation service, the Streamlit page and the generator object. *)

(** An attribute of a response object: absent ([hasattr] is false), present
    and [None], or present with a value. *)
Inductive attr (A : Type) : Type :=
  | Missing
  | IsNone
  | Has (a : A).
Arguments Missing {A}.
Arguments IsNone {A}.
Arguments Has {A} a.

Record annotation := { url_citation : attr str }.

Record message := {
  content : option str;
  annotations : attr (list annotation)
}.

Record response := { choices : list message }.

Section World.
Context `{PyFloat}.

(** The texts of the prompts are fixed; a prompt is represented by the
    values the source interpolates into it. *)
Record topics_prompt := {
  tp_search_intent : json;
  tp_complexity_level : json;
  tp_content_type : json;
  tp_num_topics : json;
  tp_keywords : str
}.

Record research_prompt := {
  rp_title : str;
  rp_keywords : str
}.

Record outline_prompt := {
  op_search_intent : json;
  op_complexity_level : json;
  op_content_type : json;
  op_engagement_text : str;
  op_target_words : Z;
  op_num_sections : json;
  op_title : str;
  op_keywords : str;
  op_description : str;
  op_reference_content : str
}.

Record draft_prompt := {
  sp_ai_target : Z;
  sp_title : str;
  sp_keywords : str;
  sp_prompt : str;
  sp_section_number : json;
  sp_section_count : nat;
  sp_article_title : str;
  sp_target_audience : str;
  sp_previous_context : str;
  sp_research : str
}.

Inductive prompt :=
  | TopicsPrompt (p : topics_prompt)
  | ResearchPrompt (p : research_prompt)
  | OutlinePrompt (p : outline_prompt)
  | SectionPrompt (p : draft_prompt).

(** The arguments of one [client.chat.completions.create] call. *)
Record request := {
  model : str;
  messages : prompt;
  temperature : option json;
  top_p : option json;
  max_tokens : option json;
  response_format_json : bool;
  web_search_options : option json
}.

(** What the page shows: the Streamlit call and its message. *)
Inductive st_call :=
  | StInfo | StSuccess | StWarning | StError | StCode | StMarkdown
  | StProgress | StProgressText.

Inductive notice :=
  | TopicsResponseError (e : exn)
  | ResearchStarting
  | UsingSearchModel
  | ResearchFinished (num_sources : nat)
  | ResearchFailed (e : exn)
  | ResearchUnavailable
  | ErrorDetails (e : exn)
  | SearchRequirements
  | SectionCountMismatch (got : nat) (wanted : json)
  | ShortPrompts (short : nat) (wanted : json)
  | OutlineResponseError (e : exn)
  | ProgressAt (i n : nat)
  | GeneratingSection (i n : nat) (title : str)
  | SectionWords (i : nat) (words : nat) (target : Z)
  | SectionWordsShort (i : nat) (words : nat) (target : Z)
  | ProgressComplete
  | GenerationFinished (total_words : nat)
  | ArticleLength (total_words : nat)
  | SettingsNotLoaded (e : exn).

Definition event := (st_call * notice)%type.

(** One entry of [self.research_results]. *)
Record research_result := {
  rr_content : option str;
  rr_citations : list str
}.

Record world := {
  calls : list request;
  events : list event;
  research_results : gmap Z research_result
}.

Definition M (A : Type) : Type := world -> result A * world.

Definition ret {A} (a : A) : M A := fun w => (Ok a, w).

Definition raise {A} (e : exn) : M A := fun w => (Raise e, w).

Definition bind {A B} (m : M A) (k : A -> M B) : M B :=
  fun w =>
    match m w with
    | (Ok a, w') => k a w'
    | (Raise e, w') => (Raise e, w')
    end.

(** [try: m except Exception as e: handler(e)] *)
Definition try_except {A} (m : M A) (handler : exn -> M A) : M A :=
  fun w =>
    match m w with
    | (Ok a, w') => (Ok a, w')
    | (Raise e, w') => handler e w'
    end.

Definition lift {A} (r : result A) : M A := fun w => (r, w).

Definition st (c : st_call) (n : notice) : M unit :=
  fun w =>
    (Ok tt, {| calls := calls w; events := events w ++ [(c, n)];
               research_results := research_results w |}).

Definition get_research_results : M (gmap Z research_result) :=
  fun w => (Ok (research_results w), w).

Definition set_research_result (id : Z) (r : research_result) : M unit :=
  fun w =>
    (Ok tt, {| calls := calls w; events := events w;
               research_results := <[id := r]> (research_results w) |}).

End World.

Declare Scope py_scope.
Delimit Scope py_scope with py.
Notation "x <- m ;; k" := (bind m (fun x => k))
  (at level 100, m at next level, right associativity) : py_scope.
Notation "m ;; k" := (bind m (fun _ => k))
  (at level 100, right associativity) : py_scope.

(** ** The program *)

Section Program.
Context `{PyFloat}.
Open Scope py_scope.

(** The generation service: what it answers to a request, given the
    requests it received before. *)
Variable service : list request -> request -> result response.

(** The order in which the interpreter lists the elements of a set of
    strings. *)
Variable list_of_set : list str -> list str.

(** Whether the button under the error message of the research stage is
    pressed. *)
Variable show_details_pressed : bool.

(** [self.client.chat.completions.create(...)]: the request is recorded,
    the service answers or raises. *)
Definition chat_completions_create (req : request) : M response :=
  fun w =>
    (service (calls w) req,
     {| calls := calls w ++ [req]; events := events w;
        research_results := research_results w |}).

(** *** Settings *)

Definition py_float (literal : string) : json := JFloat (float_of_str (u8 literal)).

Definition default_settings : pydict :=
  [ (u8 "temperature", py_float "0.7");
    (u8 "top_p", py_float "1.0");
    (u8 "max_tokens", JInt 2000);
    (u8 "do_research", JBool false);
    (u8 "search_context_size", JStr (u8 "medium"));
    (u8 "add_bibliography", JBool true);
    (u8 "search_intent", JStr (u8 "informacyjna"));
    (u8 "complexity_level", JStr (u8 "średniozaawansowany"));
    (u8 "engagement_elements",
       JObj [ (u8 "rhetorical_questions", JBool true);
              (u8 "statistics_quotes", JBool true);
              (u8 "examples_cases", JBool true);
              (u8 "stories", JBool false) ]);
    (u8 "content_type", JStr (u8 "przewodnik"));
    (u8 "readability_index", JStr (u8 "standardowy"));
    (u8 "num_topics", JInt 5);
    (u8 "num_sections", JInt 7);
    (u8 "section_length", JStr (u8 "średnia (250-350 słów)")) ].

(** [settings.json]: absent, holding a text, or holding something that does
    not decode to a JSON text (bytes that are not UTF-8, or what a write
    that failed half way has left). *)
Inductive file :=
  | Absent
  | Text (s : str)
  | Damaged.

(** A text can be written to a UTF-8 file when it has no surrogate code
    point. *)
Definition encodable (s : str) : bool :=
  forallb (fun c => negb ((0xD800 <=? c) && (c <=? 0xDFFF))%N) s.

(** [save_settings(settings)]: the result and the file afterwards. *)
Definition save_settings (settings : pydict) (f : file) : result unit * file :=
  let text := json_dumps (JObj settings) in
  if encodable text then (Ok tt, Text text)
  else (Raise UnicodeEncodeError, Damaged).

(** [load_settings()]: the settings and what the page shows.  Reading in
    text mode turns every line break into a line feed, which changes
    nothing for [json.load]: line breaks are white space between values
    and errors inside strings. *)
Definition load_settings (f : file) : json * list event :=
  match f with
  | Absent => (JObj default_settings, [])
  | Text s =>
    match json_loads s with
    | Ok v => (v, [])
    | Raise e => (JObj default_settings, [(StWarning, SettingsNotLoaded e)])
    end
  | Damaged =>
    (JObj default_settings, [(StWarning, SettingsNotLoaded JSONDecodeError)])
  end.

(** *** Helpers for dynamically typed values *)

(** [needle in v] for a string [needle]: substring of a string, element of
    a list, key of a dict; anything else is not iterable. *)
Definition py_in (needle : str) (v : json) : result bool :=
  match v with
  | JStr s => Ok (contains needle s)
  | JArr l =>
    Ok (existsb (fun x => match x with JStr s => str_eqb s needle | _ => false end) l)
  | JObj kvs => Ok (existsb (fun kv => str_eqb (fst kv) needle) kvs)
  | _ => Raise TypeError
  end.

(** [v[key]] for a string [key] *)
Definition subscript (v : json) (key : str) : result json :=
  match v with
  | JObj kvs =>
    match dict_lookup kvs key with
    | Some x => Ok x
    | None => Raise KeyError
    end
  | _ => Raise TypeError
  end.

(** [v.get(key, default)]: only a dict has the method. *)
Definition method_get (v : json) (key : str) (default : json) : result json :=
  match v with
  | JObj kvs => Ok (dict_get kvs key default)
  | _ => Raise AttributeError
  end.

(** [len(v)] *)
Definition py_len (v : json) : result nat :=
  match v with
  | JStr s => Ok (length s)
  | JArr l => Ok (length l)
  | JObj kvs => Ok (length kvs)
  | _ => Raise TypeError
  end.

(** [n != v] for the [int] [n] *)
Definition int_ne (n : nat) (v : json) : bool :=
  match v with
  | JInt z => negb (Z.of_nat n =? z)%Z
  | JBool b => negb (Z.of_nat n =? (if b then 1 else 0))%Z
  | JFloat x => negb (float_eq_int x (Z.of_nat n))
  | _ => true
  end.

(** The values that [for x in v] visits. *)
Definition py_iter (v : json) : result (list json) :=
  match v with
  | JArr l => Ok l
  | JStr s => Ok (map (fun c => JStr [c]) s)
  | JObj kvs => Ok (map (fun kv => JStr (fst kv)) kvs)
  | _ => Raise TypeError
  end.

(** [response.choices[0].message.content] *)
Definition first_message (r : response) : result message :=
  match choices r with
  | m :: _ => Ok m
  | [] => Raise IndexError
  end.

(** [json.loads(content)]; [None] is not a text. *)
Definition loads_content (c : option str) : result json :=
  match c with
  | Some s => json_loads s
  | None => Raise TypeError
  end.

Definition rbind {A B} (r : result A) (k : A -> result B) : result B :=
  match r with
  | Ok a => k a
  | Raise e => Raise e
  end.

(** *** Topics *)

Record Topic := {
  topic_id : Z;
  topic_title : str;
  topic_keywords : list str;
  topic_description : str
}.

(** The body of the [try] of [generate_topics]:
    [json.loads(response.choices[0].message.content)["topics"]] *)
Definition topics_of_response (r : response) : result json :=
  rbind (first_message r) (fun m =>
  rbind (loads_content (content m)) (fun v =>
  subscript v (u8 "topics"))).

Definition topics_request (keywords : str) (settings : pydict) : request :=
  let search_intent := dict_get settings (u8 "search_intent") (JStr (u8 "informacyjna")) in
  let complexity_level :=
    dict_get settings (u8 "complexity_level") (JStr (u8 "średniozaawansowany")) in
  let content_type := dict_get settings (u8 "content_type") (JStr (u8 "przewodnik")) in
  let num_topics := dict_get settings (u8 "num_topics") (JInt 5) in
  {| model := u8 "gpt-3.5-turbo";
     messages := TopicsPrompt
       {| tp_search_intent := search_intent;
          tp_complexity_level := complexity_level;
          tp_content_type := content_type;
          tp_num_topics := num_topics;
          tp_keywords := keywords |};
     temperature := Some (dict_get settings (u8 "temperature") (py_float "0.7"));
     top_p := Some (dict_get settings (u8 "top_p") (py_float "1.0"));
     max_tokens := Some (dict_get settings (u8 "max_tokens") (JInt 2000));
     response_format_json := true;
     web_search_options := None |}.

Definition generate_topics (keywords : str) (settings : pydict) : M json :=
  response <- chat_completions_create (topics_request keywords settings) ;;
  try_except
    (lift (topics_of_response response))
    (fun e => st StError (TopicsResponseError e) ;; ret (JArr [])).

(** *** Research *)

(** [for annotation in annotations: if hasattr(annotation, 'url_citation'):
    citations.append(annotation.url_citation.url)] *)
Fixpoint annotation_urls (l : list annotation) : result (list str) :=
  match l with
  | [] => Ok []
  | a :: l' =>
    match url_citation a with
    | Missing => annotation_urls l'
    | IsNone => Raise AttributeError
    | Has url => rbind (annotation_urls l') (fun urls => Ok (url :: urls))
    end
  end.

(** The citations of a message: the annotated ones, or else the URLs found
    in the text. *)
Definition citations_of (m : message) : result (list str) :=
  rbind
    (match annotations m with
     | Missing => Ok []
     | IsNone => Raise TypeError
     | Has l => annotation_urls l
     end)
    (fun citations =>
       match citations with
       | [] =>
         match content m with
         | Some text => Ok (list_of_set (remove_dups (re_findall url_pattern text)))
         | None => Raise TypeError
         end
       | _ => Ok citations
       end).

(** The domain names of the citations; a citation that is not a URL is
    passed over. *)
Fixpoint domains_of (citations : list str) : list str :=
  match citations with
  | [] => []
  | url :: rest =>
    match re_search domain_re url with
    | Some (domain :: _) => domain :: domains_of rest
    | _ => domains_of rest
    end
  end.

Definition research_request (topic : Topic) (search_context_size : json) : request :=
  {| model := u8 "gpt-4o-mini-search-preview";
     messages := ResearchPrompt
       {| rp_title := topic_title topic;
          rp_keywords := join (u8 ", ") (topic_keywords topic) |};
     temperature := None;
     top_p := None;
     max_tokens := None;
     response_format_json := false;
     web_search_options := Some (JObj [(u8 "search_context_size", search_context_size)]) |}.

(** The body of the [try] of [perform_web_research]. *)
Definition research_attempt (topic : Topic) (search_context_size : json)
    : M (option str) :=
  st StInfo UsingSearchModel ;;
  response <- chat_completions_create (research_request topic search_context_size) ;;
  m <- lift (first_message response) ;;
  citations <- lift (citations_of m) ;;
  let num_sources := length (remove_dups (domains_of citations)) in
  st StSuccess (ResearchFinished num_sources) ;;
  set_research_result (topic_id topic)
    {| rr_content := content m; rr_citations := citations |} ;;
  ret (content m).

(** Its [except] clause. *)
Definition research_failed (e : exn) : M (option str) :=
  st StError (ResearchFailed e) ;;
  st StWarning ResearchUnavailable ;;
  (if show_details_pressed
   then st StCode (ErrorDetails e) ;; st StMarkdown SearchRequirements
   else ret tt) ;;
  ret (Some []).

Definition perform_web_research (topic : Topic) (settings : pydict) : M (option str) :=
  if negb (truthy (dict_get settings (u8 "do_research") (JBool false)))
  then ret (Some [])
  else
    let search_context_size :=
      dict_get settings (u8 "search_context_size") (JStr (u8 "medium")) in
    st StInfo ResearchStarting ;;
    try_except (research_attempt topic search_context_size) research_failed.

(** *** Section lengths *)

(** [int(x)] for a rational: the fraction is dropped. *)
Definition py_int (x : Q) : Z := Z.quot (Qnum x) (Zpos (Qden x)).

(** The products [real_target * length_multiplier] of the source are exact
    in binary floating point, so they are computed as rationals. *)
Definition length_multiplier : Q := 1.25.

Record targets := {
  real_target : Z;
  display_target : Z;
  ai_target : Z;
  min_acceptable : Z
}.

Definition targets_for (real min : Z) : targets :=
  {| real_target := real;
     display_target := real;
     ai_target := py_int (inject_Z real * length_multiplier);
     min_acceptable := min |}.

(** The [if]/[elif]/[else] on [section_length] of the drafter. *)
Definition section_targets (section_length : json) : result targets :=
  rbind (py_in (u8 "krótka") section_length) (fun short =>
    if short then Ok (targets_for 225 180)
    else
      rbind (py_in (u8 "długa") section_length) (fun long =>
        if long then Ok (targets_for 400 320)
        else Ok (targets_for 300 240))).

(** The same test in the outline synthesizer, which keeps the target
    only. *)
Definition outline_target_words (section_length : json) : result Z :=
  rbind (py_in (u8 "krótka") section_length) (fun short =>
    if short then Ok 225%Z
    else
      rbind (py_in (u8 "długa") section_length) (fun long =>
        if long then Ok 400%Z else Ok 300%Z)).

Definition setting_section_length (settings : pydict) : json :=
  dict_get settings (u8 "section_length") (JStr (u8 "średnia (250-350 słów)")).

(** [self.research_results.get(topic["id"], {}).get("content", "")] *)
Definition cached_content (cache : gmap Z research_result) (topic : Topic) : option str :=
  match cache !! topic_id topic with
  | Some r => rr_content r
  | None => Some []
  end.

(** Truth value of a text that may be [None]. *)
Definition text_truthy (t : option str) : bool :=
  match t with
  | Some (_ :: _) => true
  | _ => false
  end.

Definition text_or_empty (t : option str) : str :=
  match t with
  | Some s => s
  | None => []
  end.

(** *** Outline *)

(** [engagement_elements.get(key, False)] as a condition *)
Definition engagement_enabled (engagement_elements : json) (key : string) : result bool :=
  rbind (method_get engagement_elements (u8 key) (JBool false)) (fun v => Ok (truthy v)).

Definition engagement_instructions (engagement_elements : json) : result (list str) :=
  rbind (engagement_enabled engagement_elements "rhetorical_questions") (fun q =>
  rbind (engagement_enabled engagement_elements "statistics_quotes") (fun s =>
  rbind (engagement_enabled engagement_elements "examples_cases") (fun e =>
  rbind (engagement_enabled engagement_elements "stories") (fun t =>
  Ok ((if q then [u8 "Wykorzystaj pytania retoryczne do angażowania czytelnika"] else [])
      ++ (if s then [u8 "Włącz dane statystyczne i cytaty ekspertów"] else [])
      ++ (if e then [u8 "Dodaj przykłady i case studies"] else [])
      ++ (if t then [u8 "Użyj historii i anegdot dla ilustracji punktów"] else [])))))).

Definition bullet : str := 0x0A%N :: u8 "- ".

Definition engagement_text_of (instructions : list str) : str :=
  match instructions with
  | [] => []
  | _ => bullet ++ join bullet instructions
  end.

(** The sections whose prompt is shorter than 200 characters. *)
Fixpoint short_prompts_of (sections : list json) : result (list json) :=
  match sections with
  | [] => Ok []
  | section :: rest =>
    rbind (method_get section (u8 "prompt") (JStr [])) (fun p =>
    rbind (py_len p) (fun n =>
    rbind (short_prompts_of rest) (fun shorts =>
    Ok (if (n <? 200)%nat then section :: shorts else shorts))))
  end.

(** The body of the [try] of [generate_article_outline]. *)
Definition outline_of_response (response : response) (num_sections : json)
    : M (option json) :=
  m <- lift (first_message response) ;;
  outline <- lift (loads_content (content m)) ;;
  sections <- lift (method_get outline (u8 "sections") (JArr [])) ;;
  n <- lift (py_len sections) ;;
  (if int_ne n num_sections
   then st StWarning (SectionCountMismatch n num_sections)
   else ret tt) ;;
  items <- lift (py_iter sections) ;;
  short_prompts <- lift (short_prompts_of items) ;;
  (match short_prompts with
   | [] => ret tt
   | _ => st StWarning (ShortPrompts (length short_prompts) num_sections)
   end) ;;
  ret (Some outline).

Definition outline_request (topic : Topic) (settings : pydict) (target_words : Z)
    (instructions : list str) (research_data : option str) : request :=
  let search_intent := dict_get settings (u8 "search_intent") (JStr (u8 "informacyjna")) in
  let complexity_level :=
    dict_get settings (u8 "complexity_level") (JStr (u8 "średniozaawansowany")) in
  let content_type := dict_get settings (u8 "content_type") (JStr (u8 "przewodnik")) in
  let num_sections := dict_get settings (u8 "num_sections") (JInt 7) in
  let reference_content :=
    if text_truthy research_data
    then u8 "Dane z researchu:" ++ [0x0A%N] ++ text_or_empty research_data
    else [] in
  {| model := u8 "gpt-4o-mini";
     messages := OutlinePrompt
       {| op_search_intent := search_intent;
          op_complexity_level := complexity_level;
          op_content_type := content_type;
          op_engagement_text := engagement_text_of instructions;
          op_target_words := target_words;
          op_num_sections := num_sections;
          op_title := topic_title topic;
          op_keywords := join (u8 ", ") (topic_keywords topic);
          op_description := topic_description topic;
          op_reference_content := reference_content |};
     temperature := Some (dict_get settings (u8 "temperature") (py_float "0.7"));
     top_p := Some (dict_get settings (u8 "top_p") (py_float "1.0"));
     max_tokens := Some (dict_get settings (u8 "max_tokens") (JInt 2000));
     response_format_json := true;
     web_search_options := None |}.

Definition generate_article_outline (topic : Topic) (settings : pydict)
    : M (option json) :=
  let engagement_elements := dict_get settings (u8 "engagement_elements") (JObj []) in
  let num_sections := dict_get settings (u8 "num_sections") (JInt 7) in
  target_words <- lift (outline_target_words (setting_section_length settings)) ;;
  instructions <- lift (engagement_instructions engagement_elements) ;;
  cache <- get_research_results ;;
  let research_data := cached_content cache topic in
  response <- chat_completions_create
    (outline_request topic settings target_words instructions research_data) ;;
  try_except
    (outline_of_response response num_sections)
    (fun e => st StError (OutlineResponseError e) ;; ret None).

(** *** Article *)

(** The fields of an outline and of its sections that the drafter reads. *)
Record Section_spec := {
  section_number : json;
  section_title : str;
  section_keywords : list str;
  section_prompt : str
}.

Record Outline := {
  article_title : str;
  target_audience : str;
  sections : list Section_spec
}.

Definition h3 (title : str) : str := u8 "<h3>" ++ title ++ u8 "</h3>".

Definition blank_line : str := [0x0A; 0x0A]%N.

(** [full_article[-4000:] if len(full_article) > 4000 else full_article] *)
Definition previous_context (full_article : str) : str :=
  if (4000 <? length full_article)%nat then slice_last 4000 full_article
  else full_article.

(** [research_content[:2000] if research_content else "Brak danych z researchu."] *)
Definition research_excerpt (research_content : option str) : str :=
  if text_truthy research_content
  then slice_first 2000 (text_or_empty research_content)
  else u8 "Brak danych z researchu.".

Definition section_request (outline : Outline) (settings : pydict) (tg : targets)
    (research_content : option str) (section : Section_spec) (full_article : str)
    : request :=
  {| model := u8 "gpt-4o-mini";
     messages := SectionPrompt
       {| sp_ai_target := ai_target tg;
          sp_title := section_title section;
          sp_keywords := join (u8 ", ") (section_keywords section);
          sp_prompt := section_prompt section;
          sp_section_number := section_number section;
          sp_section_count := length (sections outline);
          sp_article_title := article_title outline;
          sp_target_audience := target_audience outline;
          sp_previous_context := previous_context full_article;
          sp_research := research_excerpt research_content |};
     temperature := Some (dict_get settings (u8 "temperature") (py_float "0.8"));
     top_p := Some (dict_get settings (u8 "top_p") (py_float "1.0"));
     max_tokens := Some (JInt 2000);
     response_format_json := false;
     web_search_options := None |}.

(** [len(re.sub(r'<[^>]+>', '', section_content).split())] *)
Definition word_count (section_content : str) : nat :=
  length (split (re_sub tag_re [] section_content)).

(** [re.sub(r'<h3>.*?</h3>\s*', '', section_content)] *)
Definition strip_heading (section_content : str) : str :=
  re_sub h3_re [] section_content.

(** One round of the loop over the sections: [i] counts from 0, the state
    of the loop is the article so far and the words so far. *)
Definition draft_section (outline : Outline) (settings : pydict) (tg : targets)
    (research_content : option str) (i : nat) (section : Section_spec)
    (acc : str * nat) : M (str * nat) :=
  let (full_article, total_words) := acc in
  st StProgress (ProgressAt i (length (sections outline))) ;;
  st StProgressText
    (GeneratingSection (i + 1) (length (sections outline)) (section_title section)) ;;
  response <- chat_completions_create
    (section_request outline settings tg research_content section full_article) ;;
  m <- lift (first_message response) ;;
  section_content <-
    lift (match content m with Some s => Ok s | None => Raise TypeError end) ;;
  let section_word_count := word_count section_content in
  (if (min_acceptable tg <=? Z.of_nat section_word_count)%Z
   then st StSuccess (SectionWords (i + 1) section_word_count (display_target tg))
   else st StWarning (SectionWordsShort (i + 1) section_word_count (display_target tg))) ;;
  let section_content := strip_heading section_content in
  ret (full_article ++ h3 (section_title section) ++ blank_line
         ++ section_content ++ blank_line,
       (total_words + section_word_count)%nat).

Fixpoint draft_sections (outline : Outline) (settings : pydict) (tg : targets)
    (research_content : option str) (i : nat) (todo : list Section_spec)
    (acc : str * nat) : M (str * nat) :=
  match todo with
  | [] => ret acc
  | section :: rest =>
    acc' <- draft_section outline settings tg research_content i section acc ;;
    draft_sections outline settings tg research_content (S i) rest acc'
  end.

(** One entry of the bibliography. *)
Definition bibliography_item (citation : str) : str :=
  if startswith (u8 "http") citation then
    let clean_url :=
      if contains (u8 "?") citation
      then hd [] (split_on (chr "?") citation)
      else citation in
    dq (u8 "    <li><a href='") ++ clean_url ++ dq (u8 "' target='_blank'>")
      ++ clean_url ++ u8 "</a></li>" ++ [0x0A%N]
  else u8 "    <li>" ++ citation ++ u8 "</li>" ++ [0x0A%N].

Definition bibliography_block (citations : list str) : str :=
  [0x0A%N] ++ u8 "<h3>Bibliografia</h3>" ++ [0x0A%N] ++ u8 "<ol>" ++ [0x0A%N]
    ++ concat (map bibliography_item citations)
    ++ u8 "</ol>" ++ [0x0A%N].

(** The citations cached for the topic, none when the topic was not
    researched. *)
Definition cached_citations (cache : gmap Z research_result) (topic : Topic) : list str :=
  match cache !! topic_id topic with
  | Some r => rr_citations r
  | None => []
  end.

(** The end of the drafter: the article with its bibliography, if any. *)
Definition add_bibliography (settings : pydict) (citations : list str)
    (full_article : str) : str :=
  if truthy (dict_get settings (u8 "add_bibliography") (JBool true))
     && match citations with [] => false | _ => true end
  then full_article ++ bibliography_block citations
  else full_article.

Definition generate_article_section_by_section (outline : Outline) (topic : Topic)
    (settings : pydict) : M str :=
  cache <- get_research_results ;;
  let research_content := cached_content cache topic in
  tg <- lift (section_targets (setting_section_length settings)) ;;
  let full_article := h3 (article_title outline) ++ blank_line in
  st StProgress (ProgressAt 0 1) ;;
  drafted <- draft_sections outline settings tg research_content 0 (sections outline)
               (full_article, 0%nat) ;;
  let (full_article, total_words) := (drafted : str * nat) in
  st StProgress ProgressComplete ;;
  st StProgressText (GenerationFinished total_words) ;;
  cache <- get_research_results ;;
  let citations := cached_citations cache topic in
  let full_article := add_bibliography settings citations full_article in
  st StSuccess (ArticleLength total_words) ;;
  ret full_article.


(** ** Properties of the research stage *)

Definition research_enabled (settings : pydict) : bool :=
  truthy (dict_get settings (u8 "do_research") (JBool false)).

Definition search_context_size_of (settings : pydict) : json :=
  dict_get settings (u8 "search_context_size") (JStr (u8 "medium")).

(** The world after [st.info("Rozpoczynanie researchu internetowego...")]. *)
Definition research_started (w : world) : world :=
  {| calls := calls w; events := events w ++ [(StInfo, ResearchStarting)];
     research_results := research_results w |}.

(** What the [except] clause of the research stage shows. *)
Definition failure_report (e : exn) : list event :=
  [(StError, ResearchFailed e); (StWarning, ResearchUnavailable)]
    ++ (if show_details_pressed
        then [(StCode, ErrorDetails e); (StMarkdown, SearchRequirements)]
        else []).

Lemma research_failed_run (e : exn) (w : world) :
  research_failed e w =
    (Ok (Some []),
     {| calls := calls w; events := events w ++ failure_report e;
        research_results := research_results w |}).
Proof.
  unfold research_failed, failure_report, bind, st, ret.
  destruct show_details_pressed; simpl;
    rewrite <- ?app_assoc; reflexivity.
Qed.

Lemma perform_web_research_enabled topic settings w :
  research_enabled settings = true ->
  perform_web_research topic settings w =
    match research_attempt topic (search_context_size_of settings) (research_started w) with
    | (Ok c, w') => (Ok c, w')
    | (Raise e, w') => research_failed e w'
    end.
Proof.
  intros Hen. unfold perform_web_research.
  fold (research_enabled settings). rewrite Hen. simpl negb. cbv iota.
  unfold bind at 1. unfold st at 1. unfold try_except.
  fold (search_context_size_of settings). fold (research_started w).
  reflexivity.
Qed.

(** An attempt that raises leaves the cache as it found it. *)
Lemma research_attempt_raise_cache topic scs w e w' :
  research_attempt topic scs w = (Raise e, w') ->
  research_results w' = research_results w.
Proof.
  unfold research_attempt, bind, st, lift, ret,
    chat_completions_create, set_research_result.
  simpl.
  destruct (service _ _) as [resp|e1]; [|intros [= _ <-]; reflexivity].
  destruct (first_message resp) as [m|e1]; [|intros [= _ <-]; reflexivity].
  destruct (citations_of m) as [c|e1]; [|intros [= _ <-]; reflexivity].
  intros [=].
Qed.

Lemma research_attempt_service_raise topic scs w e :
  service (calls w) (research_request topic scs) = Raise e ->
  research_attempt topic scs w =
    (Raise e,
     {| calls := calls w ++ [research_request topic scs];
        events := events w ++ [(StInfo, UsingSearchModel)];
        research_results := research_results w |}).
Proof.
  intros Hs.
  unfold research_attempt, bind, st, chat_completions_create. simpl.
  rewrite Hs. reflexivity.
Qed.

(** C10. With [do_research] off (absent, [False] or any other false value)
    the research stage returns the empty string at once: no request is
    issued, nothing is shown, the cache is not touched. *)
Theorem research_disabled_is_noop (topic : Topic) (settings : pydict) (w : world) :
  research_enabled settings = false ->
  perform_web_research topic settings w = (Ok (Some []), w).
Proof.
  intros Hoff. unfold perform_web_research.
  fold (research_enabled settings). rewrite Hoff. reflexivity.
Qed.

(** C6. A failure raised inside the research stage does not leave it: the
    stage shows the error and the guidance on the library version and the
    search models, and returns the empty string.  This holds for whatever
    the attempt raises, and in particular when the service itself raises
    (unavailable, or refusing the search options). *)
Theorem research_failure_is_contained (topic : Topic) (settings : pydict) (w : world) :
  research_enabled settings = true ->
  (forall e w',
     research_attempt topic (search_context_size_of settings) (research_started w)
       = (Raise e, w') ->
     perform_web_research topic settings w =
       (Ok (Some []),
        {| calls := calls w'; events := events w' ++ failure_report e;
           research_results := research_results w' |}))
  /\
  (forall e,
     service (calls w) (research_request topic (search_context_size_of settings))
       = Raise e ->
     perform_web_research topic settings w =
       (Ok (Some []),
        {| calls := calls w ++ [research_request topic (search_context_size_of settings)];
           events := events w ++ [(StInfo, ResearchStarting); (StInfo, UsingSearchModel)]
                       ++ failure_report e;
           research_results := research_results w |})).
Proof.
  intros Hen. split.
  - intros e w' Hrun.
    rewrite (perform_web_research_enabled _ _ _ Hen), Hrun.
    apply research_failed_run.
  - intros e Hs.
    rewrite (perform_web_research_enabled _ _ _ Hen).
    rewrite (research_attempt_service_raise _ _ (research_started w) e) by exact Hs.
    rewrite research_failed_run. simpl.
    rewrite <- !app_assoc. reflexivity.
Qed.

(** C9. When the research stage ends in its error branch, the cache of
    research results is the one it started with; a result cached earlier
    for the topic is still there. *)
Theorem research_error_keeps_cache (topic : Topic) (settings : pydict) (w : world)
    (e : exn) (w' : world) :
  research_enabled settings = true ->
  research_attempt topic (search_context_size_of settings) (research_started w)
    = (Raise e, w') ->
  research_results (snd (perform_web_research topic settings w)) = research_results w
  /\ research_results (snd (perform_web_research topic settings w)) !! topic_id topic
     = research_results w !! topic_id topic.
Proof.
  intros Hen Hrun.
  assert (Hcache :
    research_results (snd (perform_web_research topic settings w)) = research_results w).
  { rewrite (perform_web_research_enabled _ _ _ Hen), Hrun, research_failed_run.
    simpl. apply (research_attempt_raise_cache _ _ _ _ _ Hrun). }
  split; [exact Hcache | rewrite Hcache; reflexivity].
Qed.

(** ** Properties of the drafter *)

Lemma section_targets_cases (section_length : json) (tg : targets) :
  section_targets section_length = Ok tg ->
  tg = targets_for 225 180 \/ tg = targets_for 400 320 \/ tg = targets_for 300 240.
Proof.
  unfold section_targets, rbind.
  destruct (py_in (u8 "krótka") section_length) as [[|]|]; try discriminate.
  - intros [= <-]. auto.
  - destruct (py_in (u8 "długa") section_length) as [[|]|]; try discriminate;
      intros [= <-]; auto.
Qed.

(** C1. Whatever the settings, the targets that the drafter computes have
    the minimum acceptable count below both the inflated target, which is
    the integer part of 1.25 times the original target, and the original
    target.  They are computed for every [section_length] that is a
    string (and for a missing one). *)
Theorem min_acceptable_below_targets (settings : pydict) :
  (forall s, setting_section_length settings = JStr s ->
     exists tg, section_targets (setting_section_length settings) = Ok tg)
  /\
  (forall tg, section_targets (setting_section_length settings) = Ok tg ->
     ai_target tg = py_int (inject_Z (real_target tg) * length_multiplier)
     /\ (min_acceptable tg <= ai_target tg)%Z
     /\ (min_acceptable tg <= real_target tg)%Z).
Proof.
  split.
  - intros s ->. unfold section_targets, rbind, py_in.
    destruct (contains (u8 "krótka") s); [eauto|].
    destruct (contains (u8 "długa") s); eauto.
  - intros tg Htg.
    destruct (section_targets_cases _ _ Htg) as [-> | [-> | ->]];
      vm_compute; repeat split; discriminate.
Qed.

(** What the drafter shows about the length of section number [k]. *)
Definition length_report (tg : targets) (k : nat) (words : nat) : event :=
  if (min_acceptable tg <=? Z.of_nat words)%Z
  then (StSuccess, SectionWords k words (display_target tg))
  else (StWarning, SectionWordsShort k words (display_target tg)).

(** One round of the loop when the service answers with the text [text]. *)
Lemma draft_section_run outline settings tg research i section article total w
    resp m text :
  service (calls w) (section_request outline settings tg research section article)
    = Ok resp ->
  first_message resp = Ok m ->
  content m = Some text ->
  draft_section outline settings tg research i section (article, total) w =
    (Ok (article ++ h3 (section_title section) ++ blank_line
           ++ strip_heading text ++ blank_line,
         (total + word_count text)%nat),
     {| calls := calls w
                   ++ [section_request outline settings tg research section article];
        events := events w
                    ++ [(StProgress, ProgressAt i (length (sections outline)));
                        (StProgressText,
                         GeneratingSection (i + 1) (length (sections outline))
                           (section_title section));
                        length_report tg (i + 1) (word_count text)];
        research_results := research_results w |}).
Proof.
  intros Hs Hm Hc.
  unfold draft_section, bind, st, lift, ret, chat_completions_create, length_report.
  simpl. rewrite Hs, Hm, Hc.
  destruct (min_acceptable tg <=? Z.of_nat (word_count text))%Z;
    simpl; rewrite <- !app_assoc; reflexivity.
Qed.



(** C3, as the code has it.  The word count shown for a section, and added
    to the total, is taken from the answer of the service as it came: its
    tags are removed and the tokens between white space are counted, the
    words of a heading that the model wrote again included.  The heading
    is removed afterwards, and only from the text that goes into the
    article. *)
Theorem word_count_precedes_heading_removal
    outline settings tg research i section article total w resp m text :
  service (calls w) (section_request outline settings tg research section article)
    = Ok resp ->
  first_message resp = Ok m ->
  content m = Some text ->
  let run := draft_section outline settings tg research i section (article, total) w in
  let counted := length (split (re_sub tag_re [] text)) in
  fst run = Ok (article ++ h3 (section_title section) ++ blank_line
                  ++ re_sub h3_re [] text ++ blank_line,
                (total + counted)%nat)
  /\ last (events (snd run)) = Some (length_report tg (i + 1) counted).
Proof.
  intros Hs Hm Hc run counted. subst run counted.
  rewrite (draft_section_run _ _ _ _ _ _ _ _ _ _ _ _ Hs Hm Hc).
  cbn [fst snd events]. split; [reflexivity|].
  rewrite last_app. reflexivity.
Qed.

(** The continuity context of a request for a section. *)
Definition request_context (r : request) : option str :=
  match messages r with
  | SectionPrompt p => Some (sp_previous_context p)
  | _ => None
  end.

(** *** Bibliography *)

(** The part of a text before its first question mark. *)
Fixpoint before_question_mark (s : str) : str :=
  match s with
  | [] => []
  | c :: s' => if (c =? chr "?")%N then [] else c :: before_question_mark s'
  end.

(** How the specification describes one entry: a link to the citation
    without its query for what starts with [http], the citation itself
    otherwise. *)
Definition rendered_citation (citation : str) : str :=
  if startswith (u8 "http") citation
  then dq (u8 "    <li><a href='") ++ before_question_mark citation
         ++ dq (u8 "' target='_blank'>") ++ before_question_mark citation
         ++ u8 "</a></li>" ++ [0x0A%N]
  else u8 "    <li>" ++ citation ++ u8 "</li>" ++ [0x0A%N].

Lemma split_on_go_head (cur s : str) :
  hd [] (split_on_go (chr "?") cur s) = rev cur ++ before_question_mark s.
Proof.
  revert cur. induction s as [|c s IH]; intros cur; simpl.
  - rewrite app_nil_r. reflexivity.
  - destruct (c =? chr "?")%N; simpl.
    + rewrite app_nil_r. reflexivity.
    + rewrite IH. simpl. rewrite <- app_assoc. reflexivity.
Qed.

Lemma no_question_mark (s : str) :
  contains (u8 "?") s = false -> before_question_mark s = s.
Proof.
  change (u8 "?") with [chr "?"].
  induction s as [|c s IH]; [reflexivity|].
  cbn [contains startswith]. intros Hs.
  apply orb_false_iff in Hs as [Hc Hs].
  rewrite andb_true_r in Hc.
  cbn [before_question_mark]. rewrite N.eqb_sym, Hc.
  f_equal. apply IH, Hs.
Qed.

Lemma bibliography_item_rendered (citation : str) :
  bibliography_item citation = rendered_citation citation.
Proof.
  unfold bibliography_item, rendered_citation.
  destruct (startswith (u8 "http") citation); [|reflexivity].
  assert (Hclean :
    (if contains (u8 "?") citation then hd [] (split_on (chr "?") citation) else citation)
    = before_question_mark citation).
  { destruct (contains (u8 "?") citation) eqn:Hq.
    - unfold split_on. rewrite split_on_go_head. reflexivity.
    - symmetry. apply no_question_mark. exact Hq. }
  rewrite Hclean. reflexivity.
Qed.

Lemma draft_section_cache outline settings tg research i section acc w :
  research_results (snd (draft_section outline settings tg research i section acc w))
  = research_results w.
Proof.
  destruct acc as [article total].
  unfold draft_section, bind, st, lift, ret, chat_completions_create. simpl.
  destruct (service _ _) as [resp|e]; [|reflexivity].
  destruct (first_message resp) as [m|e]; [|reflexivity].
  destruct (content m) as [text|]; [|reflexivity].
  destruct (min_acceptable tg <=? _)%Z; reflexivity.
Qed.

Lemma draft_sections_cache outline settings tg research todo :
  forall i acc w,
    research_results (snd (draft_sections outline settings tg research i todo acc w))
    = research_results w.
Proof.
  induction todo as [|section rest IH]; intros i acc w; [reflexivity|].
  cbn [draft_sections]. unfold bind.
  pose proof (draft_section_cache outline settings tg research i section acc w) as Hstep.
  destruct (draft_section outline settings tg research i section acc w) as [[acc'|e] w1].
  - rewrite IH. exact Hstep.
  - exact Hstep.
Qed.

(** The world in which the loop over the sections starts. *)
Definition drafting_started (w : world) : world :=
  {| calls := calls w; events := events w ++ [(StProgress, ProgressAt 0 1)];
     research_results := research_results w |}.

(** A drafter that returns has run the loop over all the sections and then
    added the bibliography for the citations cached for the topic. *)
Lemma generate_article_returns outline topic settings w article w' :
  generate_article_section_by_section outline topic settings w = (Ok article, w') ->
  exists tg body total w1,
    section_targets (setting_section_length settings) = Ok tg
    /\ draft_sections outline settings tg (cached_content (research_results w) topic) 0
         (sections outline) (h3 (article_title outline) ++ blank_line, 0%nat)
         (drafting_started w)
       = (Ok (body, total), w1)
    /\ article
       = add_bibliography settings (cached_citations (research_results w) topic) body.
Proof.
  unfold generate_article_section_by_section, bind, get_research_results, lift, st, ret.
  destruct (section_targets (setting_section_length settings)) as [tg|e] eqn:Htg;
    [|discriminate].
  fold (drafting_started w).
  pose proof (draft_sections_cache outline settings tg
                (cached_content (research_results w) topic) (sections outline) 0
                (h3 (article_title outline) ++ blank_line, 0%nat) (drafting_started w))
    as Hcache.
  destruct (draft_sections _ _ _ _ _ _ _ _) as [[[body total]|e] w1] eqn:Hd;
    [|discriminate].
  cbn [snd drafting_started research_results] in Hcache.
  cbn [research_results]. rewrite Hcache.
  intros [= <- _]. exists tg, body, total, w1. auto.
Qed.

Definition bibliography_enabled (settings : pydict) : bool :=
  truthy (dict_get settings (u8 "add_bibliography") (JBool true)).

(** C4. A drafter that returns has drafted the sections and then looked up
    the topic in the cache of research results.  When the bibliography
    setting is on and the entry of the topic holds citations, the article
    is the drafted sections followed by an ordered list with one entry per
    citation: a link to the citation cut at its first question mark for a
    citation that starts with [http], the citation as text for any other.
    When the setting is off, or the cache has no entry for the topic, or the
    entry holds no citation, the article is the drafted sections alone. *)
Theorem bibliography_is_appended outline topic settings w article w' :
  generate_article_section_by_section outline topic settings w = (Ok article, w') ->
  exists tg body total w1,
    section_targets (setting_section_length settings) = Ok tg
    /\ draft_sections outline settings tg (cached_content (research_results w) topic) 0
         (sections outline) (h3 (article_title outline) ++ blank_line, 0%nat)
         (drafting_started w)
       = (Ok (body, total), w1)
    /\ (forall r,
          research_results w !! topic_id topic = Some r ->
          bibliography_enabled settings = true ->
          rr_citations r <> [] ->
          article
          = body ++ [0x0A%N] ++ u8 "<h3>Bibliografia</h3>" ++ [0x0A%N]
              ++ u8 "<ol>" ++ [0x0A%N]
              ++ concat (map rendered_citation (rr_citations r))
              ++ u8 "</ol>" ++ [0x0A%N])
    /\ (bibliography_enabled settings = false
        \/ research_results w !! topic_id topic = None
        \/ (exists r, research_results w !! topic_id topic = Some r
                      /\ rr_citations r = []) ->
        article = body)
    /\ (forall citation,
          startswith (u8 "http") citation = true ->
          rendered_citation citation
          = dq (u8 "    <li><a href='") ++ before_question_mark citation
              ++ dq (u8 "' target='_blank'>") ++ before_question_mark citation
              ++ u8 "</a></li>" ++ [0x0A%N])
    /\ (forall citation,
          startswith (u8 "http") citation = false ->
          rendered_citation citation
          = u8 "    <li>" ++ citation ++ u8 "</li>" ++ [0x0A%N])
    /\ rendered_citation (u8 "https://example.com/article?utm=1")
       = dq (u8 "    <li><a href='https://example.com/article' target='_blank'>https://example.com/article</a></li>")
           ++ [0x0A%N].
Proof.
  intros Hrun.
  destruct (generate_article_returns _ _ _ _ _ _ Hrun)
    as (tg & body & total & w1 & Htg & Hd & Ha).
  exists tg, body, total, w1. split; [exact Htg|]. split; [exact Hd|].
  unfold add_bibliography, cached_citations in Ha.
  fold (bibliography_enabled settings) in Ha.
  split; [|split; [|split; [|split]]].
  - intros r Hr Hen Hne. rewrite Hr, Hen in Ha.
    destruct (rr_citations r) as [|c cs] eqn:Hc; [congruence|].
    cbn [andb] in Ha. rewrite Ha. unfold bibliography_block.
    rewrite (map_ext _ _ bibliography_item_rendered). reflexivity.
  - intros [Hoff | [Hnone | (r & Hr & Hnil)]].
    + rewrite Hoff in Ha. exact Ha.
    + rewrite Hnone, andb_false_r in Ha. exact Ha.
    + rewrite Hr, Hnil, andb_false_r in Ha. exact Ha.
  - intros citation Hhttp. unfold rendered_citation. rewrite Hhttp. reflexivity.
  - intros citation Hhttp. unfold rendered_citation. rewrite Hhttp. reflexivity.
  - vm_compute. reflexivity.
Qed.

(** *** Continuity context *)

(** A text is the trailing window of an article: a suffix of it of at most
    4000 characters, the whole article when it has at most 4000 characters
    and its last 4000 otherwise. *)
Definition trailing_window (article ctx : str) : Prop :=
  (exists front, article = front ++ ctx)
  /\ (length ctx <= 4000)%nat
  /\ ((length article <= 4000)%nat -> ctx = article)
  /\ ((4000 < length article)%nat ->
      ctx = drop (length article - 4000) article /\ length ctx = 4000%nat).

Lemma previous_context_window (article : str) :
  trailing_window article (previous_context article).
Proof.
  unfold trailing_window, previous_context, slice_last.
  destruct (4000 <? length article)%nat eqn:Hlen.
  - apply Nat.ltb_lt in Hlen.
    split; [exists (take (length article - 4000) article); symmetry; apply take_drop|].
    rewrite length_drop.
    split; [lia|]. split; [lia|]. intros _. split; [reflexivity|lia].
  - apply Nat.ltb_ge in Hlen.
    split; [exists []; reflexivity|].
    split; [lia|]. split; [reflexivity|]. lia.
Qed.

(** The text with which the service answers a request, if it does. *)
Definition answer_text (history : list request) (req : request) : option str :=
  match service history req with
  | Ok resp =>
    match first_message resp with
    | Ok m => content m
    | Raise _ => None
    end
  | Raise _ => None
  end.

(** The article accumulated so far, section by section: the sections for
    which a request goes out, each with the article as it stands when its
    request is built.  The article starts as [article]; a section that is
    answered adds its heading and the text of the answer without a heading
    of its own; at a section that is not answered the drafting ends. *)
Fixpoint accumulated (outline : Outline) (settings : pydict) (tg : targets)
    (research : option str) (history : list request) (article : str)
    (todo : list Section_spec) : list (Section_spec * str) :=
  match todo with
  | [] => []
  | section :: rest =>
    let req := section_request outline settings tg research section article in
    (section, article) ::
    match answer_text history req with
    | Some text =>
      accumulated outline settings tg research (history ++ [req])
        (article ++ h3 (section_title section) ++ blank_line
           ++ strip_heading text ++ blank_line)
        rest
    | None => []
    end
  end.

(** The request [req] is the one for [section] built on [article], and its
    continuity context is the trailing window of [article]. *)
Definition carries_window (outline : Outline) (settings : pydict) (tg : targets)
    (research : option str) (req : request) (drafted : Section_spec * str) : Prop :=
  req = section_request outline settings tg research (fst drafted) (snd drafted)
  /\ request_context req = Some (previous_context (snd drafted))
  /\ trailing_window (snd drafted) (previous_context (snd drafted)).

Lemma section_request_carries_window outline settings tg research section article :
  carries_window outline settings tg research
    (section_request outline settings tg research section article) (section, article).
Proof.
  split; [reflexivity|]. split; [reflexivity|]. apply previous_context_window.
Qed.

(** A round of the loop that gets no answer raises after its request. *)
Lemma draft_section_unanswered outline settings tg research i section article total w :
  answer_text (calls w) (section_request outline settings tg research section article)
    = None ->
  exists e w1,
    draft_section outline settings tg research i section (article, total) w
    = (Raise e, w1)
    /\ calls w1
       = calls w ++ [section_request outline settings tg research section article].
Proof.
  unfold answer_text, draft_section, bind, st, lift, chat_completions_create.
  cbn [calls events research_results].
  destruct (service _ _) as [resp|e]; [|intros _; eexists _, _; split; reflexivity].
  destruct (first_message resp) as [m|e]; [|intros _; eexists _, _; split; reflexivity].
  intros ->. eexists _, _. split; reflexivity.
Qed.

(** The requests of the loop are those for the sections in turn, each built
    on the article accumulated so far. *)
Lemma draft_sections_requests outline settings tg research todo :
  forall i article total w,
    exists reqs,
      calls (snd (draft_sections outline settings tg research i todo (article, total) w))
      = calls w ++ reqs
      /\ Forall2 (carries_window outline settings tg research) reqs
           (accumulated outline settings tg research (calls w) article todo).
Proof.
  induction todo as [|section rest IH]; intros i article total w.
  - exists []. cbn [draft_sections accumulated ret snd]. rewrite app_nil_r.
    split; [reflexivity|constructor].
  - cbn [draft_sections accumulated]. unfold bind.
    destruct (answer_text (calls w)
                (section_request outline settings tg research section article))
      as [text|] eqn:Hanswer.
    + assert (Hrun : exists resp m,
                service (calls w)
                  (section_request outline settings tg research section article)
                = Ok resp
                /\ first_message resp = Ok m /\ content m = Some text).
      { unfold answer_text in Hanswer.
        destruct (service _ _) as [resp|e]; [|discriminate].
        destruct (first_message resp) as [m|e] eqn:Hm; [|discriminate].
        exists resp, m. auto. }
      destruct Hrun as (resp & m & Hs & Hm & Hc).
      rewrite (draft_section_run _ _ _ _ i _ _ total _ _ _ _ Hs Hm Hc).
      cbv beta iota.
      match goal with
      | |- context [draft_sections _ _ _ _ (S i) rest (?a, ?t) ?w1] =>
        destruct (IH (S i) a t w1) as (reqs & Hcalls & Hall)
      end.
      cbn [calls] in Hcalls, Hall.
      exists (section_request outline settings tg research section article :: reqs).
      split.
      * etransitivity; [exact Hcalls|]. rewrite <- app_assoc. reflexivity.
      * constructor; [apply section_request_carries_window|exact Hall].
    + destruct (draft_section_unanswered outline settings tg research i section
                  article total w Hanswer) as (e & w1 & -> & Hcalls).
      exists [section_request outline settings tg research section article].
      cbn [snd]. split; [exact Hcalls|].
      constructor; [apply section_request_carries_window|constructor].
Qed.

(** C7. The requests that the drafter issues are those for the sections of
    the outline in turn, as far as the service answers, and each is built
    on the article accumulated so far: the title, then the heading and the
    text of every section drafted before.  The continuity context of each
    request is a suffix of that article of at most 4000 characters: the
    whole article when it has at most 4000 characters, its last 4000
    otherwise. *)
Theorem previous_context_is_trailing_window outline topic settings w tg :
  section_targets (setting_section_length settings) = Ok tg ->
  let research := cached_content (research_results w) topic in
  exists reqs,
    calls (snd (generate_article_section_by_section outline topic settings w))
    = calls w ++ reqs
    /\ Forall2 (carries_window outline settings tg research) reqs
         (accumulated outline settings tg research (calls w)
            (h3 (article_title outline) ++ blank_line) (sections outline)).
Proof.
  intros Htg research. subst research.
  destruct (draft_sections_requests outline settings tg
              (cached_content (research_results w) topic) (sections outline) 0
              (h3 (article_title outline) ++ blank_line) 0%nat (drafting_started w))
    as (reqs & Hcalls & Hall).
  cbn [calls drafting_started] in Hcalls, Hall.
  exists reqs. split; [|exact Hall].
  unfold generate_article_section_by_section, bind, get_research_results, lift, st, ret.
  rewrite Htg. fold (drafting_started w).
  destruct (draft_sections _ _ _ _ _ _ _ _) as [[[body total]|e] w1];
    cbn [snd calls] in Hcalls |- *; exact Hcalls.
Qed.

(** ** Properties of the stages that parse an answer *)

(** The world after one more request. *)
Definition requested (req : request) (w : world) : world :=
  {| calls := calls w ++ [req]; events := events w;
     research_results := research_results w |}.

(** What the topic proposer finds in an answer: the value under the key
    [topics] of the JSON object in the body of the first message.  There is
    none when the answer has no message, the message no body, the body is
    not JSON, the JSON is not an object or the object has no such key. *)
Definition topics_in (resp : response) : option json :=
  match first_message resp with
  | Ok m =>
    match loads_content (content m) with
    | Ok (JObj kvs) => dict_lookup kvs (u8 "topics")
    | _ => None
    end
  | Raise _ => None
  end.

(** A value that has a length. *)
Definition has_len (v : json) : bool :=
  match v with
  | JStr _ | JArr _ | JObj _ => true
  | _ => false
  end.

(** A section that the check of the prompts can read: an object whose
    [prompt], if it has one, has a length. *)
Definition section_readable (item : json) : bool :=
  match item with
  | JObj kvs => has_len (dict_get kvs (u8 "prompt") (JStr []))
  | _ => false
  end.

(** Sections that the two checks can read: a list of readable sections.
    An empty string and an empty object pass too, there being nothing in
    them to read. *)
Definition sections_readable (sections : json) : bool :=
  match sections with
  | JArr l => forallb section_readable l
  | JStr [] => true
  | JObj [] => true
  | _ => false
  end.

(** What the outline synthesizer finds in an answer: the JSON object in the
    body of the first message, when its [sections], an empty list if it has
    none, can be read. *)
Definition outline_in (resp : response) : option pydict :=
  match first_message resp with
  | Ok m =>
    match loads_content (content m) with
    | Ok (JObj kvs) =>
      if sections_readable (dict_get kvs (u8 "sections") (JArr [])) then Some kvs
      else None
    | _ => None
    end
  | Raise _ => None
  end.

Definition is_warning (ev : event) : Prop := fst ev = StWarning.

Lemma topics_of_response_in (resp : response) :
  match topics_in resp with
  | Some v => topics_of_response resp = Ok v
  | None => exists e, topics_of_response resp = Raise e
  end.
Proof.
  unfold topics_in, topics_of_response, rbind.
  destruct (first_message resp) as [m|e]; [|eauto].
  destruct (loads_content (content m)) as [v|e]; [|eauto].
  destruct v; cbn [subscript]; eauto.
  destruct (dict_lookup _ _); eauto.
Qed.

Lemma short_prompts_of_readable (items : list json) :
  forallb section_readable items = true ->
  exists shorts, short_prompts_of items = Ok shorts.
Proof.
  induction items as [|item items IH]; cbn [forallb short_prompts_of]; [eauto|].
  intros Hall. apply andb_true_iff in Hall as [Hitem Hall].
  destruct (IH Hall) as [shorts ->].
  destruct item; try discriminate. cbn [section_readable] in Hitem.
  cbn [method_get rbind].
  destruct (dict_get _ _ _); try discriminate; cbn [py_len rbind]; eauto.
Qed.

Lemma short_prompts_of_unreadable (items : list json) :
  forallb section_readable items = false ->
  exists e, short_prompts_of items = Raise e.
Proof.
  induction items as [|item items IH]; cbn [forallb short_prompts_of]; [discriminate|].
  intros Hall.
  destruct item; cbn [method_get rbind]; eauto.
  cbn [section_readable] in Hall.
  destruct (dict_get _ _ _); cbn [py_len rbind has_len andb] in *; eauto;
    destruct (IH Hall) as [e ->]; cbn [rbind]; eauto.
Qed.

(** The checks of the outline synthesizer on sections that can be read. *)
Lemma outline_checks_pass (outline : json) (sections : json) (num_sections : json)
    (w : world) :
  sections_readable sections = true ->
  exists shown,
    Forall is_warning shown
    /\ (n <- lift (py_len sections) ;;
        (if int_ne n num_sections
         then st StWarning (SectionCountMismatch n num_sections)
         else ret tt) ;;
        items <- lift (py_iter sections) ;;
        short_prompts <- lift (short_prompts_of items) ;;
        (match short_prompts with
         | [] => ret tt
         | _ => st StWarning (ShortPrompts (length short_prompts) num_sections)
         end) ;;
        ret (Some outline)) w
       = (Ok (Some outline),
          {| calls := calls w; events := events w ++ shown;
             research_results := research_results w |}).
Proof.
  intros Hread.
  assert (Hitems : exists n items shorts,
            py_len sections = Ok n /\ py_iter sections = Ok items
            /\ short_prompts_of items = Ok shorts).
  { destruct sections as [ | | | | s | l | kvs]; try discriminate.
    - destruct s; [|discriminate]. exists 0%nat, [], []. auto.
    - destruct (short_prompts_of_readable l Hread) as [shorts Hshorts].
      exists (length l), l, shorts. auto.
    - destruct kvs; [|discriminate]. exists 0%nat, [], []. auto. }
  destruct Hitems as (n & items & shorts & -> & -> & Hshorts).
  unfold bind, lift, st, ret. rewrite Hshorts.
  destruct (int_ne n num_sections); destruct shorts as [|s shorts];
    cbn [calls events research_results].
  - exists [(StWarning, SectionCountMismatch n num_sections)].
    split; [repeat constructor|reflexivity].
  - exists [(StWarning, SectionCountMismatch n num_sections);
            (StWarning, ShortPrompts (length (s :: shorts)) num_sections)].
    split; [repeat constructor|]. rewrite <- app_assoc. reflexivity.
  - exists []. split; [apply List.Forall_nil|]. rewrite app_nil_r. destruct w; reflexivity.
  - exists [(StWarning, ShortPrompts (length (s :: shorts)) num_sections)].
    split; [repeat constructor|reflexivity].
Qed.

(** The same checks on sections that cannot be read. *)
Lemma outline_checks_fail (outline : json) (sections : json) (num_sections : json)
    (w : world) :
  sections_readable sections = false ->
  exists e shown,
    Forall is_warning shown
    /\ (n <- lift (py_len sections) ;;
        (if int_ne n num_sections
         then st StWarning (SectionCountMismatch n num_sections)
         else ret tt) ;;
        items <- lift (py_iter sections) ;;
        short_prompts <- lift (short_prompts_of items) ;;
        (match short_prompts with
         | [] => ret tt
         | _ => st StWarning (ShortPrompts (length short_prompts) num_sections)
         end) ;;
        ret (Some outline)) w
       = (Raise e,
          {| calls := calls w; events := events w ++ shown;
             research_results := research_results w |}).
Proof.
  intros Hread.
  assert (Hnone : forall e,
            (Raise e, w)
            = (@Raise (option json) e,
               {| calls := calls w; events := events w ++ [];
                  research_results := research_results w |})).
  { intros e. rewrite app_nil_r. destruct w; reflexivity. }
  assert (Hitems :
    (exists e, py_len sections = Raise e)
    \/ exists n items e,
         py_len sections = Ok n /\ py_iter sections = Ok items
         /\ short_prompts_of items = Raise e).
  { destruct sections as [ | | | | s | l | kvs]; cbn [py_len]; eauto; right.
    - destruct s as [|c s]; [discriminate|].
      exists (length (c :: s)), (map (fun c => JStr [c]) (c :: s)), AttributeError.
      auto.
    - destruct (short_prompts_of_unreadable l Hread) as [e He].
      exists (length l), l, e. auto.
    - destruct kvs as [|kv kvs]; [discriminate|].
      exists (length (kv :: kvs)), (map (fun kv => JStr (fst kv)) (kv :: kvs)),
        AttributeError.
      auto. }
  destruct Hitems as [[e ->] | (n & items & e & -> & -> & Hshorts)].
  - exists e, []. split; [apply List.Forall_nil|]. unfold bind, lift. apply Hnone.
  - exists e. unfold bind, lift, st, ret. rewrite Hshorts.
    destruct (int_ne n num_sections); cbn [calls events research_results].
    + exists [(StWarning, SectionCountMismatch n num_sections)].
      split; [repeat constructor|reflexivity].
    + exists []. split; [apply List.Forall_nil|]. apply Hnone.
Qed.

Lemma outline_of_response_in (resp : response) (num_sections : json) (w : world) :
  exists shown,
    Forall is_warning shown
    /\ match outline_in resp with
       | Some kvs =>
         outline_of_response resp num_sections w
         = (Ok (Some (JObj kvs)),
            {| calls := calls w; events := events w ++ shown;
               research_results := research_results w |})
       | None =>
         exists e,
           outline_of_response resp num_sections w
           = (Raise e,
              {| calls := calls w; events := events w ++ shown;
                 research_results := research_results w |})
       end.
Proof.
  assert (Hnone : forall e,
            (Raise e, w)
            = (@Raise (option json) e,
               {| calls := calls w; events := events w ++ [];
                  research_results := research_results w |})).
  { intros e. rewrite app_nil_r. destruct w; reflexivity. }
  unfold outline_in, outline_of_response, bind, lift.
  destruct (first_message resp) as [m|e];
    [|exists []; split; [apply List.Forall_nil|exists e; apply Hnone]].
  destruct (loads_content (content m)) as [v|e];
    [|exists []; split; [apply List.Forall_nil|exists e; apply Hnone]].
  destruct v as [ | | | | | |kvs]; cbn [method_get];
    try (exists []; split; [apply List.Forall_nil|exists AttributeError; apply Hnone]).
  destruct (sections_readable (dict_get kvs (u8 "sections") (JArr []))) eqn:Hread.
  - destruct (outline_checks_pass (JObj kvs) _ num_sections w Hread)
      as (shown & Hshown & Hrun).
    exists shown. split; [exact Hshown|exact Hrun].
  - destruct (outline_checks_fail (JObj kvs) _ num_sections w Hread)
      as (e & shown & Hshown & Hrun).
    exists shown. split; [exact Hshown|]. exists e. exact Hrun.
Qed.

(** C5, as the code has it.  Each of the two stages issues one request and
    reads the answer once.  The topic proposer shows an error and returns
    the empty list exactly when it finds no topics in the answer, and
    returns what it finds otherwise, whatever that is.  The outline
    synthesizer shows an error and returns [None] exactly when it finds no
    outline in the answer, and returns the outline it finds otherwise; before
    either it shows warnings at most. *)
Theorem unreadable_answer_gives_empty_result :
  (forall keywords settings w resp,
     service (calls w) (topics_request keywords settings) = Ok resp ->
     match topics_in resp with
     | None =>
       exists e,
         generate_topics keywords settings w =
           (Ok (JArr []),
            {| calls := calls w ++ [topics_request keywords settings];
               events := events w ++ [(StError, TopicsResponseError e)];
               research_results := research_results w |})
     | Some v =>
       generate_topics keywords settings w
       = (Ok v, requested (topics_request keywords settings) w)
     end)
  /\
  (forall topic settings w target_words instructions resp,
     outline_target_words (setting_section_length settings) = Ok target_words ->
     engagement_instructions (dict_get settings (u8 "engagement_elements") (JObj []))
       = Ok instructions ->
     let req := outline_request topic settings target_words instructions
                  (cached_content (research_results w) topic) in
     service (calls w) req = Ok resp ->
     exists shown,
       Forall is_warning shown
       /\ match outline_in resp with
          | None =>
            exists e,
              generate_article_outline topic settings w =
                (Ok None,
                 {| calls := calls w ++ [req];
                    events := events w ++ shown ++ [(StError, OutlineResponseError e)];
                    research_results := research_results w |})
          | Some kvs =>
            generate_article_outline topic settings w =
              (Ok (Some (JObj kvs)),
               {| calls := calls w ++ [req];
                  events := events w ++ shown;
                  research_results := research_results w |})
          end).
Proof.
  split.
  - intros keywords settings w resp Hs.
    pose proof (topics_of_response_in resp) as Hin.
    unfold generate_topics, bind, try_except, lift, chat_completions_create, st, ret.
    rewrite Hs.
    destruct (topics_in resp) as [v|].
    + rewrite Hin. reflexivity.
    + destruct Hin as [e ->]. exists e. reflexivity.
  - intros topic settings w target_words instructions resp Htw Hins req Hs.
    subst req.
    unfold generate_article_outline, bind, try_except, lift, get_research_results,
      chat_completions_create.
    rewrite Htw, Hins, Hs.
    match goal with
    | |- context [outline_of_response resp ?n ?w0] =>
      destruct (outline_of_response_in resp n w0) as (shown & Hshown & Hin)
    end.
    exists shown. split; [exact Hshown|].
    cbn [calls events research_results] in Hin.
    destruct (outline_in resp) as [kvs|].
    + rewrite Hin. reflexivity.
    + destruct Hin as [e ->]. exists e.
      unfold st, ret. cbn [calls events research_results].
      rewrite <- app_assoc. reflexivity.
Qed.


(** ** Further properties of the stages *)

(** *** Topics *)

(** X1. A failure of the service is caught by the research stage only: the
    topic proposer and the outline synthesizer let the exception of their
    request through to the caller, after that one request and without
    showing anything. *)
Theorem service_failure_propagates :
  (forall keywords settings w e,
     service (calls w) (topics_request keywords settings) = Raise e ->
     generate_topics keywords settings w
     = (Raise e, requested (topics_request keywords settings) w))
  /\
  (forall topic settings w target_words instructions e,
     outline_target_words (setting_section_length settings) = Ok target_words ->
     engagement_instructions (dict_get settings (u8 "engagement_elements") (JObj []))
       = Ok instructions ->
     let req := outline_request topic settings target_words instructions
                  (cached_content (research_results w) topic) in
     service (calls w) req = Raise e ->
     generate_article_outline topic settings w = (Raise e, requested req w)).
Proof.
  split.
  - intros keywords settings w e Hs.
    unfold generate_topics, bind, chat_completions_create. rewrite Hs. reflexivity.
  - intros topic settings w target_words instructions e Htw Hins req Hs. subst req.
    unfold generate_article_outline, bind, lift, get_research_results,
      chat_completions_create.
    rewrite Htw, Hins, Hs. reflexivity.
Qed.

(** *** Research *)

Lemma research_attempt_calls topic scs w :
  calls (snd (research_attempt topic scs w))
  = calls w ++ [research_request topic scs].
Proof.
  unfold research_attempt, bind, st, lift, ret, chat_completions_create,
    set_research_result. simpl.
  destruct (service _ _) as [resp|e]; [|reflexivity].
  destruct (first_message resp) as [m|e]; [|reflexivity].
  destruct (citations_of m) as [c|e]; reflexivity.
Qed.

(** X2. The research stage never raises, whatever the service does: it
    returns a value.  When research is on it has issued exactly one
    request, and none when it is off. *)
Theorem perform_web_research_total (topic : Topic) (settings : pydict) (w : world) :
  exists c w',
    perform_web_research topic settings w = (Ok c, w')
    /\ calls w'
       = if research_enabled settings
         then calls w ++ [research_request topic (search_context_size_of settings)]
         else calls w.
Proof.
  destruct (research_enabled settings) eqn:Hen.
  - rewrite (perform_web_research_enabled _ _ _ Hen).
    pose proof (research_attempt_calls topic (search_context_size_of settings)
                  (research_started w)) as Hcalls.
    destruct (research_attempt topic (search_context_size_of settings)
                (research_started w)) as [[c|e] w1].
    + exists c, w1. split; [reflexivity|exact Hcalls].
    + rewrite research_failed_run. eexists _, _. split; [reflexivity|exact Hcalls].
  - unfold perform_web_research. fold (research_enabled settings). rewrite Hen.
    cbn [negb]. eexists _, _. split; reflexivity.
Qed.

(** X3. A successful research returns the text of the answer and files it,
    with its citations, under the id of the topic, in place of what was
    there; this is what the outline synthesizer and the drafter then read
    for the topic, and what they read for a topic with another id is not
    changed. *)
Theorem research_success_is_cached topic settings w resp m cits :
  research_enabled settings = true ->
  service (calls w) (research_request topic (search_context_size_of settings))
    = Ok resp ->
  first_message resp = Ok m ->
  citations_of m = Ok cits ->
  let run := perform_web_research topic settings w in
  fst run = Ok (content m)
  /\ research_results (snd run)
     = <[topic_id topic := {| rr_content := content m; rr_citations := cits |}]>
         (research_results w)
  /\ cached_content (research_results (snd run)) topic = content m
  /\ cached_citations (research_results (snd run)) topic = cits
  /\ forall other,
       topic_id other <> topic_id topic ->
       cached_content (research_results (snd run)) other
       = cached_content (research_results w) other
       /\ cached_citations (research_results (snd run)) other
          = cached_citations (research_results w) other.
Proof.
  intros Hen Hs Hm Hc run. subst run.
  rewrite (perform_web_research_enabled _ _ _ Hen).
  unfold research_attempt, bind, st, lift, ret, chat_completions_create,
    set_research_result.
  cbn [research_started calls events research_results].
  rewrite Hs, Hm, Hc. cbn [fst snd research_results].
  split; [reflexivity|]. split; [reflexivity|].
  unfold cached_content, cached_citations.
  rewrite lookup_insert_eq. split; [reflexivity|]. split; [reflexivity|].
  intros other Hne. rewrite lookup_insert_ne by congruence. auto.
Qed.

(** *** Citations *)










(** *** Outline *)

(** A section of an outline as the synthesizer expects it: an object whose
    [prompt], if it has one, is a string. *)
Definition section_with_prompt (item : json) : Prop :=
  exists kvs s, item = JObj kvs /\ dict_get kvs (u8 "prompt") (JStr []) = JStr s.

(** Its prompt has fewer than 200 characters. *)
Definition short_prompt (item : json) : bool :=
  match item with
  | JObj kvs =>
    match dict_get kvs (u8 "prompt") (JStr []) with
    | JStr s => (length s <? 200)%nat
    | _ => false
    end
  | _ => false
  end.

Lemma short_prompts_filter (items : list json) :
  Forall section_with_prompt items ->
  short_prompts_of items = Ok (List.filter short_prompt items).
Proof.
  induction 1 as [|item items (kvs & s & -> & Hp) _ IH]; [reflexivity|].
  cbn [short_prompts_of List.filter short_prompt method_get rbind].
  rewrite Hp. cbn [py_len]. unfold rbind. rewrite IH. reflexivity.
Qed.

(** X5. An outline that arrives as a JSON object with a list of sections is
    returned as it was read, whatever its defects: a number of sections
    other than the one asked for, and prompts shorter than 200 characters,
    each give one warning and nothing more.  One request was issued. *)
Theorem outline_is_returned_with_warnings
    topic settings w target_words instructions resp m body kvs items :
  outline_target_words (setting_section_length settings) = Ok target_words ->
  engagement_instructions (dict_get settings (u8 "engagement_elements") (JObj []))
    = Ok instructions ->
  let req := outline_request topic settings target_words instructions
               (cached_content (research_results w) topic) in
  let num_sections := dict_get settings (u8 "num_sections") (JInt 7) in
  service (calls w) req = Ok resp ->
  first_message resp = Ok m ->
  content m = Some body ->
  json_loads body = Ok (JObj kvs) ->
  dict_get kvs (u8 "sections") (JArr []) = JArr items ->
  Forall section_with_prompt items ->
  generate_article_outline topic settings w
  = (Ok (Some (JObj kvs)),
     {| calls := calls w ++ [req];
        events :=
          events w
            ++ (if int_ne (length items) num_sections
                then [(StWarning, SectionCountMismatch (length items) num_sections)]
                else [])
            ++ (match List.filter short_prompt items with
                | [] => []
                | (_ :: _) as shorts =>
                  [(StWarning, ShortPrompts (length shorts) num_sections)]
                end);
        research_results := research_results w |}).
Proof.
  intros Htw Hins req num_sections Hs Hm Hc Hj Hsec Hitems. subst req num_sections.
  unfold generate_article_outline, bind, try_except, lift, get_research_results,
    chat_completions_create.
  rewrite Htw, Hins, Hs.
  unfold outline_of_response, bind, lift, loads_content.
  rewrite Hm, Hc, Hj. cbn [method_get]. rewrite Hsec. cbn [py_len py_iter].
  rewrite (short_prompts_filter _ Hitems).
  destruct (int_ne (length items) _);
    destruct (List.filter short_prompt items);
    unfold st, ret; cbn [calls events research_results];
    rewrite ?app_nil_r, <- ?app_assoc; reflexivity.
Qed.

(** *** Settings that the stages cannot use *)

(** A value on which [in] raises. *)
Definition not_iterable (v : json) : bool :=
  match v with
  | JNull | JBool _ | JInt _ | JFloat _ => true
  | _ => false
  end.

(** X6. With a [section_length] that is not a string, a list or a dict, the
    outline synthesizer and the drafter raise [TypeError] at once: nothing
    was requested, shown or cached.  So does the outline synthesizer, with
    [AttributeError], for [engagement_elements] that is not a dict. *)
Theorem unusable_settings_raise_before_any_request (settings : pydict) (w : world) :
  (not_iterable (setting_section_length settings) = true ->
   (forall topic, generate_article_outline topic settings w = (Raise TypeError, w))
   /\ (forall outline topic,
         generate_article_section_by_section outline topic settings w
         = (Raise TypeError, w)))
  /\
  (forall target_words,
     outline_target_words (setting_section_length settings) = Ok target_words ->
     match dict_get settings (u8 "engagement_elements") (JObj []) with
     | JObj _ => False
     | _ => True
     end ->
     forall topic, generate_article_outline topic settings w = (Raise AttributeError, w)).
Proof.
  split.
  - intros Hbad.
    assert (Hin : forall needle,
              py_in needle (setting_section_length settings) = Raise TypeError).
    { intros needle. destruct (setting_section_length settings); try discriminate;
        reflexivity. }
    split.
    + intros topic. unfold generate_article_outline, bind, lift.
      unfold outline_target_words, rbind. rewrite Hin. reflexivity.
    + intros outline topic.
      unfold generate_article_section_by_section, bind, lift, get_research_results.
      unfold section_targets, rbind. rewrite Hin. reflexivity.
  - intros target_words Htw Hbad topic.
    unfold generate_article_outline, bind, lift. rewrite Htw.
    destruct (dict_get settings (u8 "engagement_elements") (JObj [])) eqn:He;
      try contradiction; reflexivity.
Qed.


(** *** The loop over the sections *)

(** What one section adds to the article, given the answer of the
    service. *)
Definition section_block (section : Section_spec) (text : str) : str :=
  h3 (section_title section) ++ blank_line ++ strip_heading text ++ blank_line.

(** A round of the loop issues one request, whatever happens next. *)
Lemma draft_section_outcome outline settings tg research i section article total w :
  let run := draft_section outline settings tg research i section (article, total) w in
  calls (snd run)
  = calls w ++ [section_request outline settings tg research section article]
  /\ match fst run with
     | Ok (article', total') =>
       exists text,
         article' = article ++ section_block section text
         /\ total' = (total + word_count text)%nat
     | Raise _ => True
     end.
Proof.
  intros run. subst run.
  destruct (service (calls w)
              (section_request outline settings tg research section article))
    as [resp|e] eqn:Hs.
  - destruct (first_message resp) as [m|e] eqn:Hm.
    + destruct (content m) as [text|] eqn:Hc.
      * rewrite (draft_section_run _ _ _ _ i _ _ total _ _ _ _ Hs Hm Hc).
        cbn [fst snd calls]. split; [reflexivity|].
        exists text. split; reflexivity.
      * unfold draft_section, bind, st, lift, ret, chat_completions_create.
        cbn [calls events research_results]. rewrite Hs, Hm, Hc.
        cbn [fst snd calls]. split; [reflexivity|exact I].
    + unfold draft_section, bind, st, lift, ret, chat_completions_create.
      cbn [calls events research_results]. rewrite Hs, Hm.
      cbn [fst snd calls]. split; [reflexivity|exact I].
  - unfold draft_section, bind, st, lift, ret, chat_completions_create.
    cbn [calls events research_results]. rewrite Hs.
    cbn [fst snd calls]. split; [reflexivity|exact I].
Qed.

(** The loop over the sections: one request per section until a round
    raises; when none does, the article has grown by one block per section
    and the total by the words of each answer. *)
Lemma draft_sections_outcome outline settings tg research todo :
  forall i article total w,
    let run := draft_sections outline settings tg research i todo (article, total) w in
    exists reqs,
      calls (snd run) = calls w ++ reqs
      /\ match fst run with
         | Ok (article', total') =>
           length reqs = length todo
           /\ exists texts,
                length texts = length todo
                /\ article' = article ++ concat (zip_with section_block todo texts)
                /\ total' = (total + list_sum (map word_count texts))%nat
         | Raise _ => (1 <= length reqs <= length todo)%nat
         end.
Proof.
  induction todo as [|section rest IH]; intros i article total w run; subst run.
  - exists []. cbn [draft_sections ret fst snd length].
    rewrite !app_nil_r. split; [reflexivity|]. split; [reflexivity|].
    exists []. cbn. rewrite app_nil_r. auto.
  - cbn [draft_sections]. unfold bind.
    destruct (draft_section_outcome outline settings tg research i section
                article total w) as [Hcalls Hstep].
    destruct (draft_section outline settings tg research i section (article, total) w)
      as [[[article1 total1]|e] w1]; cbn [fst snd] in Hcalls, Hstep.
    + destruct Hstep as (text & -> & ->).
      destruct (IH (S i) (article ++ section_block section text)
                  (total + word_count text)%nat w1) as (reqs & Hreqs & Hrest).
      eexists (_ :: reqs). split.
      * rewrite Hreqs, Hcalls, <- app_assoc. reflexivity.
      * destruct (fst (draft_sections _ _ _ _ _ _ _ _)) as [[article2 total2]|e].
        -- destruct Hrest as (Hlen & texts & Hlt & -> & ->).
           split; [cbn [length]; lia|].
           exists (text :: texts). split; [cbn [length]; lia|].
           cbn [zip_with concat map list_sum fold_right].
           rewrite <- !app_assoc. split; [reflexivity|].
           unfold list_sum. lia.
        -- cbn [length]. lia.
    + eexists [_]. cbn [fst snd length]. split; [exact Hcalls|lia].
Qed.



(** The loop stops at a round in which the service fails. *)
Lemma draft_sections_first_failure outline settings tg research i section rest
    article total w e :
  service (calls w) (section_request outline settings tg research section article)
    = Raise e ->
  draft_sections outline settings tg research i (section :: rest) (article, total) w
  = (Raise e,
     {| calls := calls w
                   ++ [section_request outline settings tg research section article];
        events := events w
                    ++ [(StProgress, ProgressAt i (length (sections outline)));
                        (StProgressText,
                         GeneratingSection (i + 1) (length (sections outline))
                           (section_title section))];
        research_results := research_results w |}).
Proof.
  intros Hs. cbn [draft_sections]. unfold bind at 1.
  unfold draft_section, bind, st, chat_completions_create.
  cbn [calls events research_results]. rewrite Hs.
  rewrite <- !app_assoc. reflexivity.
Qed.

(** X10. When the service fails on the request for the first section, the
    drafter raises that failure: no further request is issued for the
    sections that follow, nothing more is shown, and no article is
    returned. *)
Theorem drafter_stops_at_first_failure outline topic settings w tg section rest e :
  section_targets (setting_section_length settings) = Ok tg ->
  sections outline = section :: rest ->
  let req := section_request outline settings tg
               (cached_content (research_results w) topic) section
               (h3 (article_title outline) ++ blank_line) in
  service (calls w) req = Raise e ->
  let run := generate_article_section_by_section outline topic settings w in
  fst run = Raise e
  /\ calls (snd run) = calls w ++ [req]
  /\ events (snd run)
     = events w ++ [(StProgress, ProgressAt 0 1);
                    (StProgress, ProgressAt 0 (length (sections outline)));
                    (StProgressText,
                     GeneratingSection 1 (length (sections outline))
                       (section_title section))].
Proof.
  intros Htg Hsec req Hs run. subst req run.
  pose proof (draft_sections_first_failure outline settings tg
                (cached_content (research_results w) topic) 0 section rest
                (h3 (article_title outline) ++ blank_line) 0%nat
                (drafting_started w) e Hs) as Hd.
  rewrite <- Hsec in Hd.
  unfold generate_article_section_by_section, bind, get_research_results, lift, st.
  rewrite Htg. fold (drafting_started w).
  destruct (draft_sections _ _ _ _ _ _ _ _) as [r w1].
  injection Hd as -> ->.
  cbn [fst snd calls events drafting_started].
  split; [reflexivity|]. split; [reflexivity|].
  rewrite <- app_assoc. reflexivity.
Qed.

(** *** Answers without markup *)

(** A text without the character that opens a tag. *)
Definition plain (s : str) : Prop := Forall (fun c => c <> chr "<") s.

(** A word: not empty, no white space. *)
Definition word (w : str) : Prop :=
  w <> [] /\ Forall (fun c => isspace c = false) w.

Lemma tag_re_needs_lt (c : char) (s : str) :
  c <> chr "<" -> match_len tag_re (c :: s) = None.
Proof.
  intros Hc. unfold match_len, re_match, tag_re. cbn [exec].
  replace (chr "<" =? c)%N with false by (symmetry; apply N.eqb_neq; congruence).
  reflexivity.
Qed.

Lemma h3_re_needs_lt (c : char) (s : str) :
  c <> chr "<" -> match_len h3_re (c :: s) = None.
Proof.
  intros Hc. unfold match_len, re_match, h3_re.
  change (lits (u8 "<h3>")) with (Cat (Lit (chr "<")) (lits (u8 "h3>"))).
  cbn [exec].
  replace (chr "<" =? c)%N with false by (symmetry; apply N.eqb_neq; congruence).
  reflexivity.
Qed.

(** A substitution changes nothing in a text in which the pattern cannot
    start. *)
Lemma sub_go_plain (r : re) (repl s : str) :
  (forall c s', c <> chr "<" -> match_len r (c :: s') = None) ->
  plain s -> sub_go r repl 0 s = s.
Proof.
  intros Hr. induction 1 as [|c s Hc _ IH]; [reflexivity|].
  cbn [sub_go]. rewrite (Hr c s Hc), IH. reflexivity.
Qed.

Lemma split_go_word (w : str) :
  Forall (fun c => isspace c = false) w ->
  forall cur rest, split_go cur (w ++ rest) = split_go (rev w ++ cur) rest.
Proof.
  induction 1 as [|c w Hc _ IH]; intros cur rest; [reflexivity|].
  cbn [app split_go rev]. rewrite Hc, IH, <- app_assoc. reflexivity.
Qed.

(** [" ".join(ws).split() == ws] for a list of words. *)
Lemma split_join_words (ws : list str) :
  Forall word ws -> split (join (u8 " ") ws) = ws.
Proof.
  unfold split. induction 1 as [|w ws [Hne Hw] Hws IH]; [reflexivity|].
  assert (Hrev : exists c cur, rev w = c :: cur).
  { destruct (rev w) as [|c cur] eqn:Hr; [|eauto].
    apply (f_equal (@rev _)) in Hr. rewrite rev_involutive in Hr. contradiction. }
  destruct Hrev as (c & cur & Hr).
  destruct ws as [|w' ws'].
  - cbn [join]. pose proof (split_go_word w Hw [] []) as Hsw.
    rewrite !app_nil_r in Hsw. rewrite Hsw, Hr.
    cbn [split_go]. rewrite <- Hr, rev_involutive. reflexivity.
  - change (join (u8 " ") (w :: w' :: ws'))
      with (w ++ 0x20%N :: join (u8 " ") (w' :: ws')).
    rewrite (split_go_word w Hw), app_nil_r, Hr.
    cbn [split_go]. change (isspace 0x20%N) with true. cbn iota.
    rewrite <- Hr, rev_involutive, IH. reflexivity.
Qed.

Lemma join_plain (ws : list str) :
  Forall plain ws -> plain (join (u8 " ") ws).
Proof.
  induction 1 as [|w ws Hw Hws IH]; [constructor|].
  destruct ws as [|w' ws']; [exact Hw|].
  change (join (u8 " ") (w :: w' :: ws'))
    with (w ++ 0x20%N :: join (u8 " ") (w' :: ws')).
  apply Forall_app. split; [exact Hw|].
  apply List.Forall_cons; [vm_compute; discriminate|exact IH].
Qed.

(** X11. An answer that holds no [<] loses nothing to the two
    substitutions of the drafter: it is appended to the article as it
    arrived, and the words counted are its runs of characters between white
    space.  For words joined by single spaces the count is the number of
    words. *)
Theorem plain_answer_is_kept_and_counted :
  (forall text,
     plain text ->
     strip_heading text = text /\ word_count text = length (split text))
  /\
  (forall ws,
     Forall word ws -> Forall plain ws ->
     word_count (join (u8 " ") ws) = length ws).
Proof.
  assert (Hplain : forall text,
            plain text ->
            strip_heading text = text /\ word_count text = length (split text)).
  { intros text Ht. unfold strip_heading, word_count, re_sub.
    rewrite (sub_go_plain h3_re [] text h3_re_needs_lt Ht).
    rewrite (sub_go_plain tag_re [] text tag_re_needs_lt Ht). auto. }
  split; [exact Hplain|].
  intros ws Hws Hp.
  rewrite (proj2 (Hplain _ (join_plain ws Hp))), (split_join_words ws Hws).
  reflexivity.
Qed.

(** *** The heading that the service repeats *)

Lemma exec_cat {A} (r1 r2 : re) (s : str) (caps : list str)
    (k : str -> list str -> option A) :
  exec (Cat r1 r2) s caps k = exec r1 s caps (fun s1 caps1 => exec r2 s1 caps1 k).
Proof. reflexivity. Qed.

(** A literal text matches itself. *)
Lemma exec_lits {A} (p : str) :
  forall (rest : str) (caps : list str) (k : str -> list str -> option A),
    exec (lits p) (p ++ rest) caps k = k rest caps.
Proof.
  induction p as [|c p IH]; intros rest caps k; [reflexivity|].
  destruct p as [|d p].
  - cbn [lits exec app]. rewrite N.eqb_refl. reflexivity.
  - change (lits (c :: d :: p)) with (Cat (Lit c) (lits (d :: p))).
    cbn [exec app]. rewrite N.eqb_refl. apply (IH rest caps k).
Qed.

(** A lazy repetition goes over a text on which what follows it fails at
    every character. *)
Lemma exec_lazy_star {A} (p : char -> bool) (t rest : str) (caps : list str)
    (k : str -> list str -> option A) (x : A) :
  Forall (fun c => p c = true) t ->
  (forall c s, c ∈ t -> k (c :: s) caps = None) ->
  k rest caps = Some x ->
  exec (Star false (Cls p)) (t ++ rest) caps k = Some x.
Proof.
  intros Hp Hk Hx. cbn [exec].
  match goal with
  | |- ?f (length _) _ _ = _ =>
    assert (Hloop : forall n t0,
              (length (t0 ++ rest) <= n)%nat ->
              Forall (fun c => p c = true) t0 ->
              (forall c s, c ∈ t0 -> k (c :: s) caps = None) ->
              f n (t0 ++ rest) caps = Some x)
  end.
  { induction n as [|n IHn]; intros t0 Hlen Hp0 Hk0.
    - destruct t0 as [|c t0]; [exact Hx|cbn [length app] in Hlen; lia].
    - destruct t0 as [|c t0].
      + cbn [app]. unfold first_some. rewrite Hx. reflexivity.
      + apply Forall_cons in Hp0 as [Hc Hp0]. cbn [app].
        rewrite (Hk0 c (t0 ++ rest) (list_elem_of_here _ _)).
        unfold first_some. rewrite Hc.
        replace (length (t0 ++ rest) <? length (c :: t0 ++ rest))%nat with true
          by (symmetry; apply Nat.ltb_lt; cbn [length]; lia).
        apply IHn; [cbn [length app] in Hlen; lia | exact Hp0 |].
        intros d s Hd. apply Hk0. apply list_elem_of_further. exact Hd. }
  apply Hloop; [lia | exact Hp | exact Hk].
Qed.

(** A greedy repetition goes over a text up to the first character that it
    does not accept. *)
Lemma exec_greedy_star {A} (p : char -> bool) (t rest : str) (caps : list str)
    (k : str -> list str -> option A) (x : A) :
  Forall (fun c => p c = true) t ->
  match rest with [] => True | c :: _ => p c = false end ->
  k rest caps = Some x ->
  exec (Star true (Cls p)) (t ++ rest) caps k = Some x.
Proof.
  intros Hp Hrest Hx. cbn [exec].
  match goal with
  | |- ?f (length _) _ _ = _ =>
    assert (Hloop : forall n t0,
              (length (t0 ++ rest) <= n)%nat ->
              Forall (fun c => p c = true) t0 ->
              f n (t0 ++ rest) caps = Some x)
  end.
  { induction n as [|n IHn]; intros t0 Hlen Hp0.
    - destruct t0 as [|c t0]; [exact Hx|cbn [length app] in Hlen; lia].
    - destruct t0 as [|c t0].
      + cbn [app]. destruct rest as [|c rest']; [exact Hx|].
        rewrite Hrest. exact Hx.
      + apply Forall_cons in Hp0 as [Hc Hp0]. cbn [app]. rewrite Hc.
        replace (length (t0 ++ rest) <? length (c :: t0 ++ rest))%nat with true
          by (symmetry; apply Nat.ltb_lt; cbn [length]; lia).
        rewrite IHn; [reflexivity | cbn [length app] in Hlen; lia | exact Hp0]. }
  apply Hloop; [lia | exact Hp].
Qed.

(** The pattern of the heading matches a heading at the start of a text,
    with the white space after it. *)
Lemma h3_re_matches_heading (title ws body : str) :
  Forall (fun c => c <> chr "<" /\ c <> 0x0A%N) title ->
  Forall (fun c => isspace c = true) ws ->
  match body with [] => True | c :: _ => isspace c = false end ->
  re_match h3_re (u8 "<h3>" ++ title ++ u8 "</h3>" ++ ws ++ body) = Some (body, []).
Proof.
  intros Htitle Hws Hbody. unfold re_match, h3_re.
  rewrite exec_cat, exec_lits, exec_cat.
  apply exec_lazy_star.
  - apply (Forall_impl _ _ _ Htitle). intros c [_ Hc].
    apply negb_true_iff, N.eqb_neq. exact Hc.
  - intros c s Hc.
    apply (proj1 (Forall_forall _ _) Htitle) in Hc as [Hc _].
    change (lits (u8 "</h3>")) with (Cat (Lit (chr "<")) (lits (u8 "/h3>"))).
    cbn [exec].
    replace (chr "<" =? c)%N with false by (symmetry; apply N.eqb_neq; congruence).
    reflexivity.
  - rewrite exec_cat, exec_lits.
    apply exec_greedy_star; [exact Hws | exact Hbody | reflexivity].
Qed.

Lemma h3_re_needs_h3 (s : str) :
  startswith (u8 "<h3>") s = false -> match_len h3_re s = None.
Proof.
  unfold match_len, re_match, h3_re.
  change (lits (u8 "<h3>"))
    with (Cat (Lit (chr "<")) (Cat (Lit (chr "h")) (Cat (Lit (chr "3")) (Lit (chr ">"))))).
  change (u8 "<h3>") with [chr "<"; chr "h"; chr "3"; chr ">"].
  cbn [exec startswith].
  destruct s as [|c1 s]; [reflexivity|].
  destruct (chr "<" =? c1)%N; [|reflexivity].
  destruct s as [|c2 s]; [reflexivity|].
  destruct (chr "h" =? c2)%N; [|reflexivity].
  destruct s as [|c3 s]; [reflexivity|].
  destruct (chr "3" =? c3)%N; [|reflexivity].
  destruct s as [|c4 s]; [reflexivity|].
  destruct (chr ">" =? c4)%N; [discriminate|reflexivity].
Qed.

(** Nothing is removed from a text without [<h3>]. *)
Lemma strip_heading_without_h3 (s : str) :
  contains (u8 "<h3>") s = false -> sub_go h3_re [] 0 s = s.
Proof.
  induction s as [|c s IH]; [reflexivity|].
  cbn [contains]. intros Hc. apply orb_false_iff in Hc as [Hstart Hrest].
  cbn [sub_go]. rewrite (h3_re_needs_h3 _ Hstart), (IH Hrest). reflexivity.
Qed.

Lemma sub_go_skip (r : re) (repl p rest : str) :
  sub_go r repl (length p) (p ++ rest) = sub_go r repl 0 rest.
Proof.
  induction p as [|c p IH]; [reflexivity|]. cbn [length app sub_go]. exact IH.
Qed.

(** X12. When the answer of the service starts with a heading of its own,
    the drafter removes that heading together with the white space after
    it and keeps the rest as it is, provided the rest has no further
    [<h3>]: what is appended under the heading of the outline is the body
    alone. *)
Theorem repeated_heading_is_removed (title ws body : str) :
  Forall (fun c => c <> chr "<" /\ c <> 0x0A%N) title ->
  Forall (fun c => isspace c = true) ws ->
  match body with [] => True | c :: _ => isspace c = false end ->
  contains (u8 "<h3>") body = false ->
  strip_heading (h3 title ++ ws ++ body) = body
  /\ forall section,
       section_block section (h3 title ++ ws ++ body)
       = h3 (section_title section) ++ blank_line ++ body ++ blank_line.
Proof.
  intros Htitle Hws Hbody Hno.
  assert (Hstrip : strip_heading (h3 title ++ ws ++ body) = body).
  { unfold strip_heading, re_sub, h3.
    pose proof (h3_re_matches_heading title ws body Htitle Hws Hbody) as Hm.
    replace ((u8 "<h3>" ++ title ++ u8 "</h3>") ++ ws ++ body)
      with (u8 "<h3>" ++ title ++ u8 "</h3>" ++ ws ++ body)
      by (rewrite <- !app_assoc; reflexivity).
    change (u8 "<h3>") with (chr "<" :: u8 "h3>") in *.
    cbn [app] in *. cbn [sub_go]. unfold match_len. rewrite Hm.
    replace (length body <? length (chr "<" :: u8 "h3>" ++ title ++ u8 "</h3>" ++ ws ++ body))%nat
      with true
      by (symmetry; apply Nat.ltb_lt; cbn [length]; rewrite !length_app; lia).
    cbn [app].
    replace (length (chr "<" :: u8 "h3>" ++ title ++ u8 "</h3>" ++ ws ++ body)
               - length body - 1)%nat
      with (length (u8 "h3>" ++ title ++ u8 "</h3>" ++ ws))
      by (cbn [length]; rewrite !length_app; lia).
    replace (u8 "h3>" ++ title ++ u8 "</h3>" ++ ws ++ body)
      with ((u8 "h3>" ++ title ++ u8 "</h3>" ++ ws) ++ body)
      by (rewrite <- !app_assoc; reflexivity).
    rewrite sub_go_skip. apply strip_heading_without_h3, Hno. }
  split; [exact Hstrip|].
  intros section. unfold section_block. rewrite Hstrip. reflexivity.
Qed.

(** *** From the research to the prompts *)

(** The reference material of an outline request. *)
Definition reference_content_of (req : request) : option str :=
  match messages req with
  | OutlinePrompt p => Some (op_reference_content p)
  | _ => None
  end.

(** The research excerpt of a section request. *)
Definition research_of (req : request) : option str :=
  match messages req with
  | SectionPrompt p => Some (sp_research p)
  | _ => None
  end.

Lemma outline_of_response_calls (response : response) (num_sections : json) (w : world) :
  calls (snd (outline_of_response response num_sections w)) = calls w.
Proof.
  unfold outline_of_response, bind, lift, st, ret.
  destruct (first_message response) as [m|e]; [|reflexivity].
  destruct (loads_content (content m)) as [outline|e]; [|reflexivity].
  destruct (method_get outline (u8 "sections") (JArr [])) as [sections|e]; [|reflexivity].
  destruct (py_len sections) as [n|e]; [|reflexivity].
  destruct (int_ne n num_sections);
    (destruct (py_iter sections) as [items|e]; [|reflexivity]);
    (destruct (short_prompts_of items) as [[|s shorts]|e]; reflexivity).
Qed.

(** The outline synthesizer issues one request, built from what is cached
    for the topic, whatever the service answers. *)
Lemma outline_request_issued topic settings w target_words instructions :
  outline_target_words (setting_section_length settings) = Ok target_words ->
  engagement_instructions (dict_get settings (u8 "engagement_elements") (JObj []))
    = Ok instructions ->
  calls (snd (generate_article_outline topic settings w))
  = calls w ++ [outline_request topic settings target_words instructions
                  (cached_content (research_results w) topic)].
Proof.
  intros Htw Hins.
  unfold generate_article_outline, bind, lift, get_research_results,
    chat_completions_create, try_except.
  rewrite Htw, Hins.
  destruct (service _ _) as [resp|e]; [|reflexivity].
  match goal with
  | |- context [outline_of_response resp ?n ?w0] =>
    pose proof (outline_of_response_calls resp n w0) as Hcalls;
      destruct (outline_of_response resp n w0) as [[v|e] w1]
  end; cbn [snd calls] in Hcalls |- *.
  - exact Hcalls.
  - unfold st, ret. cbn [snd calls]. exact Hcalls.
Qed.

Lemma draft_sections_first_request outline settings tg research i section rest
    article total w :
  exists more,
    calls (snd (draft_sections outline settings tg research i (section :: rest)
                  (article, total) w))
    = calls w ++ section_request outline settings tg research section article :: more.
Proof.
  cbn [draft_sections]. unfold bind.
  destruct (draft_section_outcome outline settings tg research i section
              article total w) as [Hcalls _].
  destruct (draft_section outline settings tg research i section (article, total) w)
    as [[[article1 total1]|e] w1]; cbn [snd] in Hcalls.
  - destruct (draft_sections_outcome outline settings tg research rest (S i)
                article1 total1 w1) as (reqs & Hreqs & _).
    exists reqs. rewrite Hreqs, Hcalls, <- app_assoc. reflexivity.
  - exists []. exact Hcalls.
Qed.

(** The first request of the drafter is built from what is cached for the
    topic. *)
Lemma drafter_first_request outline topic settings w tg section rest :
  section_targets (setting_section_length settings) = Ok tg ->
  sections outline = section :: rest ->
  exists more,
    calls (snd (generate_article_section_by_section outline topic settings w))
    = calls w
        ++ section_request outline settings tg
             (cached_content (research_results w) topic) section
             (h3 (article_title outline) ++ blank_line) :: more.
Proof.
  intros Htg Hsec.
  destruct (draft_sections_first_request outline settings tg
              (cached_content (research_results w) topic) 0 section rest
              (h3 (article_title outline) ++ blank_line) 0%nat (drafting_started w))
    as [more Hd].
  rewrite <- Hsec in Hd. exists more.
  unfold generate_article_section_by_section, bind, get_research_results, lift, st, ret.
  rewrite Htg. fold (drafting_started w).
  destruct (draft_sections _ _ _ _ _ _ _ _) as [[[body total]|e] w1];
    cbn [snd calls] in Hd |- *; exact Hd.
Qed.

(** In the world [w], the outline request for the topic carries the
    reference material [reference], and the first request of the drafter the
    research excerpt [excerpt]. *)
Definition prompts_carry (w : world) (topic : Topic) (settings : pydict)
    (reference excerpt : str) : Prop :=
  (forall target_words instructions,
     outline_target_words (setting_section_length settings) = Ok target_words ->
     engagement_instructions (dict_get settings (u8 "engagement_elements") (JObj []))
       = Ok instructions ->
     exists req,
       calls (snd (generate_article_outline topic settings w)) = calls w ++ [req]
       /\ reference_content_of req = Some reference)
  /\
  (forall outline tg section rest,
     section_targets (setting_section_length settings) = Ok tg ->
     sections outline = section :: rest ->
     exists req more,
       calls (snd (generate_article_section_by_section outline topic settings w))
       = calls w ++ req :: more
       /\ research_of req = Some excerpt).

Lemma prompts_carry_cached (w : world) (topic : Topic) (settings : pydict) :
  prompts_carry w topic settings
    (if text_truthy (cached_content (research_results w) topic)
     then u8 "Dane z researchu:" ++ [0x0A%N]
            ++ text_or_empty (cached_content (research_results w) topic)
     else [])
    (research_excerpt (cached_content (research_results w) topic)).
Proof.
  split.
  - intros tw ins Htw Hins. eexists. split.
    + apply (outline_request_issued topic settings w tw ins Htw Hins).
    + reflexivity.
  - intros outline tg section rest Htg Hsec.
    destruct (drafter_first_request outline topic settings w tg section rest Htg Hsec)
      as [more Hcalls].
    eexists _, more. split; [exact Hcalls|reflexivity].
Qed.

Lemma prompts_carry_eq w topic settings (reference reference' excerpt excerpt' : str) :
  reference = reference' -> excerpt = excerpt' ->
  prompts_carry w topic settings reference excerpt ->
  prompts_carry w topic settings reference' excerpt'.
Proof. intros -> ->. trivial. Qed.

(** X13. What the research stage has cached for a topic is what the two
    later stages send to the service for it: after a successful research
    with a text that is not empty, the outline request carries that text
    under the heading [Dane z researchu:], and the first section request its
    first 2000 characters.  For a topic without an entry in the cache the
    outline request carries no reference material and the section request
    says that there is no research data. *)
Theorem research_reaches_the_prompts topic settings w :
  (forall resp m cits text,
     research_enabled settings = true ->
     service (calls w) (research_request topic (search_context_size_of settings))
       = Ok resp ->
     first_message resp = Ok m ->
     citations_of m = Ok cits ->
     content m = Some text ->
     text <> [] ->
     prompts_carry (snd (perform_web_research topic settings w)) topic settings
       (u8 "Dane z researchu:" ++ [0x0A%N] ++ text) (slice_first 2000 text))
  /\
  (research_results w !! topic_id topic = None ->
   prompts_carry w topic settings [] (u8 "Brak danych z researchu.")).
Proof.
  split.
  - intros resp m cits text Hen Hs Hm Hc Htext Hne.
    pose proof (prompts_carry_cached (snd (perform_web_research topic settings w))
                  topic settings) as Hcarry.
    assert (Hcached :
      cached_content (research_results (snd (perform_web_research topic settings w)))
        topic = Some text).
    { rewrite (perform_web_research_enabled _ _ _ Hen).
      unfold research_attempt, bind, st, lift, ret, chat_completions_create,
        set_research_result.
      cbn [research_started calls events research_results].
      rewrite Hs, Hm, Hc. cbn [snd research_results].
      unfold cached_content. rewrite lookup_insert_eq. exact Htext. }
    rewrite Hcached in Hcarry.
    destruct text as [|c text]; [contradiction|].
    match type of Hcarry with
    | prompts_carry _ _ _ ?a ?b =>
      assert (Ha : a = u8 "Dane z researchu:" ++ [0x0A%N] ++ c :: text) by reflexivity;
      assert (Hb : b = slice_first 2000 (c :: text)) by reflexivity
    end.
    exact (prompts_carry_eq _ _ _ _ _ _ _ Ha Hb Hcarry).
  - intros Hnone.
    pose proof (prompts_carry_cached w topic settings) as Hcarry.
    assert (Hcached : cached_content (research_results w) topic = Some []).
    { unfold cached_content. rewrite Hnone. reflexivity. }
    rewrite Hcached in Hcarry.
    match type of Hcarry with
    | prompts_carry _ _ _ ?a ?b =>
      assert (Ha : a = []) by reflexivity;
      assert (Hb : b = u8 "Brak danych z researchu.") by reflexivity
    end.
    exact (prompts_carry_eq _ _ _ _ _ _ _ Ha Hb Hcarry).
Qed.

(** *** The copy button *)

(** The bytes of one code point in UTF-8. *)
Definition utf8_bytes (c : char) : list N :=
  if (c <? 0x80)%N then [c]
  else if (c <? 0x800)%N then [0xC0 + c / 64; 0x80 + c mod 64]%N
  else if (c <? 0x10000)%N then
    [0xE0 + c / 4096; 0x80 + (c / 64) mod 64; 0x80 + c mod 64]%N
  else
    [0xF0 + c / 262144; 0x80 + (c / 4096) mod 64; 0x80 + (c / 64) mod 64;
     0x80 + c mod 64]%N.

(** [text.encode()]: a surrogate code point cannot be encoded. *)
Definition str_encode (text : str) : result (list N) :=
  if encodable text then Ok (concat (map utf8_bytes text))
  else Raise UnicodeEncodeError.

Definition b64_alphabet : str :=
  u8 "ABCDEFGHIJKLMNOPQRSTUVWXYZabcdefghijklmnopqrstuvwxyz0123456789+/".

Definition b64_char (n : N) : char := nth (N.to_nat n) b64_alphabet (chr "=").

(** [base64.b64encode(bs).decode()]: three bytes give four characters, and
    what is left at the end is padded with [=]. *)
Fixpoint b64encode (bs : list N) : str :=
  match bs with
  | [] => []
  | [a] => [b64_char (a / 4); b64_char ((a mod 4) * 16); chr "="; chr "="]%N
  | [a; b] =>
    [b64_char (a / 4); b64_char ((a mod 4) * 16 + b / 16);
     b64_char ((b mod 16) * 4); chr "="]%N
  | a :: b :: c :: rest =>
    [b64_char (a / 4); b64_char ((a mod 4) * 16 + b / 16);
     b64_char ((b mod 16) * 4 + c / 64); b64_char (c mod 64)]%N
      ++ b64encode rest
  end.

Definition button_before : str :=
  [0x0A%N] ++ u8 "    <button onclick=" ++ [0x22%N]
    ++ u8 "navigator.clipboard.writeText(atob('".

Definition button_after : str :=
  u8 "'))" ++ [0x22%N] ++ u8 ">" ++ [0x0A%N]
    ++ u8 "        Kopiuj źródło do schowka" ++ [0x0A%N]
    ++ u8 "    </button>" ++ [0x0A%N] ++ u8 "    ".

Definition get_copy_to_clipboard_button (text : str) : result str :=
  rbind (str_encode text) (fun bytes =>
    Ok (button_before ++ b64encode bytes ++ button_after)).

(** What the browser computes for [atob(payload)] on a padded payload: the
    bytes that the groups of four characters stand for, [None] for a text
    that is not base64. *)
Fixpoint index_of (c : char) (l : str) (i : N) : option N :=
  match l with
  | [] => None
  | d :: l' => if (c =? d)%N then Some i else index_of c l' (i + 1)%N
  end.

Definition b64_value (c : char) : option N := index_of c b64_alphabet 0.

Definition is_pad (c : char) : bool := (c =? chr "=")%N.

Fixpoint atob (s : str) : option (list N) :=
  match s with
  | [] => Some []
  | c1 :: c2 :: c3 :: c4 :: rest =>
    match b64_value c1, b64_value c2 with
    | Some v1, Some v2 =>
      if is_pad c3 then
        match rest with
        | [] => if is_pad c4 then Some [v1 * 4 + v2 / 16]%N else None
        | _ => None
        end
      else
        match b64_value c3 with
        | Some v3 =>
          if is_pad c4 then
            match rest with
            | [] => Some [v1 * 4 + v2 / 16; (v2 mod 16) * 16 + v3 / 4]%N
            | _ => None
            end
          else
            match b64_value c4, atob rest with
            | Some v4, Some bytes =>
              Some ([v1 * 4 + v2 / 16; (v2 mod 16) * 16 + v3 / 4;
                     (v3 mod 4) * 64 + v4]%N ++ bytes)
            | _, _ => None
            end
        | None => None
        end
    | _, _ => None
    end
  | _ => None
  end.

(** A character that a base64 text may hold. *)
Definition b64_symbol (c : char) : bool :=
  existsb (fun d => (c =? d)%N) b64_alphabet || is_pad c.

(** Induction on a list of bytes in steps of three. *)
Lemma by_three {A} (P : list A -> Prop) :
  P [] -> (forall a, P [a]) -> (forall a b, P [a; b]) ->
  (forall a b c rest, P rest -> P (a :: b :: c :: rest)) ->
  forall l, P l.
Proof.
  intros H0 H1 H2 H3 l.
  assert (Hall : forall n l, (length l <= n)%nat -> P l).
  { induction n as [|n IH]; intros l0 Hl.
    - destruct l0; [exact H0|cbn in Hl; lia].
    - destruct l0 as [|a [|b [|c rest]]]; auto.
      apply H3, IH. cbn [length] in Hl. lia. }
  apply (Hall (length l)). lia.
Qed.

Lemma b64_char_symbol (n : N) : b64_symbol (b64_char n) = true.
Proof.
  destruct (N.lt_ge_cases n 64) as [Hn|Hn].
  - assert (Hin : In n (map N.of_nat (seq 0 64))).
    { apply in_map_iff. exists (N.to_nat n). split; [lia|].
      apply in_seq. lia. }
    assert (Hall : forallb (fun n => b64_symbol (b64_char n))
                     (map N.of_nat (seq 0 64)) = true)
      by (vm_compute; reflexivity).
    exact (proj1 (forallb_forall _ _) Hall n Hin).
  - unfold b64_char. rewrite nth_overflow; [reflexivity|].
    change (length b64_alphabet) with 64%nat. lia.
Qed.

Lemma b64_value_char (n : N) :
  (n < 64)%N -> b64_value (b64_char n) = Some n /\ is_pad (b64_char n) = false.
Proof.
  intros Hn.
  assert (Hin : In n (map N.of_nat (seq 0 64))).
  { apply in_map_iff. exists (N.to_nat n). split; [lia|].
    apply in_seq. lia. }
  assert (Hall : forallb
                   (fun n => match b64_value (b64_char n) with
                             | Some v => (v =? n)%N
                             | None => false
                             end && negb (is_pad (b64_char n)))
                   (map N.of_nat (seq 0 64)) = true)
    by (vm_compute; reflexivity).
  pose proof (proj1 (forallb_forall _ _) Hall n Hin) as Hn'.
  apply andb_true_iff in Hn' as [Hvalue Hpad].
  apply negb_true_iff in Hpad. split; [|exact Hpad].
  destruct (b64_value (b64_char n)) as [v|]; [|discriminate].
  apply N.eqb_eq in Hvalue. subst v. reflexivity.
Qed.

Lemma b64encode_symbols (bs : list N) :
  forallb b64_symbol (b64encode bs) = true.
Proof.
  induction bs as [ | a | a b | a b c rest IH] using by_three;
    cbn [b64encode forallb app]; rewrite ?b64_char_symbol, ?IH; reflexivity.
Qed.

Lemma b64encode_length (bs : list N) :
  length (b64encode bs) = (4 * ((length bs + 2) / 3))%nat.
Proof.
  induction bs as [ | a | a b | a b c rest IH] using by_three;
    try reflexivity.
  cbn [b64encode length app]. rewrite IH.
  replace (S (S (S (length rest))) + 2)%nat with (1 * 3 + (length rest + 2))%nat by lia.
  rewrite Nat.div_add_l by lia. lia.
Qed.

Ltac byte_arith := zify; Z.to_euclidean_division_equations; lia.

Lemma atob_b64encode (bs : list N) :
  Forall (fun b => (b < 256)%N) bs -> atob (b64encode bs) = Some bs.
Proof.
  induction bs as [ | a | a b | a b c rest IH] using by_three; intros Hbs.
  - reflexivity.
  - apply Forall_cons in Hbs as [Ha _].
    cbn [b64encode atob].
    destruct (b64_value_char (a / 4)) as [-> _]; [byte_arith|].
    destruct (b64_value_char ((a mod 4) * 16)) as [-> _]; [byte_arith|].
    change (is_pad (chr "=")) with true. cbn iota.
    do 2 f_equal. byte_arith.
  - apply Forall_cons in Hbs as [Ha Hbs]. apply Forall_cons in Hbs as [Hb _].
    cbn [b64encode atob].
    destruct (b64_value_char (a / 4)) as [-> _]; [byte_arith|].
    destruct (b64_value_char ((a mod 4) * 16 + b / 16)) as [-> _]; [byte_arith|].
    destruct (b64_value_char ((b mod 16) * 4)) as [-> ->]; [byte_arith|].
    change (is_pad (chr "=")) with true. cbn iota.
    f_equal. f_equal; [byte_arith|]. f_equal. byte_arith.
  - apply Forall_cons in Hbs as [Ha Hbs]. apply Forall_cons in Hbs as [Hb Hbs].
    apply Forall_cons in Hbs as [Hc Hbs].
    cbn [b64encode atob app].
    destruct (b64_value_char (a / 4)) as [-> _]; [byte_arith|].
    destruct (b64_value_char ((a mod 4) * 16 + b / 16)) as [-> _]; [byte_arith|].
    destruct (b64_value_char ((b mod 16) * 4 + c / 64)) as [-> ->]; [byte_arith|].
    destruct (b64_value_char (c mod 64)) as [-> ->]; [byte_arith|].
    rewrite (IH Hbs). cbn [app].
    f_equal. f_equal; [byte_arith|]. f_equal; [byte_arith|]. f_equal. byte_arith.
Qed.

(** A code point of a Python string. *)
Definition code_point (c : char) : Prop := (c <= 0x10FFFF)%N.

Lemma utf8_bytes_are_bytes (text : str) :
  Forall code_point text -> Forall (fun b => (b < 256)%N) (concat (map utf8_bytes text)).
Proof.
  induction 1 as [|c text Hc _ IH]; [constructor|].
  cbn [map concat]. apply Forall_app. split; [|exact IH].
  unfold utf8_bytes, code_point in *.
  destruct (c <? 0x80)%N eqn:H1; [apply N.ltb_lt in H1|apply N.ltb_ge in H1].
  { repeat constructor. lia. }
  destruct (c <? 0x800)%N eqn:H2; [apply N.ltb_lt in H2|apply N.ltb_ge in H2].
  { repeat constructor; byte_arith. }
  destruct (c <? 0x10000)%N eqn:H3; [apply N.ltb_lt in H3|apply N.ltb_ge in H3].
  { repeat constructor; byte_arith. }
  repeat constructor; byte_arith.
Qed.

Lemma utf8_bytes_ascii (text : str) :
  Forall (fun c => (c < 0x80)%N) text -> concat (map utf8_bytes text) = text.
Proof.
  induction 1 as [|c text Hc _ IH]; [reflexivity|].
  cbn [map concat]. rewrite IH. unfold utf8_bytes.
  apply N.ltb_lt in Hc. rewrite Hc. reflexivity.
Qed.

Lemma encodable_ascii (text : str) :
  Forall (fun c => (c < 0x80)%N) text -> encodable text = true.
Proof.
  unfold encodable. induction 1 as [|c text Hc _ IH]; [reflexivity|].
  cbn [forallb]. rewrite IH.
  replace (0xD800 <=? c)%N with false by (symmetry; apply N.leb_gt; lia).
  reflexivity.
Qed.

(** X14. The copy button can be built for every article without a
    surrogate code point, and raises [UnicodeEncodeError] for the others.
    Its payload sits between the same two pieces of markup, has four
    characters for every three bytes of the article, the last group padded,
    and holds only letters, digits, [+], [/] and [=]: no quote, bracket or
    backslash of the article reaches the page through it. *)
Theorem copy_button_payload_is_base64 (text : str) :
  (encodable text = false ->
   get_copy_to_clipboard_button text = Raise UnicodeEncodeError)
  /\
  (encodable text = true ->
   exists payload,
     get_copy_to_clipboard_button text
     = Ok (button_before ++ payload ++ button_after)
     /\ payload = b64encode (concat (map utf8_bytes text))
     /\ length payload
        = (4 * ((length (concat (map utf8_bytes text)) + 2) / 3))%nat
     /\ forallb b64_symbol payload = true
     /\ Forall (fun c => c <> 0x27%N /\ c <> 0x22%N /\ c <> chr "<" /\ c <> chr ">"
                         /\ c <> 0x5C%N /\ c <> chr "&") payload).
Proof.
  unfold get_copy_to_clipboard_button, str_encode, rbind. split; intros ->.
  - reflexivity.
  - eexists. split; [reflexivity|]. split; [reflexivity|].
    split; [apply b64encode_length|].
    pose proof (b64encode_symbols (concat (map utf8_bytes text))) as Hsym.
    split; [exact Hsym|].
    apply Forall_forall. intros c Hc. apply list_elem_of_In in Hc.
    apply (proj1 (forallb_forall _ _) Hsym) in Hc.
    repeat split; intros ->; vm_compute in Hc; discriminate.
Qed.

(** X15. Decoding the payload of the copy button gives back the bytes of
    the article in UTF-8, so two articles with the same payload are the
    same bytes.  For an article in ASCII these bytes are the characters of
    the article itself. *)
Theorem copy_button_payload_decodes (text : str) :
  Forall code_point text ->
  atob (b64encode (concat (map utf8_bytes text))) = Some (concat (map utf8_bytes text))
  /\ (Forall (fun c => (c < 0x80)%N) text ->
      get_copy_to_clipboard_button text
      = Ok (button_before ++ b64encode text ++ button_after)
      /\ atob (b64encode text) = Some text).
Proof.
  intros Htext.
  pose proof (atob_b64encode _ (utf8_bytes_are_bytes _ Htext)) as Hrt.
  split; [exact Hrt|].
  intros Hascii. rewrite (utf8_bytes_ascii _ Hascii) in Hrt.
  split; [|exact Hrt].
  unfold get_copy_to_clipboard_button, str_encode, rbind.
  rewrite (encodable_ascii _ Hascii).
  rewrite (utf8_bytes_ascii _ Hascii). reflexivity.
Qed.

(** *** The sources that the research stage counts *)

Lemma exec_alt {A} (r1 r2 : re) (s : str) (caps : list str)
    (k : str -> list str -> option A) :
  exec (Alt r1 r2) s caps k = first_some (exec r1 s caps k) (exec r2 s caps k).
Proof. reflexivity. Qed.

Lemma exec_grp {A} (r : re) (s : str) (caps : list str)
    (k : str -> list str -> option A) :
  exec (Grp r) s caps k
  = exec r s caps (fun s1 caps1 => k s1 (caps1 ++ [take (length s - length s1) s])).
Proof. reflexivity. Qed.

(** A literal text does not match a text that does not start with it. *)
Lemma exec_lits_fails {A} (p : str) :
  forall (s : str) (caps : list str) (k : str -> list str -> option A),
    startswith p s = false -> exec (lits p) s caps k = None.
Proof.
  induction p as [|c p IH]; intros s caps k; [discriminate|].
  destruct s as [|d s]; [destruct p; reflexivity|].
  cbn [startswith]. intros Hs.
  destruct p as [|c' p].
  - cbn [lits exec]. cbn [startswith] in Hs. rewrite andb_true_r in Hs.
    rewrite Hs. reflexivity.
  - change (lits (c :: c' :: p)) with (Cat (Lit c) (lits (c' :: p))).
    cbn [exec]. destruct (c =? d)%N; [|reflexivity].
    apply IH. exact Hs.
Qed.

Lemma re_search_here (r : re) (s rest : str) (caps : list str) :
  re_match r s = Some (rest, caps) -> re_search r s = Some caps.
Proof.
  intros Hm. destruct s; cbn [re_search]; rewrite Hm; reflexivity.
Qed.

(** The address of a page: the scheme, the host and the path. *)
Record site := {
  https : bool;
  host : str;
  path : str
}.

Definition site_url (s : site) : str :=
  u8 "http" ++ (if https s then u8 "s" else []) ++ u8 "://" ++ host s ++ path s.

(** The host has no slash and is not empty; the path is empty or starts
    with a slash. *)
Definition well_formed (s : site) : Prop :=
  host s <> []
  /\ Forall (fun c => c <> chr "/") (host s)
  /\ match path s with [] => True | c :: _ => c = chr "/" end.

(** The host without a leading [www.], unless nothing would be left. *)
Definition bare_host (h : str) : str :=
  if startswith (u8 "www.") h && (4 <? length h)%nat then drop 4 h else h.

Definition not_slash (c : char) : bool := negb (c =? chr "/")%N.

(** The group of the pattern takes a host up to the path. *)
Lemma exec_host_group (h p : str) (caps : list str) :
  h <> [] ->
  Forall (fun c => c <> chr "/") h ->
  match p with [] => True | c :: _ => c = chr "/" end ->
  exec (Grp (Plus true (Cls not_slash))) (h ++ p) caps
    (fun s1 caps1 => Some (s1, caps1))
  = Some (p, caps ++ [h]).
Proof.
  intros Hne Hh Hp. destruct h as [|c h]; [contradiction|].
  apply Forall_cons in Hh as [Hc Hh].
  rewrite exec_grp. unfold Plus. rewrite exec_cat. cbn [app exec].
  unfold not_slash at 1.
  replace (c =? chr "/")%N with false by (symmetry; apply N.eqb_neq; exact Hc).
  cbn [negb].
  apply exec_greedy_star.
  - apply (Forall_impl _ _ _ Hh). intros d Hd. unfold not_slash.
    apply negb_true_iff, N.eqb_neq. exact Hd.
  - destruct p as [|d p]; [exact I|]. subst d. reflexivity.
  - do 3 f_equal.
    replace (length (c :: h ++ p) - length p)%nat with (length (c :: h))
      by (cbn [length]; rewrite length_app; lia).
    change (c :: h ++ p) with ((c :: h) ++ p).
    rewrite take_app_length. reflexivity.
Qed.

Lemma exec_host_group_fails (p : str) (caps : list str) :
  match p with [] => True | c :: _ => c = chr "/" end ->
  exec (Grp (Plus true (Cls not_slash))) p caps
    (fun s1 caps1 => Some (s1, caps1))
  = None.
Proof.
  intros Hp. rewrite exec_grp. unfold Plus. rewrite exec_cat.
  destruct p as [|c p]; [reflexivity|]. subst c. reflexivity.
Qed.

Lemma www_not_at_start (h p : str) :
  Forall (fun c => c <> chr "/") h ->
  match p with [] => True | c :: _ => c = chr "/" end ->
  startswith (u8 "www.") h = false ->
  startswith (u8 "www.") (h ++ p) = false.
Proof.
  intros Hh Hp.
  assert (Hpath : forall q, q <> [] -> (forall c, c ∈ q -> c <> chr "/") ->
                            startswith q p = false).
  { intros q Hq Hin. destruct q as [|a q]; [contradiction|].
    destruct p as [|c p]; [reflexivity|]. subst c. cbn [startswith].
    replace (a =? chr "/")%N with false; [reflexivity|].
    symmetry. apply N.eqb_neq. apply Hin. apply list_elem_of_here. }
  assert (Hw : forall c, c ∈ u8 "www." -> c <> chr "/").
  { apply Forall_forall. vm_compute. repeat constructor; discriminate. }
  assert (Hcons : forall a q b t,
            startswith (a :: q) (b :: t) = (a =? b)%N && startswith q t)
    by reflexivity.
  change (u8 "www.") with [chr "w"; chr "w"; chr "w"; chr "."] in *.
  destruct h as [|a [|b [|c [|d h]]]]; cbn [app]; intros Hs.
  - apply Hpath; [discriminate|exact Hw].
  - rewrite Hcons. destruct (chr "w" =? a)%N; [|reflexivity]. cbn [andb].
    apply Hpath; [discriminate|].
    intros x Hx. apply Hw. apply list_elem_of_further. exact Hx.
  - rewrite !Hcons.
    destruct (chr "w" =? a)%N; [|reflexivity].
    destruct (chr "w" =? b)%N; [|reflexivity]. cbn [andb].
    apply Hpath; [discriminate|].
    intros x Hx. apply Hw. do 2 apply list_elem_of_further. exact Hx.
  - rewrite !Hcons.
    destruct (chr "w" =? a)%N; [|reflexivity].
    destruct (chr "w" =? b)%N; [|reflexivity].
    destruct (chr "w" =? c)%N; [|reflexivity]. cbn [andb].
    apply Hpath; [discriminate|].
    intros x Hx. apply Hw. do 3 apply list_elem_of_further. exact Hx.
  - rewrite !Hcons in Hs |- *. cbn [startswith] in Hs |- *. exact Hs.
Qed.

(** What the pattern of the domain finds in the address of a page. *)
Lemma domain_of_site (s : site) :
  well_formed s -> re_search domain_re (site_url s) = Some [bare_host (host s)].
Proof.
  intros (Hne & Hh & Hp).
  apply (re_search_here _ _ (path s)).
  unfold re_match, domain_re, site_url.
  fold not_slash.
  rewrite exec_cat, exec_lits, exec_cat.
  assert (Hrest :
    exec (Cat (lits (u8 "://"))
            (Cat (Opt (lits (u8 "www."))) (Grp (Plus true (Cls not_slash)))))
      (u8 "://" ++ host s ++ path s) []
      (fun s1 caps1 => Some (s1, caps1))
    = Some (path s, [bare_host (host s)])).
  { rewrite exec_cat, exec_lits, exec_cat. unfold Opt. rewrite exec_alt.
    unfold bare_host.
    destruct (startswith (u8 "www.") (host s)) eqn:Hwww.
    - assert (Hsplit : host s = u8 "www." ++ drop 4 (host s)).
      { revert Hwww. change (u8 "www.") with [chr "w"; chr "w"; chr "w"; chr "."].
        destruct (host s) as [|a [|b [|c [|d h]]]]; cbn [startswith];
          rewrite ?andb_false_r; try discriminate.
        intros Hs.
        apply andb_true_iff in Hs as [Ha Hs]. apply andb_true_iff in Hs as [Hb Hs].
        apply andb_true_iff in Hs as [Hc Hs]. apply andb_true_iff in Hs as [Hd _].
        apply N.eqb_eq in Ha, Hb, Hc, Hd. subst a b c d. reflexivity. }
      assert (Hdrop : Forall (fun c => c <> chr "/") (drop 4 (host s))).
      { apply Forall_drop. exact Hh. }
      assert (Hlen : length (host s) = (4 + length (drop 4 (host s)))%nat).
      { rewrite Hsplit at 1. rewrite length_app. reflexivity. }
      cbn [andb].
      rewrite Hsplit at 1. rewrite <- app_assoc, exec_lits.
      destruct (drop 4 (host s)) as [|c h] eqn:Hd.
      + replace (4 <? length (host s))%nat with false
          by (symmetry; apply Nat.ltb_ge; cbn [length] in Hlen; lia).
        cbn [app]. rewrite (exec_host_group_fails (path s) [] Hp).
        cbn [first_some exec].
        apply (exec_host_group (host s) (path s) [] Hne Hh Hp).
      + replace (4 <? length (host s))%nat with true
          by (symmetry; apply Nat.ltb_lt; cbn [length] in Hlen; lia).
        rewrite (exec_host_group (c :: h) (path s) []);
          [reflexivity | discriminate | exact Hdrop | exact Hp].
    - cbn [andb].
      rewrite (exec_lits_fails (u8 "www.") _ _ _
                 (www_not_at_start _ _ Hh Hp Hwww)).
      cbn [first_some exec].
      apply (exec_host_group (host s) (path s) [] Hne Hh Hp). }
  unfold Opt in Hrest |- *. rewrite exec_alt.
  destruct (https s).
  - change (u8 "s") with [chr "s"]. cbn [app].
    change (exec (Lit (chr "s")) (chr "s" :: ?t) ?c ?k) with (k t c) at 1.
    cbv beta. rewrite Hrest. reflexivity.
  - cbn [app].
    assert (Hs : forall A t c (k : str -> list str -> option A),
              exec (Lit (chr "s")) (u8 "://" ++ t) c k = None) by reflexivity.
    rewrite Hs. cbn [first_some exec]. exact Hrest.
Qed.

Lemma domains_of_sites (sites : list site) :
  Forall well_formed sites ->
  domains_of (map site_url sites) = map (fun s => bare_host (host s)) sites.
Proof.
  induction 1 as [|s sites Hs _ IH]; [reflexivity|].
  cbn [map domains_of]. rewrite (domain_of_site s Hs), IH. reflexivity.
Qed.

(** X16. The number of sources that a successful research shows counts
    sites, not links: the citations are reduced to their hosts, a leading
    [www.] and the scheme being left out, and each host is counted once.
    Nothing else is shown after the two notices of the start. *)
Theorem sources_are_counted_by_host topic settings w resp m sites :
  research_enabled settings = true ->
  service (calls w) (research_request topic (search_context_size_of settings))
    = Ok resp ->
  first_message resp = Ok m ->
  citations_of m = Ok (map site_url sites) ->
  Forall well_formed sites ->
  events (snd (perform_web_research topic settings w))
  = events w
      ++ [(StInfo, ResearchStarting); (StInfo, UsingSearchModel);
          (StSuccess,
           ResearchFinished
             (length (remove_dups (map (fun s => bare_host (host s)) sites))))].
Proof.
  intros Hen Hs Hm Hc Hsites.
  rewrite (perform_web_research_enabled _ _ _ Hen).
  unfold research_attempt, bind, st, lift, ret, chat_completions_create,
    set_research_result.
  cbn [research_started calls events research_results].
  rewrite Hs, Hm, Hc. cbn [snd events].
  rewrite (domains_of_sites _ Hsites), <- !app_assoc. reflexivity.
Qed.

End Program.

(** ** Writing the settings and reading them back *)

(** Replaces the character and string literals of the goal by their code
    points. *)
Ltac norm_chr :=
  repeat match goal with
  | |- context [chr ?a] =>
    let v := eval vm_compute in (chr a) in change (chr a) with v
  | |- context [u8 ?a] =>
    let v := eval vm_compute in (u8 a) in change (u8 a) with v
  end.

Section Decimal.

Definition step (acc : N) (c : char) : N := (acc * 10 + digit_value c)%N.

Lemma digits_value_acc (d : Decimal.uint) :
  forall acc : positive,
    fold_left step (digits_of_uint d) (Npos acc) = Npos (Pos.of_uint_acc d acc).
Proof.
  induction d; intros acc; cbn [digits_of_uint fold_left Pos.of_uint_acc];
    [reflexivity | ..];
    rewrite <- IHd; f_equal; unfold step, digit_value; norm_chr; lia.
Qed.

Lemma digits_value_of_uint (d : Decimal.uint) :
  digits_value (digits_of_uint d) = N.of_uint d.
Proof.
  unfold digits_value, N.of_uint. fold step.
  induction d; cbn [digits_of_uint fold_left Pos.of_uint]; [reflexivity | ..];
    try (rewrite <- digits_value_acc; f_equal; unfold step, digit_value; norm_chr; lia).
  rewrite <- IHd. f_equal.
Qed.

Lemma N_repr_value (n : N) : digits_value (N_repr n) = n.
Proof.
  unfold N_repr. rewrite digits_value_of_uint. apply DecimalN.Unsigned.of_to.
Qed.

Lemma digits_of_uint_digits (d : Decimal.uint) :
  forallb is_digit (digits_of_uint d) = true.
Proof.
  induction d; cbn [digits_of_uint forallb]; [reflexivity | ..];
    rewrite IHd; norm_chr; reflexivity.
Qed.

(** The first character of what follows a token does not continue a
    number. *)
Definition ends_number (rest : str) : bool :=
  match rest with
  | [] => true
  | c :: _ => ((c =? chr ",") || (c =? 0x0A))%N
  end.

Lemma ends_number_no_digit c rest : ends_number (c :: rest) = true -> is_digit c = false.
Proof.
  cbn [ends_number]. norm_chr. unfold is_digit. intros Hc.
  apply orb_true_iff in Hc as [Hc|Hc]; apply N.eqb_eq in Hc; subst c; reflexivity.
Qed.

Lemma span_digits_app (ds rest : str) :
  forallb is_digit ds = true -> ends_number rest = true ->
  span_digits (ds ++ rest) = (ds, rest).
Proof.
  intros Hds Hrest. induction ds as [|c ds IH]; cbn [app span_digits].
  - destruct rest as [|c rest]; [reflexivity|].
    cbn [span_digits]. rewrite (ends_number_no_digit _ _ Hrest). reflexivity.
  - cbn [forallb] in Hds. apply andb_true_iff in Hds as [Hc Hds].
    rewrite Hc, (IH Hds). reflexivity.
Qed.

(** The decimal digits of a number: a single zero, or a digit from 1 to 9
    followed by digits. *)
Lemma N_repr_shape (n : N) :
  N_repr n = [chr "0"]
  \/ exists c ds, N_repr n = c :: ds /\ is_digit c = true /\ (c =? 0x30)%N = false
                  /\ forallb is_digit ds = true.
Proof.
  unfold N_repr. destruct n as [|p]; [left; reflexivity|].
  right. cbn [N.to_uint].
  pose proof (DecimalPos.Unsigned.to_of (Pos.to_uint p)) as Hn.
  rewrite DecimalPos.Unsigned.of_to in Hn. cbn [N.to_uint] in Hn.
  pose proof (DecimalPos.Unsigned.to_uint_nonzero p) as Hnz.
  pose proof (digits_of_uint_digits (Pos.to_uint p)) as Hd.
  unfold Decimal.unorm in Hn.
  pose proof (DecimalFacts.nzhead_nonzero (Pos.to_uint p)) as Hh.
  destruct (Decimal.nzhead (Pos.to_uint p)) eqn:Hz;
    [congruence | exfalso; eapply Hh; reflexivity | ..];
    rewrite Hn in Hd |- *; cbn [digits_of_uint forallb] in Hd |- *;
    apply andb_true_iff in Hd as [Hc Hd];
    eexists _, _; (split; [reflexivity|]); norm_chr; auto.
Qed.

End Decimal.

Section NumberScan.

Lemma ends_number_head c rest :
  ends_number (c :: rest) = true ->
  is_digit c = false /\ (c =? chr ".")%N = false /\ (c =? chr "e")%N = false
  /\ (c =? chr "E")%N = false /\ (c =? chr "+")%N = false /\ (c =? chr "-")%N = false.
Proof.
  cbn [ends_number]. norm_chr. unfold is_digit. intros Hc.
  apply orb_true_iff in Hc as [Hc|Hc]; apply N.eqb_eq in Hc; subst c;
    repeat split; reflexivity.
Qed.

Lemma span_digits_append (s rest ds r : str) :
  span_digits s = (ds, r) -> ends_number rest = true ->
  span_digits (s ++ rest) = (ds, r ++ rest).
Proof.
  intros Hs Hrest. revert ds r Hs.
  induction s as [|c s IH]; intros ds r Hs; cbn [span_digits app] in *.
  - injection Hs as <- <-. destruct rest as [|c rest]; [reflexivity|].
    cbn [span_digits app]. rewrite (ends_number_no_digit _ _ Hrest). reflexivity.
  - destruct (is_digit c).
    + destruct (span_digits s) as [ds' r']. injection Hs as <- <-.
      rewrite (IH _ _ eq_refl). reflexivity.
    + injection Hs as <- <-. reflexivity.
Qed.

Lemma scan_int_part_append (s rest t r : str) :
  scan_int_part s = Some (t, r) -> ends_number rest = true ->
  scan_int_part (s ++ rest) = Some (t, r ++ rest).
Proof.
  intros Hs Hrest. destruct s as [|c s]; [discriminate|].
  cbn [scan_int_part app] in *.
  destruct (c =? 0x30)%N; [injection Hs as <- <-; reflexivity|].
  destruct (is_digit c); [|discriminate].
  destruct (span_digits s) as [ds r'] eqn:Hd. injection Hs as <- <-.
  rewrite (span_digits_append _ _ _ _ Hd Hrest). reflexivity.
Qed.

Lemma scan_frac_append (s rest : str) :
  ends_number rest = true ->
  scan_frac (s ++ rest) =
    match scan_frac s with
    | Some (t, r) => Some (t, r ++ rest)
    | None => None
    end.
Proof.
  intros Hrest.
  destruct s as [|dot [|d s]]; cbn [app].
  - destruct rest as [|c [|d rest]]; [reflexivity | reflexivity |].
    cbn [scan_frac].
    destruct (ends_number_head _ _ Hrest) as (_ & -> & _). reflexivity.
  - destruct rest as [|c rest]; [reflexivity|]. cbn [scan_frac].
    destruct (ends_number_head _ _ Hrest) as (-> & _).
    rewrite andb_false_r. reflexivity.
  - cbn [scan_frac].
    destruct ((dot =? chr ".")%N && is_digit d); [|reflexivity].
    destruct (span_digits s) as [ds r] eqn:Hd.
    rewrite (span_digits_append _ _ _ _ Hd Hrest). reflexivity.
Qed.

Lemma scan_exp_append (s rest : str) :
  ends_number rest = true ->
  scan_exp (s ++ rest) =
    match scan_exp s with
    | Some (t, r) => Some (t, r ++ rest)
    | None => None
    end.
Proof.
  intros Hrest.
  destruct s as [|e [|x [|y s]]]; cbn [app].
  - destruct rest as [|c rest]; [reflexivity|]. cbn [scan_exp].
    destruct (ends_number_head _ _ Hrest) as (_ & _ & -> & -> & _). reflexivity.
  - cbn [scan_exp]. destruct ((e =? chr "e")%N || (e =? chr "E")%N); [|reflexivity].
    destruct rest as [|c [|d rest]]; [reflexivity | |];
      destruct (ends_number_head _ _ Hrest) as (Hd & _ & _ & _ & Hp & Hm);
      cbn [app]; rewrite ?Hd, ?Hp, ?Hm; reflexivity.
  - cbn [scan_exp]. destruct ((e =? chr "e")%N || (e =? chr "E")%N); [|reflexivity].
    destruct rest as [|c rest]; [destruct (is_digit x); reflexivity|].
    cbn [app]. rewrite (ends_number_no_digit _ _ Hrest), andb_false_r.
    destruct (is_digit x); [|reflexivity].
    cbn [span_digits]. rewrite (ends_number_no_digit _ _ Hrest). reflexivity.
  - cbn [scan_exp]. destruct ((e =? chr "e")%N || (e =? chr "E")%N); [|reflexivity].
    destruct (((x =? chr "+")%N || (x =? chr "-")%N) && is_digit y).
    + destruct (span_digits s) as [ds r] eqn:Hd.
      rewrite (span_digits_append _ _ _ _ Hd Hrest). reflexivity.
    + destruct (is_digit x); [|reflexivity].
      destruct (span_digits (y :: s)) as [ds r] eqn:Hd.
      change (y :: s ++ rest) with ((y :: s) ++ rest).
      rewrite (span_digits_append _ _ _ _ Hd Hrest). reflexivity.
Qed.

Lemma match_number_append (s rest t r : str) (f : bool) :
  match_number s = Some (t, f, r) -> ends_number rest = true ->
  match_number (s ++ rest) = Some (t, f, r ++ rest).
Proof.
  intros Hs Hrest. destruct s as [|c s]; [discriminate|].
  unfold match_number in *. cbn [app].
  assert (Hgo : forall sign s0,
    match scan_int_part s0 with
    | Some (ip, s1) =>
      let (fp, s2) :=
        match scan_frac s1 with Some (f, r) => (f, r) | None => ([], s1) end in
      let (ep, s3) :=
        match scan_exp s2 with Some (e, r) => (e, r) | None => ([], s2) end in
      Some (sign ++ ip ++ fp ++ ep,
            match fp, ep with [], [] => false | _, _ => true end, s3)
    | None => None
    end = Some (t, f, r) ->
    match scan_int_part (s0 ++ rest) with
    | Some (ip, s1) =>
      let (fp, s2) :=
        match scan_frac s1 with Some (f, r) => (f, r) | None => ([], s1) end in
      let (ep, s3) :=
        match scan_exp s2 with Some (e, r) => (e, r) | None => ([], s2) end in
      Some (sign ++ ip ++ fp ++ ep,
            match fp, ep with [], [] => false | _, _ => true end, s3)
    | None => None
    end = Some (t, f, r ++ rest)).
  { intros sign s0 H0.
    destruct (scan_int_part s0) as [[ip s1]|] eqn:Hip; [|discriminate].
    rewrite (scan_int_part_append _ _ _ _ Hip Hrest).
    rewrite (scan_frac_append s1 rest Hrest).
    destruct (scan_frac s1) as [[fp s2]|];
      rewrite (scan_exp_append _ rest Hrest);
      destruct (scan_exp _) as [[ep s3]|];
      injection H0 as <- <- <-; reflexivity. }
  destruct (c =? chr "-")%N.
  - apply (Hgo [c] s Hs).
  - apply (Hgo [] (c :: s) Hs).
Qed.

(** A number starts with a digit, or with a minus sign and a digit. *)
Definition number_start (s : str) : bool :=
  match s with
  | c :: s' =>
    is_digit c
    || ((c =? chr "-")%N && match s' with d :: _ => is_digit d | [] => false end)
  | [] => false
  end.

Lemma scan_int_part_start (s t r : str) :
  scan_int_part s = Some (t, r) ->
  match s with c :: _ => is_digit c = true | [] => False end.
Proof.
  destruct s as [|c s]; [discriminate|]. cbn [scan_int_part].
  destruct (c =? 0x30)%N eqn:Hz.
  - apply N.eqb_eq in Hz. subst c. reflexivity.
  - destruct (is_digit c); [reflexivity|discriminate].
Qed.

Lemma match_number_start (s t r : str) (f : bool) :
  match_number s = Some (t, f, r) -> number_start s = true.
Proof.
  unfold match_number. destruct s as [|c s]; [discriminate|].
  destruct (c =? chr "-")%N eqn:Hm.
  - destruct (scan_int_part s) as [[ip s1]|] eqn:Hip; [|discriminate]. intros _.
    pose proof (scan_int_part_start _ _ _ Hip) as Hd.
    cbn [number_start]. rewrite Hm.
    destruct s as [|d s]; [contradiction|]. rewrite Hd. apply orb_true_r.
  - destruct (scan_int_part (c :: s)) as [[ip s1]|] eqn:Hip; [|discriminate]. intros _.
    pose proof (scan_int_part_start _ _ _ Hip) as Hd.
    cbn [number_start]. rewrite Hd. reflexivity.
Qed.

End NumberScan.

Section StringScan.

(** Reading back what [escape_char] wrote for one character. *)
Lemma scanstring_escape_char (c : char) (acc tail : str) :
  scanstring acc (escape_char c ++ tail) = scanstring (c :: acc) tail.
Proof.
  unfold escape_char.
  destruct (c =? 0x22)%N eqn:Hq; [apply N.eqb_eq in Hq; subst c; reflexivity|].
  destruct (c =? 0x5C)%N eqn:Hb; [apply N.eqb_eq in Hb; subst c; reflexivity|].
  destruct (c =? 0x0A)%N eqn:H1; [apply N.eqb_eq in H1; subst c; reflexivity|].
  destruct (c =? 0x0D)%N eqn:H2; [apply N.eqb_eq in H2; subst c; reflexivity|].
  destruct (c =? 0x09)%N eqn:H3; [apply N.eqb_eq in H3; subst c; reflexivity|].
  destruct (c =? 0x08)%N eqn:H4; [apply N.eqb_eq in H4; subst c; reflexivity|].
  destruct (c =? 0x0C)%N eqn:H5; [apply N.eqb_eq in H5; subst c; reflexivity|].
  destruct (c <? 0x20)%N eqn:Hlow.
  - apply N.ltb_lt in Hlow.
    destruct c as [|p]; [reflexivity|].
    do 5 (destruct p as [p|p|]; try reflexivity); exfalso; lia.
  - apply N.ltb_ge in Hlow.
    cbn [app scanstring]. rewrite Hq, Hb.
    destruct (c <=? 0x1F)%N eqn:Hc; [apply N.leb_le in Hc; lia|reflexivity].
Qed.

Lemma scanstring_escaped (s : str) :
  forall acc tail,
    scanstring acc (concat (map escape_char s) ++ 0x22%N :: tail)
    = Some (rev acc ++ s, tail).
Proof.
  induction s as [|c s IH]; intros acc tail.
  - cbn [map concat app scanstring N.eqb Pos.eqb]. rewrite app_nil_r. reflexivity.
  - cbn [map concat]. rewrite <- app_assoc, scanstring_escape_char, IH.
    cbn [rev]. rewrite <- app_assoc. reflexivity.
Qed.

(** [scanstring] reads back what [encode_basestring] wrote, whatever the
    string. *)
Lemma scanstring_encode_basestring (s tail : str) :
  exists body, encode_basestring s ++ tail = 0x22%N :: body
               /\ scanstring [] body = Some (s, tail).
Proof.
  unfold encode_basestring. eexists. split.
  - cbn [app]. rewrite <- app_assoc. reflexivity.
  - apply (scanstring_escaped s [] tail).
Qed.

End StringScan.

Section NumberText.

(** The characters a number is written with. *)
Definition number_char (c : char) : bool :=
  is_digit c
  || ((c =? chr "-") || (c =? chr "+") || (c =? chr ".") || (c =? chr "e")
      || (c =? chr "E"))%N.

Lemma digit_number_char c : is_digit c = true -> number_char c = true.
Proof. unfold number_char. intros ->. reflexivity. Qed.

Lemma digits_number_chars ds :
  forallb is_digit ds = true -> forallb number_char ds = true.
Proof.
  induction ds as [|c ds IH]; [reflexivity|]. cbn [forallb].
  intros Hd. apply andb_true_iff in Hd as [Hc Hd].
  rewrite (digit_number_char _ Hc), (IH Hd). reflexivity.
Qed.

Lemma span_digits_text (s ds r : str) :
  span_digits s = (ds, r) -> s = ds ++ r /\ forallb is_digit ds = true.
Proof.
  revert ds r. induction s as [|c s IH]; intros ds r; cbn [span_digits].
  - intros [= <- <-]. auto.
  - destruct (is_digit c) eqn:Hc.
    + destruct (span_digits s) as [ds' r']. intros [= <- <-].
      destruct (IH _ _ eq_refl) as [-> Hd]. cbn [forallb]. rewrite Hc, Hd. auto.
    + intros [= <- <-]. auto.
Qed.

Lemma scan_int_part_text (s t r : str) :
  scan_int_part s = Some (t, r) -> s = t ++ r /\ forallb number_char t = true.
Proof.
  destruct s as [|c s]; [discriminate|]. cbn [scan_int_part].
  destruct (c =? 0x30)%N eqn:Hz.
  - intros [= <- <-]. apply N.eqb_eq in Hz. subst c. auto.
  - destruct (is_digit c) eqn:Hc; [|discriminate].
    destruct (span_digits s) as [ds r'] eqn:Hd. intros [= <- <-].
    destruct (span_digits_text _ _ _ Hd) as [-> Hds].
    cbn [forallb]. rewrite (digit_number_char _ Hc), (digits_number_chars _ Hds). auto.
Qed.

Lemma scan_frac_text (s t r : str) :
  scan_frac s = Some (t, r) -> s = t ++ r /\ forallb number_char t = true.
Proof.
  destruct s as [|dot [|d s]]; try discriminate. cbn [scan_frac].
  destruct (dot =? chr ".")%N eqn:Hdot; [|discriminate].
  destruct (is_digit d) eqn:Hd; [|discriminate]. cbn [andb].
  destruct (span_digits s) as [ds r'] eqn:Hs. intros [= <- <-].
  destruct (span_digits_text _ _ _ Hs) as [-> Hds].
  cbn [forallb]. rewrite (digit_number_char _ Hd), (digits_number_chars _ Hds).
  unfold number_char. rewrite Hdot, !orb_true_r. auto.
Qed.

Lemma scan_exp_text (s t r : str) :
  scan_exp s = Some (t, r) -> s = t ++ r /\ forallb number_char t = true.
Proof.
  destruct s as [|e s1]; [discriminate|]. cbn [scan_exp].
  destruct ((e =? chr "e")%N || (e =? chr "E")%N) eqn:He; [|discriminate].
  assert (Hne : number_char e = true).
  { unfold number_char. apply orb_true_iff in He as [-> | ->];
      rewrite ?orb_true_r; reflexivity. }
  destruct s1 as [|sg [|d s2]]; [discriminate | |].
  - destruct (is_digit sg) eqn:Hsg; [|discriminate]. intros [= <- <-].
    cbn [forallb]. rewrite Hne, (digit_number_char _ Hsg). auto.
  - destruct (((sg =? chr "+")%N || (sg =? chr "-")%N) && is_digit d) eqn:Hsign.
    + destruct (span_digits s2) as [ds r'] eqn:Hs. intros [= <- <-].
      destruct (span_digits_text _ _ _ Hs) as [-> Hds].
      apply andb_true_iff in Hsign as [Hsg Hd].
      cbn [forallb]. rewrite Hne, (digit_number_char _ Hd), (digits_number_chars _ Hds).
      assert (number_char sg = true) as ->; [|auto].
      unfold number_char. apply orb_true_iff in Hsg as [-> | ->];
        rewrite ?orb_true_r; reflexivity.
    + destruct (is_digit sg) eqn:Hsg; [|discriminate].
      destruct (span_digits (d :: s2)) as [ds r'] eqn:Hs. intros [= <- <-].
      destruct (span_digits_text _ _ _ Hs) as [Heq Hds].
      cbn [forallb app]. rewrite Heq.
      rewrite Hne, (digit_number_char _ Hsg), (digits_number_chars _ Hds). auto.
Qed.

Lemma match_number_text (s t r : str) (f : bool) :
  match_number s = Some (t, f, r) -> s = t ++ r /\ forallb number_char t = true.
Proof.
  unfold match_number.
  assert (Hgo : forall sign s0,
    forallb number_char sign = true ->
    match scan_int_part s0 with
    | Some (ip, s1) =>
      let (fp, s2) :=
        match scan_frac s1 with Some (f, r) => (f, r) | None => ([], s1) end in
      let (ep, s3) :=
        match scan_exp s2 with Some (e, r) => (e, r) | None => ([], s2) end in
      Some (sign ++ ip ++ fp ++ ep,
            match fp, ep with [], [] => false | _, _ => true end, s3)
    | None => None
    end = Some (t, f, r) ->
    sign ++ s0 = t ++ r /\ forallb number_char t = true).
  { intros sign s0 Hsign.
    destruct (scan_int_part s0) as [[ip s1]|] eqn:Hip; [|discriminate].
    destruct (scan_int_part_text _ _ _ Hip) as [-> Hipc].
    assert (Hf : exists fp s2,
      match scan_frac s1 with Some (f, r) => (f, r) | None => ([], s1) end = (fp, s2)
      /\ s1 = fp ++ s2 /\ forallb number_char fp = true).
    { destruct (scan_frac s1) as [[fp s2]|] eqn:Hfp.
      - destruct (scan_frac_text _ _ _ Hfp) as [-> Hc]. eauto.
      - exists [], s1. auto. }
    destruct Hf as (fp & s2 & -> & -> & Hfpc).
    assert (He : exists ep s3,
      match scan_exp s2 with Some (e, r) => (e, r) | None => ([], s2) end = (ep, s3)
      /\ s2 = ep ++ s3 /\ forallb number_char ep = true).
    { destruct (scan_exp s2) as [[ep s3]|] eqn:Hep.
      - destruct (scan_exp_text _ _ _ Hep) as [-> Hc]. eauto.
      - exists [], s2. auto. }
    destruct He as (ep & s3 & -> & -> & Hepc).
    intros [= <- _ <-]. split.
    - rewrite <- !app_assoc. reflexivity.
    - rewrite !forallb_app, Hsign, Hipc, Hfpc, Hepc. reflexivity. }
  destruct s as [|c s]; [discriminate|].
  destruct (c =? chr "-")%N eqn:Hm.
  - intros Hs. apply (Hgo [c] s); [|exact Hs].
    cbn [forallb]. unfold number_char. rewrite Hm, !orb_true_r. reflexivity.
  - intros Hs. apply (Hgo [] (c :: s)); [reflexivity|exact Hs].
Qed.

End NumberText.

(** ** The recursion budget of [json_loads] never runs out *)

Section Budget.
Context `{PyFloat}.

Lemma skip_ws_length (s : str) : (length (skip_ws s) <= length s)%nat.
Proof.
  induction s as [|c s IH]; cbn [skip_ws length]; [lia|].
  destruct (is_ws c); cbn [length]; lia.
Qed.

Lemma scanstring_consumes (n : nat) :
  forall s acc t r,
    (length s <= n)%nat -> scanstring acc s = Some (t, r) ->
    (length r < length s)%nat.
Proof.
  induction n as [|n IH]; intros s acc t r Hn;
    (destruct s as [|c s1]; [discriminate|]); cbn [length] in Hn; [lia|].
  assert (Hrec : forall s' acc', (length s' <= length s1)%nat ->
            scanstring acc' s' = Some (t, r) -> (length r < length (c :: s1))%nat).
  { intros s' acc' Hlen Hs'. pose proof (IH s' acc' t r ltac:(lia) Hs').
    cbn [length]. lia. }
  cbn [scanstring].
  destruct (c =? 0x22)%N; [intros [= _ <-]; cbn [length]; lia|].
  destruct (c =? 0x5C)%N.
  - destruct s1 as [|e s2]; [discriminate|].
    destruct (e =? chr "u")%N.
    + destruct s2 as [|h1 [|h2 [|h3 [|h4 s3]]]]; try discriminate.
      destruct (hex4 h1 h2 h3 h4) as [u|]; [|discriminate].
      assert (Hs3 : forall acc', scanstring acc' s3 = Some (t, r) ->
                (length r < length (c :: e :: h1 :: h2 :: h3 :: h4 :: s3))%nat).
      { intros acc'. apply Hrec. cbn [length]. lia. }
      destruct (is_high_surrogate u); [|apply Hs3].
      destruct s3 as [|b [|v [|g1 [|g2 [|g3 [|g4 s4]]]]]]; try apply Hs3.
      destruct ((b =? 0x5C)%N && (v =? chr "u")%N); [|apply Hs3].
      destruct (hex4 g1 g2 g3 g4) as [u2|]; [|discriminate].
      destruct (is_low_surrogate u2); [|apply Hs3].
      apply Hrec. cbn [length]. lia.
    + destruct (simple_escape e); [|discriminate].
      apply Hrec. cbn [length]. lia.
  - destruct (c <=? 0x1F)%N; [discriminate|].
    apply Hrec. lia.
Qed.

Lemma scan_int_part_nonempty (s t r : str) :
  scan_int_part s = Some (t, r) -> t <> [].
Proof.
  destruct s as [|c s]; [discriminate|]. cbn [scan_int_part].
  destruct (c =? 0x30)%N; [intros [= <- _]; discriminate|].
  destruct (is_digit c); [|discriminate].
  destruct (span_digits s). intros [= <- _]. discriminate.
Qed.

Lemma match_number_consumes (s t r : str) (f : bool) :
  match_number s = Some (t, f, r) -> (length r < length s)%nat.
Proof.
  intros Hm.
  assert (Ht : t <> []).
  { revert Hm. unfold match_number. destruct s as [|c s']; [discriminate|].
    destruct (c =? chr "-")%N;
      (destruct (scan_int_part _) as [[ip s1]|] eqn:Hip; [|discriminate]);
      pose proof (scan_int_part_nonempty _ _ _ Hip) as Hne;
      destruct (scan_frac s1) as [[fp s2]|];
      destruct (scan_exp _) as [[ep s3]|];
      intros [= <- _ _];
      (destruct ip; [contradiction|]); discriminate. }
  destruct (match_number_text _ _ _ _ Hm) as [-> _].
  rewrite length_app. destruct t; [contradiction|]. cbn [length]. lia.
Qed.

(** A reader that, on texts shorter than [bound], does not run out of
    budget and consumes at least one character. *)
Definition well_behaved (pv : str -> parse json) (bound : nat) : Prop :=
  forall s, (length s < bound)%nat ->
    pv s <> OutOfFuel
    /\ forall v r, pv s = Parsed v r -> (length r < length s)%nat.

Lemma parse_array_ok (pv : str -> parse json) (bound : nat) :
  well_behaved pv bound ->
  forall fuel acc s,
    (length s < bound)%nat -> (length s < fuel)%nat ->
    parse_array pv fuel acc s <> OutOfFuel
    /\ forall l r, parse_array pv fuel acc s = Parsed l r -> (length r < length s)%nat.
Proof.
  intros Hpv. induction fuel as [|fuel IH]; intros acc s Hb Hf; [lia|].
  cbn [parse_array]. destruct (Hpv s Hb) as [Hne Hcons].
  destruct (pv s) as [v s1| |]; [|split; discriminate|contradiction].
  specialize (Hcons v s1 eq_refl).
  pose proof (skip_ws_length s1) as Hws1.
  destruct (skip_ws s1) as [|c s2]; [split; discriminate|]. cbn [length] in Hws1.
  destruct (c =? chr "]")%N; [split; [discriminate|intros l r [= _ <-]; lia]|].
  destruct (c =? chr ",")%N; [|split; discriminate].
  pose proof (skip_ws_length s2) as Hws2.
  destruct (IH (v :: acc) (skip_ws s2) ltac:(lia) ltac:(lia)) as [Hne' Hcons'].
  split; [exact Hne'|]. intros l r Hp. specialize (Hcons' l r Hp). lia.
Qed.

Lemma parse_object_ok (pv : str -> parse json) (bound : nat) :
  well_behaved pv bound ->
  forall fuel acc s,
    (length s < bound)%nat -> (length s < fuel)%nat ->
    parse_object pv fuel acc s <> OutOfFuel
    /\ forall d r, parse_object pv fuel acc s = Parsed d r -> (length r < length s)%nat.
Proof.
  intros Hpv. induction fuel as [|fuel IH]; intros acc s Hb Hf; [lia|].
  cbn [parse_object]. destruct s as [|q s0]; [split; discriminate|].
  cbn [length] in *.
  destruct (q =? 0x22)%N; [|split; discriminate].
  destruct (scanstring [] s0) as [[key s1]|] eqn:Hkey; [|split; discriminate].
  pose proof (scanstring_consumes _ _ _ _ _ (le_n _) Hkey) as Hs1.
  pose proof (skip_ws_length s1) as Hws1.
  destruct (skip_ws s1) as [|colon s2]; [split; discriminate|]. cbn [length] in Hws1.
  destruct (colon =? chr ":")%N; [|split; discriminate].
  pose proof (skip_ws_length s2) as Hws2.
  destruct (Hpv (skip_ws s2) ltac:(lia)) as [Hne Hcons].
  destruct (pv (skip_ws s2)) as [v s3| |]; [|split; discriminate|contradiction].
  specialize (Hcons v s3 eq_refl).
  pose proof (skip_ws_length s3) as Hws3.
  destruct (skip_ws s3) as [|c s4]; [split; discriminate|]. cbn [length] in Hws3.
  destruct (c =? chr "}")%N; [split; [discriminate|intros d r [= _ <-]; lia]|].
  destruct (c =? chr ",")%N; [|split; discriminate].
  pose proof (skip_ws_length s4) as Hws4.
  destruct (IH (dict_set acc key v) (skip_ws s4) ltac:(lia) ltac:(lia))
    as [Hne' Hcons'].
  split; [exact Hne'|]. intros d r Hp. specialize (Hcons' d r Hp). lia.
Qed.

Lemma map_parse_ok {A B} (g : A -> B) (p : parse A) (n : nat) :
  p <> OutOfFuel /\ (forall a r, p = Parsed a r -> (length r < n)%nat) ->
  map_parse g p <> OutOfFuel
  /\ forall b r, map_parse g p = Parsed b r -> (length r < S n)%nat.
Proof.
  intros [Hne Hcons]. destruct p as [a r| |]; cbn [map_parse];
    [|split; discriminate|contradiction].
  split; [discriminate|]. intros b r' [= _ <-]. specialize (Hcons a r eq_refl). lia.
Qed.

Lemma scan_once_fuel (fuel : nat) : well_behaved (scan_once fuel) fuel.
Proof.
  induction fuel as [|f IH]; intros s Hlen; [lia|].
  destruct s as [|c s1]; [split; discriminate|].
  cbn [length] in Hlen. cbn [scan_once].
  destruct (c =? 0x22)%N.
  { destruct (scanstring [] s1) as [[t r]|] eqn:Hs; [|split; discriminate].
    pose proof (scanstring_consumes _ _ _ _ _ (le_n _) Hs).
    split; [discriminate|]. intros v r' [= _ <-]. cbn [length]. lia. }
  destruct (c =? chr "{")%N.
  { pose proof (skip_ws_length s1) as Hws.
    destruct (skip_ws s1) as [|d s2]; [split; discriminate|]. cbn [length] in Hws.
    destruct (d =? chr "}")%N.
    - split; [discriminate|]. intros v r [= _ <-]. cbn [length]. lia.
    - cbn [length].
      destruct (parse_object_ok (scan_once f) f IH f [] (d :: s2)
                  ltac:(cbn [length]; lia) ltac:(cbn [length]; lia)) as [Hne Hcons].
      apply map_parse_ok. split; [exact Hne|].
      intros a r Hp. specialize (Hcons a r Hp). cbn [length] in Hcons. lia. }
  destruct (c =? chr "[")%N.
  { pose proof (skip_ws_length s1) as Hws.
    destruct (skip_ws s1) as [|d s2]; [split; discriminate|]. cbn [length] in Hws.
    destruct (d =? chr "]")%N.
    - split; [discriminate|]. intros v r [= _ <-]. cbn [length]. lia.
    - cbn [length].
      destruct (parse_array_ok (scan_once f) f IH f [] (d :: s2)
                  ltac:(cbn [length]; lia) ltac:(cbn [length]; lia)) as [Hne Hcons].
      apply map_parse_ok. split; [exact Hne|].
      intros a r Hp. specialize (Hcons a r Hp). cbn [length] in Hcons. lia. }
  assert (Hdrop : forall k v,
    (Parsed v (drop (S k) (c :: s1)) : parse json) <> OutOfFuel
    /\ forall v' r, Parsed v (drop (S k) (c :: s1)) = Parsed v' r ->
         (length r < length (c :: s1))%nat).
  { intros k v. split; [discriminate|]. intros v' r [= _ <-].
    rewrite length_drop. cbn [length]. lia. }
  repeat match goal with
         | |- context [if startswith ?p (c :: s1) then _ else _] =>
           destruct (startswith p (c :: s1)); [apply Hdrop|]
         end.
  destruct (match_number (c :: s1)) as [[[text is_float] r]|] eqn:Hm;
    [|split; discriminate].
  pose proof (match_number_consumes _ _ _ _ Hm).
  split; [discriminate|]. intros v r' [= _ <-]. lia.
Qed.

(** [json_loads] answers [JSONDecodeError] for syntax errors only. *)
Lemma json_loads_budget (s : str) :
  scan_once (S (length s)) (skip_ws s) <> OutOfFuel.
Proof.
  apply scan_once_fuel. pose proof (skip_ws_length s). lia.
Qed.

End Budget.

(** *** What is assumed of the floats

    A finite float is written by [float.__repr__] as a JSON number with a
    fraction or an exponent, and [float] reads that text back as the same
    float. *)

Definition float_literal (l : str) : bool :=
  match match_number l with
  | Some (_, true, []) => true
  | _ => false
  end.

Class PyFloatLaws `{PyFloat} := {
  float_repr_literal :
    forall x, float_class x = FFinite -> float_literal (float_repr x) = true;
  float_repr_round_trip :
    forall x, float_class x = FFinite -> float_of_str (float_repr x) = x
}.

Section RoundTrip.
Context `{PyFloatLaws}.

(** Keys that are pairwise different. *)
Fixpoint distinct (keys : list str) : bool :=
  match keys with
  | [] => true
  | k :: rest => negb (existsb (str_eqb k) rest) && distinct rest
  end.

(** The values that a JSON file represents and gives back: finite floats,
    strings of Unicode scalar values (no lone surrogate), objects with
    pairwise different keys. *)
Fixpoint json_representable (v : json) : bool :=
  match v with
  | JNull | JBool _ | JInt _ => true
  | JFloat x => match float_class x with FFinite => true | _ => false end
  | JStr s => encodable s
  | JArr l => forallb json_representable l
  | JObj kvs =>
    distinct (map fst kvs)
    && forallb (fun kv => encodable (fst kv) && json_representable (snd kv)) kvs
  end.

Lemma json_ind_nested (P : json -> Prop) :
  P JNull -> (forall b, P (JBool b)) -> (forall z, P (JInt z)) ->
  (forall x, P (JFloat x)) -> (forall s, P (JStr s)) ->
  (forall l, Forall P l -> P (JArr l)) ->
  (forall kvs, Forall (fun kv => P (snd kv)) kvs -> P (JObj kvs)) ->
  forall v, P v.
Proof.
  intros Hnull Hbool Hint Hfloat Hstr Harr Hobj.
  fix IH 1. intros [ | b | z | x | s | l | kvs].
  - exact Hnull.
  - apply Hbool.
  - apply Hint.
  - apply Hfloat.
  - apply Hstr.
  - apply Harr.
    exact ((fix all (l : list json) : Forall P l :=
              match l with
              | [] => @List.Forall_nil _ P
              | x :: l' => @List.Forall_cons _ P x l' (IH x) (all l')
              end) l).
  - apply Hobj.
    exact ((fix all (kvs : list (str * json)) : Forall (fun kv => P (snd kv)) kvs :=
              match kvs with
              | [] => @List.Forall_nil _ _
              | kv :: kvs' => @List.Forall_cons _ (fun kv => P (snd kv)) kv kvs' (IH (snd kv)) (all kvs')
              end) kvs).
Qed.

Lemma str_eqb_eq (s t : str) : str_eqb s t = true <-> s = t.
Proof.
  revert t. induction s as [|a s IH]; intros [|b t]; cbn [str_eqb];
    try (split; [discriminate|discriminate]); [split; reflexivity|].
  rewrite andb_true_iff, N.eqb_eq, IH. split.
  - intros [-> ->]. reflexivity.
  - intros [= -> ->]. auto.
Qed.

Lemma distinct_NoDup (keys : list str) : distinct keys = true -> NoDup keys.
Proof.
  induction keys as [|k rest IH]; cbn [distinct]; [constructor|].
  intros Hd. apply andb_true_iff in Hd as [Hk Hd].
  apply NoDup_cons. split; [|auto].
  intros Hin. apply negb_true_iff in Hk.
  assert (existsb (str_eqb k) rest = true); [|congruence].
  apply existsb_exists. exists k. split; [|apply str_eqb_eq; reflexivity].
  apply list_elem_of_In. exact Hin.
Qed.

Lemma dict_set_fresh (d : pydict) (key : str) (v : json) :
  key ∉ map fst d -> dict_set d key v = d ++ [(key, v)].
Proof.
  induction d as [|[k w] d IH]; cbn [dict_set map fst app]; [reflexivity|].
  intros Hfresh. apply not_elem_of_cons in Hfresh as [Hne Hfresh].
  destruct (str_eqb k key) eqn:Hk.
  - apply str_eqb_eq in Hk. congruence.
  - rewrite (IH Hfresh). reflexivity.
Qed.

(** *** White space and the first character of a value *)

Definition value_head (c : char) : bool :=
  ((c =? 0x22) || (c =? chr "{") || (c =? chr "[") || (c =? chr "n")
   || (c =? chr "t") || (c =? chr "f") || (c =? chr "-"))%N
  || is_digit c.

Definition starts_value (s : str) : bool :=
  match s with
  | c :: _ => value_head c
  | [] => false
  end.

Lemma value_head_not_ws c : value_head c = true -> is_ws c = false.
Proof.
  unfold value_head, is_ws, is_digit. norm_chr. intros Hc.
  repeat (apply orb_true_iff in Hc as [Hc|Hc]);
    try (apply N.eqb_eq in Hc; subst c; reflexivity).
  apply andb_true_iff in Hc as [H1 H2].
  apply N.leb_le in H1, H2.
  repeat (apply orb_false_iff; split); apply N.eqb_neq; lia.
Qed.

Lemma skip_ws_starts (s : str) : starts_value s = true -> skip_ws s = s.
Proof.
  destruct s as [|c s]; [reflexivity|]. cbn [starts_value skip_ws].
  intros Hc. rewrite (value_head_not_ws _ Hc). reflexivity.
Qed.

Lemma skip_ws_newline_indent (level : nat) (s : str) :
  skip_ws (newline_indent level ++ s) = skip_ws s.
Proof.
  unfold newline_indent. cbn [app skip_ws].
  change (is_ws 10%N) with true. cbv iota.
  induction level as [|level IH]; [reflexivity|].
  cbn [repeat concat]. rewrite <- app_assoc.
  change (u8 "  ") with [32; 32]%N. cbn [app skip_ws].
  change (is_ws 32%N) with true. cbv iota. exact IH.
Qed.

(** *** Numbers *)

Lemma digit_range c : is_digit c = true -> (0x30 <= c <= 0x39)%N.
Proof.
  unfold is_digit. intros Hc. apply andb_true_iff in Hc as [H1 H2].
  apply N.leb_le in H1, H2. lia.
Qed.

Lemma number_start_dispatch (c : char) (s : str) :
  number_start (c :: s) = true ->
  (c =? 0x22)%N = false /\ (c =? chr "{")%N = false /\ (c =? chr "[")%N = false
  /\ startswith (u8 "null") (c :: s) = false
  /\ startswith (u8 "true") (c :: s) = false
  /\ startswith (u8 "false") (c :: s) = false
  /\ startswith (u8 "NaN") (c :: s) = false
  /\ startswith (u8 "Infinity") (c :: s) = false
  /\ startswith (u8 "-Infinity") (c :: s) = false.
Proof.
  cbn [number_start]. norm_chr. cbn [startswith]. intros Hst.
  apply orb_true_iff in Hst as [Hc|Hc].
  - apply digit_range in Hc.
    repeat split; try (apply N.eqb_neq; lia);
      match goal with
      | |- (?k =? c)%N && _ = false =>
        replace (k =? c)%N with false by (symmetry; apply N.eqb_neq; lia);
        reflexivity
      end.
  - apply andb_true_iff in Hc as [Hm Hd]. apply N.eqb_eq in Hm. subst c.
    repeat split; try reflexivity.
    destruct s as [|d s]; [reflexivity|].
    apply digit_range in Hd. change (45 =? 45)%N with true. cbn [andb].
    replace (73 =? d)%N with false by (symmetry; apply N.eqb_neq; lia).
    reflexivity.
Qed.

Lemma scan_once_number (fuel : nat) (s : str) :
  number_start s = true ->
  scan_once (S fuel) s =
    match match_number s with
    | Some (text, is_float, r) =>
      Parsed (if is_float then JFloat (float_of_str text) else JInt (int_of_str text)) r
    | None => Invalid
    end.
Proof.
  destruct s as [|c s]; [discriminate|]. intros Hst.
  destruct (number_start_dispatch _ _ Hst)
    as (H1 & H2 & H3 & H4 & H5 & H6 & H7 & H8 & H9).
  cbn [scan_once]. rewrite H1, H2, H3, H4, H5, H6, H7, H8, H9. reflexivity.
Qed.

Lemma match_number_N_repr (n : N) :
  match_number (N_repr n) = Some (N_repr n, false, [])
  /\ number_start (N_repr n) = true
  /\ int_of_str (N_repr n) = Z.of_N n.
Proof.
  pose proof (N_repr_value n) as Hv.
  destruct (N_repr_shape n) as [Hz | (c & ds & Hn & Hc & Hnz & Hds)].
  - rewrite Hz in *. repeat split; try reflexivity.
    rewrite <- Hv. reflexivity.
  - rewrite Hn in *.
    pose proof (digit_range _ Hc) as Hr.
    assert (Hm : (c =? chr "-")%N = false) by (norm_chr; apply N.eqb_neq; lia).
    repeat split.
    + unfold match_number. rewrite Hm. cbn [scan_int_part]. rewrite Hnz, Hc.
      rewrite <- (app_nil_r ds) at 1.
      rewrite (span_digits_app ds [] Hds eq_refl).
      cbn [scan_frac scan_exp app]. rewrite !app_nil_r. reflexivity.
    + cbn [number_start]. rewrite Hc. reflexivity.
    + unfold int_of_str. rewrite Hm, Hv. reflexivity.
Qed.

Lemma match_number_int_repr (z : Z) :
  match_number (int_repr z) = Some (int_repr z, false, [])
  /\ number_start (int_repr z) = true
  /\ int_of_str (int_repr z) = z.
Proof.
  destruct z as [|p|p].
  - destruct (match_number_N_repr 0) as (Hm & Hs & Hv). auto.
  - destruct (match_number_N_repr (Npos p)) as (Hm & Hs & Hv). auto.
  - unfold int_repr.
    destruct (match_number_N_repr (Npos p)) as (Hm & Hs & Hv).
    pose proof (N_repr_value (Npos p)) as Hval.
    destruct (N_repr (Npos p)) as [|c ds] eqn:Hn; [discriminate|].
    cbn [number_start] in Hs.
    assert (Hc : is_digit c = true).
    { apply orb_true_iff in Hs as [Hs|Hs]; [exact Hs|].
      apply andb_true_iff in Hs as [Hs _].
      unfold match_number in Hm. rewrite Hs in Hm.
      destruct (N_repr_shape (Npos p)) as [Hz | (c' & ds' & Hn' & Hc' & _)];
        rewrite Hn in *; [injection Hz as -> _; reflexivity|].
      injection Hn' as -> _. exact Hc'. }
    pose proof (digit_range _ Hc) as Hr.
    assert (Hcm : (c =? chr "-")%N = false) by (norm_chr; apply N.eqb_neq; lia).
    unfold match_number in Hm. rewrite Hcm in Hm.
    repeat split.
    + unfold match_number. norm_chr. cbn [N.eqb Pos.eqb].
      destruct (scan_int_part (c :: ds)) as [[ip s1]|]; [|discriminate].
      destruct (match scan_frac s1 with Some (f, r) => (f, r) | None => ([], s1) end)
        as [fp s2].
      destruct (match scan_exp s2 with Some (e, r) => (e, r) | None => ([], s2) end)
        as [ep s3].
      injection Hm as Ht Hf Hr3. cbn [app] in Ht |- *.
      rewrite Ht, Hf, Hr3. reflexivity.
    + cbn [number_start]. norm_chr. cbn [N.eqb Pos.eqb andb].
      rewrite Hc. apply orb_true_r.
    + unfold int_of_str. norm_chr. cbn [N.eqb Pos.eqb].
      rewrite Hval. reflexivity.
Qed.

Lemma float_repr_scans (x : pyfloat) :
  float_class x = FFinite ->
  match_number (float_repr x) = Some (float_repr x, true, [])
  /\ number_start (float_repr x) = true
  /\ forallb number_char (float_repr x) = true.
Proof.
  intros Hfin. pose proof (float_repr_literal x Hfin) as Hlit.
  unfold float_literal in Hlit.
  destruct (match_number (float_repr x)) as [[[t f] r]|] eqn:Hm; [|discriminate].
  destruct f; [|discriminate]. destruct r; [|discriminate].
  destruct (match_number_text _ _ _ _ Hm) as [Ht Hc].
  rewrite app_nil_r in Ht. subst t.
  repeat split; [exact (match_number_start _ _ _ _ Hm) | exact Hc].
Qed.

(** *** Values *)

Lemma number_start_starts (s rest : str) :
  number_start s = true -> starts_value (s ++ rest) = true.
Proof.
  destruct s as [|c s]; [discriminate|]. cbn [number_start app starts_value].
  unfold value_head. intros Hc. apply orb_true_iff in Hc as [-> | Hc].
  - apply orb_true_r.
  - apply andb_true_iff in Hc as [-> _]. rewrite !orb_true_r. reflexivity.
Qed.

Lemma iterencode_starts (level : nat) (v : json) (rest : str) :
  json_representable v = true -> starts_value (iterencode level v ++ rest) = true.
Proof.
  destruct v as [ | [|] | z | x | s | [|y l] | [|kv kvs]]; try reflexivity.
  - intros _. cbn [iterencode].
    destruct (match_number_int_repr z) as (_ & Hs & _).
    apply number_start_starts, Hs.
  - cbn [json_representable iterencode]. unfold floatstr.
    destruct (float_class x) eqn:Hx; try discriminate. intros _.
    destruct (float_repr_scans x Hx) as (_ & Hs & _).
    apply number_start_starts, Hs.
Qed.

Lemma value_head_not_close c :
  value_head c = true ->
  (c =? chr "]")%N = false /\ (c =? chr "}")%N = false /\ (c =? 0xFEFF)%N = false.
Proof.
  unfold value_head, is_digit. norm_chr. intros Hc.
  repeat (apply orb_true_iff in Hc as [Hc|Hc]);
    try (apply N.eqb_eq in Hc; subst c; repeat split; reflexivity).
  apply andb_true_iff in Hc as [H1 H2]. apply N.leb_le in H1, H2.
  repeat split; apply N.eqb_neq; lia.
Qed.

(** The recursion budget a value needs. *)
Fixpoint weight (v : json) : nat :=
  match v with
  | JArr l => S (list_sum (map weight l))
  | JObj kvs => S (list_sum (map (fun kv => weight (snd kv)) kvs))
  | _ => 1%nat
  end.

Lemma weight_pos (v : json) : (1 <= weight v)%nat.
Proof. destruct v; cbn [weight]; lia. Qed.

Lemma list_sum_bounds {A} (f : A -> nat) (l : list A) :
  (forall x, (1 <= f x)%nat) ->
  (length l <= list_sum (map f l))%nat
  /\ forall x, x ∈ l -> (f x <= list_sum (map f l))%nat.
Proof.
  intros Hpos. induction l as [|a l [IHl IHx]]; simpl.
  - split; [lia|]. intros x Hx. inversion Hx.
  - split; [specialize (Hpos a); lia|].
    intros x Hx. apply elem_of_cons in Hx as [-> | Hx]; [lia|].
    specialize (IHx x Hx). lia.
Qed.

Lemma join_cons_prefix (sep a : str) (l : list str) :
  exists t, join sep (a :: l) = a ++ t.
Proof.
  destruct l as [|b l]; cbn [join].
  - exists []. rewrite app_nil_r. reflexivity.
  - eauto.
Qed.

Lemma scan_once_array (f : nat) (s1 : str) :
  scan_once (S f) (chr "[" :: s1) =
    match skip_ws s1 with
    | d :: s2 =>
      if (d =? chr "]")%N then Parsed (JArr []) s2
      else map_parse JArr (parse_array (scan_once f) f [] (d :: s2))
    | [] => Invalid
    end.
Proof. reflexivity. Qed.

Lemma scan_once_object (f : nat) (s1 : str) :
  scan_once (S f) (chr "{" :: s1) =
    match skip_ws s1 with
    | d :: s2 =>
      if (d =? chr "}")%N then Parsed (JObj []) s2
      else map_parse JObj (parse_object (scan_once f) f [] (d :: s2))
    | [] => Invalid
    end.
Proof. reflexivity. Qed.

Lemma scan_once_string (f : nat) (s1 : str) :
  scan_once (S f) (0x22%N :: s1) =
    match scanstring [] s1 with
    | Some (t, r) => Parsed (JStr t) r
    | None => Invalid
    end.
Proof. reflexivity. Qed.

Section Items.
Variable pv : str -> parse json.
Variable level : nat.

Definition item_sep : str := chr "," :: newline_indent (S level).

Lemma parse_array_items (items : list json) :
  (forall x, x ∈ items -> forall rest, ends_number rest = true ->
     pv (iterencode (S level) x ++ rest) = Parsed x rest) ->
  forallb json_representable items = true ->
  forall fuel acc rest,
    items <> [] -> (length items <= fuel)%nat ->
    parse_array pv fuel acc
      (join item_sep (map (iterencode (S level)) items)
         ++ newline_indent level ++ chr "]" :: rest)
    = Parsed (rev acc ++ items) rest.
Proof.
  induction items as [|x items IH]; intros Hpv Hrep fuel acc rest Hne Hfuel;
    [congruence|].
  cbn [forallb] in Hrep. apply andb_true_iff in Hrep as [Hx Hrep].
  destruct fuel as [|fuel]; [cbn [length] in Hfuel; lia|].
  cbn [length] in Hfuel.
  destruct items as [|y items].
  - cbn [map join parse_array].
    rewrite (Hpv x (list_elem_of_here _ _)) by reflexivity.
    rewrite skip_ws_newline_indent. cbn [skip_ws].
    change (is_ws (chr "]")) with false. cbv iota.
    rewrite N.eqb_refl. cbn [rev]. reflexivity.
  - change (join item_sep (map (iterencode (S level)) (x :: y :: items)))
      with (iterencode (S level) x ++ item_sep
              ++ join item_sep (map (iterencode (S level)) (y :: items))).
    rewrite <- !app_assoc. cbn [parse_array].
    rewrite (Hpv x (list_elem_of_here _ _)) by reflexivity.
    unfold item_sep at 1. cbn [app skip_ws].
    change (is_ws (chr ",")) with false. cbv iota.
    change (chr "," =? chr "]")%N with false. cbv iota.
    rewrite N.eqb_refl, skip_ws_newline_indent.
    assert (Hstart : starts_value
      (join item_sep (map (iterencode (S level)) (y :: items))
         ++ newline_indent level ++ chr "]" :: rest) = true).
    { cbn [map]. destruct (join_cons_prefix item_sep (iterencode (S level) y)
                             (map (iterencode (S level)) items)) as [t ->].
      rewrite <- app_assoc. apply iterencode_starts.
      cbn [forallb] in Hrep. apply andb_true_iff in Hrep as [Hy _]. exact Hy. }
    rewrite (skip_ws_starts _ Hstart).
    rewrite IH; [| | exact Hrep | discriminate | cbn [length] in *; lia].
    + cbn [rev]. rewrite <- app_assoc. reflexivity.
    + intros z Hz. apply Hpv. apply list_elem_of_further, Hz.
Qed.

Definition member (kv : str * json) : str :=
  encode_basestring (fst kv) ++ u8 ": " ++ iterencode (S level) (snd kv).

Lemma parse_object_items (items : pydict) :
  (forall kv, kv ∈ items -> forall rest, ends_number rest = true ->
     pv (iterencode (S level) (snd kv) ++ rest) = Parsed (snd kv) rest) ->
  forallb (fun kv => encodable (fst kv) && json_representable (snd kv)) items = true ->
  forall fuel acc rest,
    items <> [] -> (length items <= fuel)%nat ->
    NoDup (map fst (acc ++ items)) ->
    parse_object pv fuel acc
      (join item_sep (map member items) ++ newline_indent level ++ chr "}" :: rest)
    = Parsed (acc ++ items) rest.
Proof.
  induction items as [|[k v] items IH]; intros Hpv Hrep fuel acc rest Hne Hfuel Hnd;
    [congruence|].
  cbn [forallb] in Hrep. apply andb_true_iff in Hrep as [Hkv Hrep].
  apply andb_true_iff in Hkv as [_ Hv]. cbn [snd] in Hv.
  destruct fuel as [|fuel]; [cbn [length] in Hfuel; lia|].
  cbn [length] in Hfuel.
  assert (Hfresh : dict_set acc k v = acc ++ [(k, v)]).
  { apply dict_set_fresh. rewrite map_app in Hnd. cbn [map fst] in Hnd.
    apply NoDup_app in Hnd as (_ & Hdisj & _).
    intros Hin. apply (Hdisj k Hin). apply list_elem_of_here. }
  assert (Hmember : forall tail,
    ends_number tail = true ->
    exists body,
      member (k, v) ++ tail = 0x22%N :: body
      /\ scanstring [] body
         = Some (k, u8 ": " ++ iterencode (S level) v ++ tail)).
  { intros tail _. unfold member. cbn [fst snd]. rewrite <- !app_assoc.
    apply scanstring_encode_basestring. }
  assert (Hvalue : forall tail,
    ends_number tail = true ->
    skip_ws (chr " " :: iterencode (S level) v ++ tail) = iterencode (S level) v ++ tail
    /\ pv (iterencode (S level) v ++ tail) = Parsed v tail).
  { intros tail Htail. split.
    - cbn [skip_ws]. change (is_ws (chr " ")) with true. cbv iota.
      apply skip_ws_starts, iterencode_starts, Hv.
    - apply (Hpv (k, v) (list_elem_of_here _ _)), Htail. }
  destruct items as [|kv' items].
  - cbn [map join].
    destruct (Hmember (newline_indent level ++ chr "}" :: rest) eq_refl)
      as (body & -> & Hscan).
    destruct (Hvalue (newline_indent level ++ chr "}" :: rest) eq_refl)
      as (Hskip & Hread).
    cbn [parse_object]. rewrite N.eqb_refl, Hscan.
    change (u8 ": ") with [chr ":"; chr " "]. cbn [app skip_ws].
    change (is_ws (chr ":")) with false. cbv iota.
    rewrite N.eqb_refl, Hskip, Hread, Hfresh.
    rewrite skip_ws_newline_indent. cbn [skip_ws].
    change (is_ws (chr "}")) with false. cbv iota.
    rewrite N.eqb_refl. reflexivity.
  - change (join item_sep (map member ((k, v) :: kv' :: items)))
      with (member (k, v) ++ item_sep ++ join item_sep (map member (kv' :: items))).
    rewrite <- !app_assoc.
    set (tail := item_sep ++ join item_sep (map member (kv' :: items))
                   ++ newline_indent level ++ chr "}" :: rest).
    destruct (Hmember tail eq_refl) as (body & -> & Hscan).
    destruct (Hvalue tail eq_refl) as (Hskip & Hread).
    cbn [parse_object]. rewrite N.eqb_refl, Hscan.
    change (u8 ": ") with [chr ":"; chr " "]. cbn [app skip_ws].
    change (is_ws (chr ":")) with false. cbv iota.
    rewrite N.eqb_refl, Hskip, Hread, Hfresh.
    subst tail. unfold item_sep at 1. cbn [app skip_ws].
    change (is_ws (chr ",")) with false. cbv iota.
    change (chr "," =? chr "}")%N with false. cbv iota.
    rewrite N.eqb_refl, skip_ws_newline_indent.
    assert (Hstart : starts_value
      (join item_sep (map member (kv' :: items))
         ++ newline_indent level ++ chr "}" :: rest) = true).
    { cbn [map]. destruct (join_cons_prefix item_sep (member kv') (map member items))
        as [t ->].
      unfold member, encode_basestring. reflexivity. }
    rewrite (skip_ws_starts _ Hstart).
    rewrite IH; [| | exact Hrep | discriminate | cbn [length] in *; lia | ].
    + rewrite <- app_assoc. reflexivity.
    + intros z Hz. apply Hpv. apply list_elem_of_further, Hz.
    + rewrite <- app_assoc. exact Hnd.
Qed.

End Items.

Lemma number_start_app (s rest : str) :
  number_start s = true -> number_start (s ++ rest) = true.
Proof.
  destruct s as [|c [|d s]]; cbn [number_start app]; try discriminate.
  - rewrite andb_false_r, orb_false_r. intros ->. reflexivity.
  - auto.
Qed.

(** [scan_once] reads back what [iterencode] wrote, when what follows is
    the end of the text, a comma or a line break. *)
Lemma scan_once_iterencode (v : json) :
  forall level fuel rest,
    json_representable v = true -> (weight v <= fuel)%nat ->
    ends_number rest = true ->
    scan_once fuel (iterencode level v ++ rest) = Parsed v rest.
Proof.
  induction v as [ | b | z | x | s | l IH | kvs IH] using json_ind_nested;
    intros level fuel rest Hrep Hfuel Hrest;
    (destruct fuel as [|f]; [cbn [weight] in Hfuel; lia|]).
  - reflexivity.
  - destruct b; reflexivity.
  - cbn [iterencode]. destruct (match_number_int_repr z) as (Hm & Hs & Hv).
    rewrite scan_once_number by (apply number_start_app, Hs).
    rewrite (match_number_append _ rest _ _ _ Hm Hrest). cbn [app].
    rewrite Hv. reflexivity.
  - cbn [json_representable] in Hrep. cbn [iterencode]. unfold floatstr.
    destruct (float_class x) eqn:Hx; try discriminate.
    destruct (float_repr_scans x Hx) as (Hm & Hs & _).
    rewrite scan_once_number by (apply number_start_app, Hs).
    rewrite (match_number_append _ rest _ _ _ Hm Hrest). cbn [app].
    rewrite (float_repr_round_trip x Hx). reflexivity.
  - cbn [iterencode].
    destruct (scanstring_encode_basestring s rest) as (body & -> & Hscan).
    rewrite scan_once_string, Hscan. reflexivity.
  - destruct l as [|x l]; [reflexivity|].
    cbn [json_representable] in Hrep. cbn [weight] in Hfuel.
    destruct (list_sum_bounds weight (x :: l) weight_pos) as [Hlen Hw].
    change (iterencode level (JArr (x :: l)))
      with (chr "[" :: newline_indent (S level)
              ++ join (item_sep level) (map (iterencode (S level)) (x :: l))
              ++ newline_indent level ++ [chr "]"]).
    cbn [app]. rewrite <- !app_assoc. cbn [app].
    rewrite scan_once_array, skip_ws_newline_indent.
    assert (Hstart : starts_value
      (join (item_sep level) (map (iterencode (S level)) (x :: l))
         ++ newline_indent level ++ chr "]" :: rest) = true).
    { cbn [map]. destruct (join_cons_prefix (item_sep level) (iterencode (S level) x)
                             (map (iterencode (S level)) l)) as [t ->].
      rewrite <- app_assoc. apply iterencode_starts.
      cbn [forallb] in Hrep. apply andb_true_iff in Hrep as [Hx _]. exact Hx. }
    rewrite (skip_ws_starts _ Hstart).
    destruct (join _ _ ++ _) as [|d s2] eqn:Htext; [discriminate|].
    cbn [starts_value] in Hstart.
    destruct (value_head_not_close _ Hstart) as (-> & _ & _).
    rewrite <- Htext.
    rewrite (parse_array_items (scan_once f) level (x :: l));
      [reflexivity | | exact Hrep | discriminate | lia].
    intros y Hy rest' Hrest'.
    rewrite Forall_forall in IH. apply IH; [exact Hy | | specialize (Hw y Hy); lia | exact Hrest'].
    rewrite forallb_forall in Hrep. apply Hrep. apply list_elem_of_In, Hy.
  - destruct kvs as [|kv kvs]; [reflexivity|].
    cbn [json_representable] in Hrep. cbn [weight] in Hfuel.
    apply andb_true_iff in Hrep as [Hkeys Hrep].
    destruct (list_sum_bounds (fun kv => weight (snd kv)) (kv :: kvs)
                (fun kv => weight_pos (snd kv))) as [Hlen Hw].
    change (iterencode level (JObj (kv :: kvs)))
      with (chr "{" :: newline_indent (S level)
              ++ join (item_sep level) (map (member level) (kv :: kvs))
              ++ newline_indent level ++ [chr "}"]).
    cbn [app]. rewrite <- !app_assoc. cbn [app].
    rewrite scan_once_object, skip_ws_newline_indent.
    assert (Hstart : starts_value
      (join (item_sep level) (map (member level) (kv :: kvs))
         ++ newline_indent level ++ chr "}" :: rest) = true).
    { cbn [map]. destruct (join_cons_prefix (item_sep level) (member level kv)
                             (map (member level) kvs)) as [t ->].
      reflexivity. }
    rewrite (skip_ws_starts _ Hstart).
    destruct (join _ _ ++ _) as [|d s2] eqn:Htext; [discriminate|].
    cbn [starts_value] in Hstart.
    destruct (value_head_not_close _ Hstart) as (_ & -> & _).
    rewrite <- Htext.
    rewrite (parse_object_items (scan_once f) level (kv :: kvs));
      [reflexivity | | exact Hrep | discriminate | lia
       | apply distinct_NoDup, Hkeys].
    intros y Hy rest' Hrest'.
    rewrite Forall_forall in IH. apply IH; [exact Hy | | specialize (Hw y Hy); lia | exact Hrest'].
    rewrite forallb_forall in Hrep.
    specialize (Hrep y (proj1 (list_elem_of_In _ _) Hy)).
    apply andb_true_iff in Hrep as [_ Hy']. exact Hy'.
Qed.

(** *** The budget of [json_loads] suffices *)

Lemma length_join_ge (sep : str) (parts : list str) :
  (list_sum (map length parts) <= length (join sep parts))%nat.
Proof.
  induction parts as [|p [|q parts] IH]; simpl in *; [lia | lia |].
  rewrite !length_app. lia.
Qed.

Lemma list_sum_map_le {A} (f g : A -> nat) (l : list A) :
  (forall x, x ∈ l -> (f x <= g x)%nat) ->
  (list_sum (map f l) <= list_sum (map g l))%nat.
Proof.
  induction l as [|a l IH]; intros Hle; simpl; [lia|].
  pose proof (Hle a (list_elem_of_here _ _)).
  assert (list_sum (map f l) <= list_sum (map g l))%nat; [|lia].
  apply IH. intros x Hx. apply Hle, list_elem_of_further, Hx.
Qed.

Lemma weight_le_length (v : json) :
  forall level, json_representable v = true ->
    (weight v <= length (iterencode level v))%nat.
Proof.
  assert (Hscalar : forall level v, json_representable v = true ->
            (1 <= length (iterencode level v))%nat).
  { intros level w Hw. pose proof (iterencode_starts level w [] Hw) as Hs.
    rewrite app_nil_r in Hs. destruct (iterencode level w); [discriminate|].
    cbn [length]. lia. }
  induction v as [ | b | z | x | s | l IH | kvs IH] using json_ind_nested;
    intros level Hrep; try (apply (Hscalar level _ Hrep)).
  - destruct l as [|x l]; [apply (Hscalar level _ Hrep)|].
    cbn [json_representable] in Hrep.
    change (iterencode level (JArr (x :: l)))
      with (chr "[" :: newline_indent (S level)
              ++ join (item_sep level) (map (iterencode (S level)) (x :: l))
              ++ newline_indent level ++ [chr "]"]).
    cbn [weight length]. rewrite !length_app.
    pose proof (length_join_ge (item_sep level) (map (iterencode (S level)) (x :: l)))
      as Hj.
    rewrite map_map in Hj.
    assert (list_sum (map weight (x :: l))
            <= list_sum (map (fun y => length (iterencode (S level) y)) (x :: l)))%nat;
      [|lia].
    apply list_sum_map_le. intros y Hy.
    rewrite Forall_forall in IH. apply IH; [exact Hy|].
    rewrite forallb_forall in Hrep. apply Hrep, list_elem_of_In, Hy.
  - destruct kvs as [|kv kvs]; [apply (Hscalar level _ Hrep)|].
    cbn [json_representable] in Hrep. apply andb_true_iff in Hrep as [_ Hrep].
    change (iterencode level (JObj (kv :: kvs)))
      with (chr "{" :: newline_indent (S level)
              ++ join (item_sep level) (map (member level) (kv :: kvs))
              ++ newline_indent level ++ [chr "}"]).
    cbn [weight length]. rewrite !length_app.
    pose proof (length_join_ge (item_sep level) (map (member level) (kv :: kvs))) as Hj.
    rewrite map_map in Hj.
    assert (list_sum (map (fun kv => weight (snd kv)) (kv :: kvs))
            <= list_sum (map (fun y => length (member level y)) (kv :: kvs)))%nat;
      [|lia].
    apply list_sum_map_le. intros y Hy.
    rewrite Forall_forall in IH. unfold member. rewrite !length_app.
    assert (weight (snd y) <= length (iterencode (S level) (snd y)))%nat; [|lia].
    apply IH; [exact Hy|].
    rewrite forallb_forall in Hrep.
    specialize (Hrep y (proj1 (list_elem_of_In _ _) Hy)).
    apply andb_true_iff in Hrep as [_ Hy']. exact Hy'.
Qed.

(** [json.loads] gives back what [json.dumps] was given. *)
Lemma json_loads_dumps (v : json) :
  json_representable v = true -> json_loads (json_dumps v) = Ok v.
Proof.
  intros Hrep. unfold json_loads, json_dumps.
  pose proof (iterencode_starts 0 v [] Hrep) as Hstart.
  rewrite app_nil_r in Hstart.
  rewrite (skip_ws_starts _ Hstart).
  assert (Hbom : startswith [0xFEFF%N] (iterencode 0 v) = false).
  { destruct (iterencode 0 v) as [|c t]; [discriminate|].
    cbn [starts_value] in Hstart. cbn [startswith].
    destruct (value_head_not_close _ Hstart) as (_ & _ & Hc).
    rewrite N.eqb_sym, Hc. reflexivity. }
  rewrite Hbom.
  rewrite <- (app_nil_r (iterencode 0 v)) at 2.
  rewrite scan_once_iterencode;
    [reflexivity | exact Hrep | | reflexivity].
  pose proof (weight_le_length v 0 Hrep). lia.
Qed.

(** *** The text can be written to a UTF-8 file *)

Lemma encodable_app (s t : str) : encodable (s ++ t) = encodable s && encodable t.
Proof. apply forallb_app. Qed.

Lemma encodable_low (s : str) :
  forallb (fun c => (c <? 0x80)%N) s = true -> encodable s = true.
Proof.
  unfold encodable. induction s as [|c s IH]; [reflexivity|]. cbn [forallb].
  intros Hs. apply andb_true_iff in Hs as [Hc Hs]. rewrite (IH Hs), andb_true_r.
  apply N.ltb_lt in Hc. apply negb_true_iff, andb_false_iff. left.
  apply N.leb_gt. lia.
Qed.

Lemma number_chars_encodable (s : str) :
  forallb number_char s = true -> encodable s = true.
Proof.
  intros Hs. apply encodable_low.
  rewrite forallb_forall in Hs |- *. intros c Hc. specialize (Hs c Hc).
  unfold number_char, is_digit in Hs. revert Hs. norm_chr. intros Hs.
  apply N.ltb_lt.
  repeat (apply orb_true_iff in Hs as [Hs|Hs]);
    try (apply N.eqb_eq in Hs; subst c; lia).
  apply andb_true_iff in Hs as [_ Hs]. apply N.leb_le in Hs. lia.
Qed.

Lemma escape_char_encodable (c : char) :
  encodable [c] = true -> encodable (escape_char c) = true.
Proof.
  intros Hc. unfold escape_char.
  repeat match goal with
         | |- encodable (if ?b then _ else _) = true => destruct b eqn:?; [reflexivity|]
         end.
  destruct (c <? 0x20)%N eqn:Hlow; [|exact Hc].
  apply N.ltb_lt in Hlow.
  destruct c as [|p]; [reflexivity|].
  do 5 (destruct p as [p|p|]; try reflexivity); exfalso; lia.
Qed.

Lemma encode_basestring_encodable (s : str) :
  encodable s = true -> encodable (encode_basestring s) = true.
Proof.
  intros Hs. unfold encode_basestring.
  change (0x22%N :: concat (map escape_char s) ++ [0x22%N])
    with ([0x22%N] ++ concat (map escape_char s) ++ [0x22%N]).
  rewrite !encodable_app. cbn [andb].
  assert (encodable (concat (map escape_char s)) = true) as ->; [|reflexivity].
  induction s as [|c s IH]; [reflexivity|].
  change (c :: s) with ([c] ++ s) in Hs. rewrite encodable_app in Hs.
  apply andb_true_iff in Hs as [Hc Hs].
  cbn [map concat]. rewrite encodable_app, (escape_char_encodable c Hc), (IH Hs).
  reflexivity.
Qed.

Lemma newline_indent_encodable (level : nat) : encodable (newline_indent level) = true.
Proof.
  unfold newline_indent.
  change (encodable (?c :: ?t)) with (encodable ([c] ++ t)).
  rewrite encodable_app. cbn [andb].
  change (encodable [10%N]) with true. cbn [andb].
  induction level as [|level IH]; [reflexivity|].
  cbn [repeat concat]. rewrite encodable_app, IH. reflexivity.
Qed.

Lemma join_encodable (sep : str) (parts : list str) :
  encodable sep = true -> Forall (fun p => encodable p = true) parts ->
  encodable (join sep parts) = true.
Proof.
  intros Hsep Hparts. induction Hparts as [|p parts Hp _ IH]; [reflexivity|].
  destruct parts as [|q parts]; [exact Hp|].
  change (join sep (p :: q :: parts)) with (p ++ sep ++ join sep (q :: parts)).
  rewrite !encodable_app, Hp, Hsep, IH. reflexivity.
Qed.

Lemma item_sep_encodable (level : nat) : encodable (item_sep level) = true.
Proof.
  unfold item_sep.
  change (encodable (?c :: ?t)) with (encodable ([c] ++ t)).
  rewrite encodable_app, newline_indent_encodable. reflexivity.
Qed.

Lemma iterencode_encodable (v : json) :
  forall level, json_representable v = true -> encodable (iterencode level v) = true.
Proof.
  induction v as [ | b | z | x | s | l IH | kvs IH] using json_ind_nested;
    intros level Hrep.
  - reflexivity.
  - destruct b; reflexivity.
  - cbn [iterencode]. destruct (match_number_int_repr z) as (Hm & _ & _).
    apply number_chars_encodable.
    destruct (match_number_text _ _ _ _ Hm) as [_ Hc]. exact Hc.
  - cbn [json_representable] in Hrep. cbn [iterencode]. unfold floatstr.
    destruct (float_class x) eqn:Hx; try discriminate.
    destruct (float_repr_scans x Hx) as (_ & _ & Hc).
    apply number_chars_encodable, Hc.
  - cbn [iterencode]. apply encode_basestring_encodable, Hrep.
  - destruct l as [|x l]; [reflexivity|].
    cbn [json_representable] in Hrep.
    change (iterencode level (JArr (x :: l)))
      with ([chr "["] ++ newline_indent (S level)
              ++ join (item_sep level) (map (iterencode (S level)) (x :: l))
              ++ newline_indent level ++ [chr "]"]).
    rewrite !encodable_app, !newline_indent_encodable.
    rewrite join_encodable; [reflexivity | apply item_sep_encodable |].
    apply Forall_map. rewrite Forall_forall in IH |- *. intros y Hy.
    apply IH; [exact Hy|].
    rewrite forallb_forall in Hrep. apply Hrep, list_elem_of_In, Hy.
  - destruct kvs as [|kv kvs]; [reflexivity|].
    cbn [json_representable] in Hrep. apply andb_true_iff in Hrep as [_ Hrep].
    change (iterencode level (JObj (kv :: kvs)))
      with ([chr "{"] ++ newline_indent (S level)
              ++ join (item_sep level) (map (member level) (kv :: kvs))
              ++ newline_indent level ++ [chr "}"]).
    rewrite !encodable_app, !newline_indent_encodable.
    rewrite join_encodable; [reflexivity | apply item_sep_encodable |].
    apply Forall_map. rewrite Forall_forall in IH |- *. intros y Hy.
    rewrite forallb_forall in Hrep.
    specialize (Hrep y (proj1 (list_elem_of_In _ _) Hy)).
    apply andb_true_iff in Hrep as [Hk Hv].
    unfold member. rewrite !encodable_app.
    rewrite (encode_basestring_encodable _ Hk), (IH y Hy (S level) Hv). reflexivity.
Qed.

(** C8. Saving a configuration that JSON can represent and loading it
    again gives the configuration that was saved; nothing is shown. *)
Theorem settings_round_trip (settings : pydict) (f : file) :
  json_representable (JObj settings) = true ->
  exists f',
    save_settings settings f = (Ok tt, f')
    /\ load_settings f' = (JObj settings, []).
Proof.
  intros Hrep. unfold save_settings.
  unfold json_dumps. rewrite (iterencode_encodable _ 0 Hrep).
  eexists. split; [reflexivity|].
  unfold load_settings. fold (json_dumps (JObj settings)).
  rewrite (json_loads_dumps _ Hrep). reflexivity.
Qed.

End RoundTrip.

(** ** The floats with one decimal digit satisfy the assumptions *)

Section TenthsLaws.

Lemma span_digits_stop (ds rest : str) :
  forallb is_digit ds = true ->
  match rest with [] => true | c :: _ => negb (is_digit c) end = true ->
  span_digits (ds ++ rest) = (ds, rest).
Proof.
  intros Hds Hrest. induction ds as [|c ds IH]; cbn [app span_digits].
  - destruct rest as [|c rest]; [reflexivity|]. cbn [span_digits].
    apply negb_true_iff in Hrest. rewrite Hrest. reflexivity.
  - cbn [forallb] in Hds. apply andb_true_iff in Hds as [Hc Hds].
    rewrite Hc, (IH Hds). reflexivity.
Qed.

Lemma N_repr_digits (n : N) : forallb is_digit (N_repr n) = true.
Proof. apply digits_of_uint_digits. Qed.

Lemma N_repr_one_digit (r : N) :
  (r < 10)%N -> exists d, N_repr r = [d] /\ is_digit d = true /\ digit_value d = r.
Proof.
  intros Hr. destruct r as [|p]; [eexists; repeat split; reflexivity|].
  do 4 (destruct p as [p|p|]; try (eexists; repeat split; reflexivity));
    exfalso; lia.
Qed.

Lemma scan_int_part_N_repr (q : N) (rest : str) :
  match rest with [] => true | c :: _ => negb (is_digit c) end = true ->
  scan_int_part (N_repr q ++ rest) = Some (N_repr q, rest)
  /\ span_digits (N_repr q ++ rest) = (N_repr q, rest)
  /\ exists c ds, N_repr q = c :: ds /\ (c =? chr "-")%N = false.
Proof.
  intros Hrest.
  pose proof (span_digits_stop _ _ (N_repr_digits q) Hrest) as Hspan.
  destruct (N_repr_shape q) as [Hz | (c & ds & Hn & Hc & Hnz & Hds)].
  - rewrite Hz in *. repeat split; [exact Hspan|]. eexists _, _. split; reflexivity.
  - rewrite Hn in *. repeat split; [|exact Hspan|].
    + cbn [app scan_int_part]. rewrite Hnz, Hc.
      rewrite (span_digits_stop _ _ Hds Hrest). reflexivity.
    + eexists _, _. split; [reflexivity|].
      pose proof (digit_range _ Hc). norm_chr. apply N.eqb_neq. lia.
Qed.

Definition float_literal_of (m : option (str * bool * str)) : bool :=
  match m with
  | Some (_, true, []) => true
  | _ => false
  end.

Lemma tenths_repr_literal (t : Z) : float_literal (Tenths.tenths_repr t) = true.
Proof.
  unfold Tenths.tenths_repr, float_literal.
  change (float_literal_of
            (match_number
               ((match t with Zneg _ => [chr "-"] | _ => [] end)
                  ++ N_repr (Z.abs_N t / 10) ++ [chr "."] ++ N_repr (Z.abs_N t mod 10)))
          = true).
  destruct (N_repr_one_digit (Z.abs_N t mod 10)) as (d & Hd & Hdig & _);
    [apply N.mod_lt; discriminate|].
  rewrite Hd.
  destruct (scan_int_part_N_repr (Z.abs_N t / 10) ([chr "."] ++ [d]) eq_refl)
    as (Hip & _ & c & ds & Hn & Hc).
  assert (Hbody : forall sign,
    match scan_int_part (N_repr (Z.abs_N t / 10) ++ [chr "."] ++ [d]) with
    | Some (ip, s1) =>
      let (fp, s2) :=
        match scan_frac s1 with Some (f, r) => (f, r) | None => ([], s1) end in
      let (ep, s3) :=
        match scan_exp s2 with Some (e, r) => (e, r) | None => ([], s2) end in
      Some (sign ++ ip ++ fp ++ ep,
            match fp, ep with [], [] => false | _, _ => true end, s3)
    | None => None
    end = Some (sign ++ N_repr (Z.abs_N t / 10) ++ [chr "."; d] ++ [], true, [])).
  { intros sign. rewrite Hip. cbn [app scan_frac].
    change (chr "." =? chr ".")%N with true. rewrite Hdig. reflexivity. }
  set (body := N_repr (Z.abs_N t / 10) ++ [chr "."] ++ [d]) in *.
  assert (Hb : exists ds', body = c :: ds').
  { subst body. rewrite Hn. eexists. reflexivity. }
  destruct Hb as [ds' Hb].
  assert (Hmn : forall neg : bool,
    match_number ((if neg then [chr "-"] else []) ++ body)
    = Some ((if neg then [chr "-"] else []) ++ N_repr (Z.abs_N t / 10)
              ++ [chr "."; d] ++ [], true, [])).
  { intros neg. unfold match_number. destruct neg; cbn [app].
    - change (chr "-" =? chr "-")%N with true. cbv beta iota.
      exact (Hbody [chr "-"]).
    - rewrite Hb, Hc, <- Hb. cbv beta iota. exact (Hbody []). }
  destruct t as [|p|p];
    [rewrite (Hmn false) | rewrite (Hmn false) | rewrite (Hmn true)]; reflexivity.
Qed.

Lemma tenths_repr_round_trip (t : Z) :
  Tenths.tenths_of_str (Tenths.tenths_repr t) = t.
Proof.
  unfold Tenths.tenths_repr, Tenths.tenths_of_str.
  destruct (N_repr_one_digit (Z.abs_N t mod 10)) as (d & Hd & Hdig & Hval);
    [apply N.mod_lt; discriminate|].
  rewrite Hd.
  destruct (scan_int_part_N_repr (Z.abs_N t / 10) ([chr "."] ++ [d]) eq_refl)
    as (_ & Hspan & c & ds & Hn & Hc).
  assert (Hm : Z.of_N (digits_value (N_repr (Z.abs_N t / 10)) * 10 + digit_value d)
               = Z.abs t).
  { rewrite N_repr_value, Hval.
    pose proof (N.div_mod (Z.abs_N t) 10 ltac:(discriminate)) as Hdm.
    rewrite <- N2Z.inj_abs_N. f_equal. lia. }
  set (body := N_repr (Z.abs_N t / 10) ++ [chr "."] ++ [d]) in *.
  assert (Hb : exists ds', body = c :: ds').
  { subst body. rewrite Hn. eexists. reflexivity. }
  destruct Hb as [ds' Hb].
  assert (Hfrac : forall neg : bool,
    (let (ip, r) := span_digits body in
     let frac :=
       match r with
       | dot :: d :: _ =>
         if (dot =? chr ".")%N && is_digit d then digit_value d else 0%N
       | _ => 0%N
       end in
     let m := Z.of_N (digits_value ip * 10 + frac) in
     if neg then (- m)%Z else m)
    = if neg then (- Z.abs t)%Z else Z.abs t).
  { intros neg. rewrite Hspan. cbn [app].
    change (chr "." =? chr ".")%N with true. rewrite Hdig. cbn [andb].
    rewrite Hm. reflexivity. }
  destruct t as [|p|p]; cbn [app].
  - rewrite Hb at 1. rewrite Hc. cbv beta iota. exact (Hfrac false).
  - rewrite Hb at 1. rewrite Hc. cbv beta iota. exact (Hfrac false).
  - change (chr "-" =? chr "-")%N with true. cbv beta iota. exact (Hfrac true).
Qed.

End TenthsLaws.

#[export] Instance tenths_float_laws : @PyFloatLaws Tenths.tenths_float.
Proof.
  split; intros x _; [apply tenths_repr_literal | apply tenths_repr_round_trip].
Qed.

(** ** Scenarios

    The theorems above, applied to one session: the floats with one
    decimal digit, a topic, and services that answer with a fixed text or
    that fail. *)

Import Tenths.

Module Scenario.

Definition topic : Topic :=
  {| topic_id := 1;
     topic_title := u8 "Rowery elektryczne w mieście";
     topic_keywords := [u8 "rower elektryczny"; u8 "miasto"; u8 "dojazdy"];
     topic_description := u8 "Jak rower elektryczny zmienia codzienne dojazdy." |}.

Definition outline : Outline :=
  {| article_title := u8 "Rowery elektryczne w mieście";
     target_audience := u8 "Mieszkańcy dużych miast";
     sections :=
       [ {| section_number := JInt 1;
            section_title := u8 "Wstęp";
            section_keywords := [u8 "rower elektryczny"; u8 "miasto"];
            section_prompt := u8 "Zacznij od pytania do czytelnika." |} ] |}.

Definition first_section : Section_spec :=
  {| section_number := JInt 1;
     section_title := u8 "Wstęp";
     section_keywords := [u8 "rower elektryczny"; u8 "miasto"];
     section_prompt := u8 "Zacznij od pytania do czytelnika." |}.

Definition settings : pydict := default_settings.

(** The default settings with research switched on. *)
Definition research_settings : pydict :=
  dict_set default_settings (u8 "do_research") (JBool true).

Definition fresh : world :=
  {| calls := []; events := []; research_results := ∅ |}.

(** A session in which the topic has been researched before. *)
Definition earlier_result : research_result :=
  {| rr_content := Some (u8 "Sprzedaż rowerów elektrycznych rośnie.");
     rr_citations := [u8 "https://example.com/article?utm=1"; u8 "Raport GUS 2023"] |}.

Definition researched : world :=
  {| calls := []; events := []; research_results := {[ 1%Z := earlier_result ]} |}.

Definition answer (text : option str) : response :=
  {| choices := [ {| content := text; annotations := Missing |} ] |}.

(** A service that answers every request with the same text. *)
Definition answering (text : str) (history : list request) (req : request)
    : result response :=
  Ok (answer (Some text)).

(** A service that answers without a body. *)
Definition answering_nothing (history : list request) (req : request)
    : result response :=
  Ok (answer None).

(** A service that refuses every request. *)
Definition refusing (history : list request) (req : request) : result response :=
  Raise (APIError (u8 "web_search_options is not supported with this model")).

Definition in_given_order (l : list str) : list str := l.

(** [n] words, each in a paragraph of its own. *)
Definition words (n : nat) : str := concat (repeat (u8 "<p>słowo</p> ") n).

(** An answer that repeats the heading of the section before its body. *)
Definition answer_with_heading : str :=
  u8 "<h3>Wstęp do tematu</h3>" ++ [0x0A%N] ++ u8 "<p>Ala ma kota</p>".

(** An outline with two sections. *)
Definition two_sections : Outline :=
  {| article_title := u8 "Rowery elektryczne w mieście";
     target_audience := u8 "Mieszkańcy dużych miast";
     sections :=
       [ {| section_number := JInt 1;
            section_title := u8 "Wstęp";
            section_keywords := [u8 "rower elektryczny"; u8 "miasto"];
            section_prompt := u8 "Zacznij od pytania do czytelnika." |};
         {| section_number := JInt 2;
            section_title := u8 "Koszty";
            section_keywords := [u8 "cena"; u8 "ładowanie"];
            section_prompt := u8 "Porównaj koszty z samochodem." |} ] |}.

End Scenario.

Import Scenario.

Lemma research_disabled_witness :
  perform_web_research refusing in_given_order false topic settings researched
  = (Ok (Some []), researched).
Proof.
  apply research_disabled_is_noop. vm_compute. reflexivity.
Defined.

Lemma research_failure_witness :
  perform_web_research refusing in_given_order false topic research_settings fresh
  = (Ok (Some []),
     {| calls := [research_request topic (JStr (u8 "medium"))];
        events :=
          [ (StInfo, ResearchStarting); (StInfo, UsingSearchModel);
            (StError,
             ResearchFailed
               (APIError (u8 "web_search_options is not supported with this model")));
            (StWarning, ResearchUnavailable) ];
        research_results := ∅ |}).
Proof.
  apply (proj2 (research_failure_is_contained refusing in_given_order false
                  topic research_settings fresh ltac:(vm_compute; reflexivity))).
  reflexivity.
Defined.

Lemma research_error_keeps_cache_witness :
  research_results
    (snd (perform_web_research answering_nothing in_given_order false topic
            research_settings researched)) !! topic_id topic
  = Some earlier_result.
Proof.
  rewrite (proj2 (research_error_keeps_cache answering_nothing in_given_order false
                    topic research_settings researched TypeError
                    {| calls := [research_request topic (JStr (u8 "medium"))];
                       events := [(StInfo, ResearchStarting); (StInfo, UsingSearchModel)];
                       research_results := research_results researched |}
                    ltac:(vm_compute; reflexivity) ltac:(vm_compute; reflexivity))).
  reflexivity.
Defined.

Lemma min_acceptable_witness :
  exists tg,
    section_targets (setting_section_length settings) = Ok tg
    /\ ai_target tg = py_int (inject_Z (real_target tg) * length_multiplier)
    /\ (min_acceptable tg <= ai_target tg)%Z
    /\ (min_acceptable tg <= real_target tg)%Z.
Proof.
  destruct (min_acceptable_below_targets settings) as [Hruns Hbounds].
  destruct (Hruns (u8 "średnia (250-350 słów)") ltac:(vm_compute; reflexivity))
    as [tg Htg].
  exists tg. split; [exact Htg | exact (Hbounds tg Htg)].
Defined.


(** The count that C3 describes: the heading is removed first, then the
    tags, then the words are counted. *)
Definition word_count_after_cleaning (text : str) : nat :=
  length (split (re_sub tag_re [] (strip_heading text))).

(** C3 fails as stated: for an answer that repeats the heading, the drafter
    shows six words, the three of the heading among them, where the count
    after cleaning is three. *)
Lemma heading_words_are_counted :
  last (events (snd (draft_section (answering answer_with_heading) outline settings
                       (targets_for 300 240) None 0 first_section
                       (h3 (article_title outline) ++ blank_line, 0%nat) fresh)))
  = Some (StWarning, SectionWordsShort 1 6 300)
  /\ word_count_after_cleaning answer_with_heading = 3%nat
  /\ word_count answer_with_heading <> word_count_after_cleaning answer_with_heading.
Proof.
  vm_compute. repeat split. discriminate.
Qed.

Lemma word_count_precedes_heading_removal_witness :
  fst (draft_section (answering answer_with_heading) outline settings
         (targets_for 300 240) None 0 first_section
         (h3 (article_title outline) ++ blank_line, 0%nat) fresh)
  = Ok (h3 (article_title outline) ++ blank_line ++ h3 (u8 "Wstęp") ++ blank_line
          ++ u8 "<p>Ala ma kota</p>" ++ blank_line,
        6%nat).
Proof.
  destruct (word_count_precedes_heading_removal (answering answer_with_heading)
              outline settings (targets_for 300 240) None 0%nat first_section
              (h3 (article_title outline) ++ blank_line) 0%nat fresh
              (answer (Some answer_with_heading)) _ answer_with_heading
              eq_refl eq_refl eq_refl) as [Hrun _].
  etransitivity; [exact Hrun | vm_compute; reflexivity].
Defined.

Lemma previous_context_witness :
  exists reqs,
    calls (snd (generate_article_section_by_section (answering (u8 "<p>Ala ma kota</p>"))
                  two_sections topic settings fresh))
    = calls fresh ++ reqs
    /\ Forall2 (carries_window two_sections settings (targets_for 300 240)
                  (cached_content (research_results fresh) topic))
         reqs
         (accumulated (answering (u8 "<p>Ala ma kota</p>")) two_sections settings
            (targets_for 300 240) (cached_content (research_results fresh) topic)
            (calls fresh) (h3 (article_title two_sections) ++ blank_line)
            (sections two_sections)).
Proof.
  apply (previous_context_is_trailing_window (answering (u8 "<p>Ala ma kota</p>"))
           two_sections topic settings fresh (targets_for 300 240)).
  vm_compute. reflexivity.
Defined.

(** The articles on which the two requests of that run are built. *)
Example accumulated_articles :
  map snd
    (accumulated (answering (u8 "<p>Ala ma kota</p>")) two_sections settings
       (targets_for 300 240) (Some []) [] (h3 (article_title two_sections) ++ blank_line)
       (sections two_sections))
  = [ u8 "<h3>Rowery elektryczne w mieście</h3>" ++ blank_line;
      u8 "<h3>Rowery elektryczne w mieście</h3>" ++ blank_line
        ++ u8 "<h3>Wstęp</h3>" ++ blank_line ++ u8 "<p>Ala ma kota</p>" ++ blank_line ]
  /\ map request_context
       (calls (snd (generate_article_section_by_section
                      (answering (u8 "<p>Ala ma kota</p>")) two_sections topic settings
                      fresh)))
     = [ Some (u8 "<h3>Rowery elektryczne w mieście</h3>" ++ blank_line);
         Some (u8 "<h3>Rowery elektryczne w mieście</h3>" ++ blank_line
                 ++ u8 "<h3>Wstęp</h3>" ++ blank_line ++ u8 "<p>Ala ma kota</p>"
                 ++ blank_line) ].
Proof. split; vm_compute; reflexivity. Qed.

Lemma bibliography_witness :
  exists article body,
    fst (generate_article_section_by_section (answering (u8 "<p>Ala ma kota</p>"))
           outline topic settings researched)
    = Ok article
    /\ body = u8 "<h3>Rowery elektryczne w mieście</h3>" ++ blank_line
                ++ u8 "<h3>Wstęp</h3>" ++ blank_line ++ u8 "<p>Ala ma kota</p>"
                ++ blank_line
    /\ article
       = body ++ [0x0A%N] ++ u8 "<h3>Bibliografia</h3>" ++ [0x0A%N]
           ++ u8 "<ol>" ++ [0x0A%N]
           ++ dq (u8 "    <li><a href='https://example.com/article' target='_blank'>https://example.com/article</a></li>")
           ++ [0x0A%N]
           ++ u8 "    <li>Raport GUS 2023</li>" ++ [0x0A%N]
           ++ u8 "</ol>" ++ [0x0A%N].
Proof.
  destruct (generate_article_section_by_section (answering (u8 "<p>Ala ma kota</p>"))
              outline topic settings researched) as [[article|e] w'] eqn:Hrun;
    [|exfalso; vm_compute in Hrun; discriminate].
  destruct (bibliography_is_appended (answering (u8 "<p>Ala ma kota</p>")) outline topic
              settings researched article w' Hrun)
    as (tg & body & total & w1 & Htg & Hd & Hon & _).
  exists article, body. split; [reflexivity|]. split.
  - vm_compute in Htg. injection Htg as <-.
    vm_compute in Hd. injection Hd as <- _ _. vm_compute. reflexivity.
  - rewrite (Hon earlier_result eq_refl eq_refl ltac:(discriminate)).
    apply (f_equal (app body)). vm_compute. reflexivity.
Defined.

(** C5 fails as stated.  An answer with the number 5 under [topics] is not
    a list of topics, and an answer without a title and without sections is
    not an outline; the topic proposer returns the number and shows
    nothing, and the outline synthesizer returns the object after a warning
    about the number of sections.  Neither shows an error, neither returns
    an empty result. *)
Lemma unvalidated_answers_are_returned :
  generate_topics (answering (dq (u8 "{'topics': 5}"))) (u8 "rowery elektryczne")
    settings fresh
  = (Ok (JInt 5),
     {| calls := [topics_request (u8 "rowery elektryczne") settings];
        events := [];
        research_results := ∅ |})
  /\ generate_article_outline (answering (dq (u8 "{'tytul': 'Rowery'}"))) topic settings
       fresh
     = (Ok (Some (JObj [(u8 "tytul", JStr (u8 "Rowery"))])),
        {| calls := [outline_request topic settings 300
                       [u8 "Wykorzystaj pytania retoryczne do angażowania czytelnika";
                        u8 "Włącz dane statystyczne i cytaty ekspertów";
                        u8 "Dodaj przykłady i case studies"]
                       (Some [])];
           events := [(StWarning, SectionCountMismatch 0 (JInt 7))];
           research_results := ∅ |}).
Proof. split; vm_compute; reflexivity. Qed.

Lemma unreadable_answer_witness :
  (exists e,
     generate_topics (answering (u8 "Oto pięć tematów: ...")) (u8 "rowery elektryczne")
       settings fresh
     = (Ok (JArr []),
        {| calls := calls fresh ++ [topics_request (u8 "rowery elektryczne") settings];
           events := events fresh ++ [(StError, TopicsResponseError e)];
           research_results := research_results fresh |}))
  /\
  (exists shown,
     Forall is_warning shown
     /\ exists e,
          generate_article_outline (answering (dq (u8 "{'sections': [1, 2]}"))) topic
            settings fresh
          = (Ok None,
             {| calls := calls fresh
                  ++ [outline_request topic settings 300
                        [u8 "Wykorzystaj pytania retoryczne do angażowania czytelnika";
                         u8 "Włącz dane statystyczne i cytaty ekspertów";
                         u8 "Dodaj przykłady i case studies"]
                        (cached_content (research_results fresh) topic)];
                events := events fresh ++ shown ++ [(StError, OutlineResponseError e)];
                research_results := research_results fresh |})).
Proof.
  split.
  - pose proof (proj1 (unreadable_answer_gives_empty_result
                         (answering (u8 "Oto pięć tematów: ...")))
                  (u8 "rowery elektryczne") settings fresh
                  (answer (Some (u8 "Oto pięć tematów: ..."))) eq_refl) as Htopics.
    assert (Hin : topics_in (answer (Some (u8 "Oto pięć tematów: ..."))) = None)
      by (vm_compute; reflexivity).
    rewrite Hin in Htopics. exact Htopics.
  - pose proof (proj2 (unreadable_answer_gives_empty_result
                         (answering (dq (u8 "{'sections': [1, 2]}"))))
                  topic settings fresh 300%Z _
                  (answer (Some (dq (u8 "{'sections': [1, 2]}"))))
                  ltac:(vm_compute; reflexivity) ltac:(vm_compute; reflexivity)
                  eq_refl) as Houtline.
    cbv zeta in Houtline.
    assert (Hin : outline_in (answer (Some (dq (u8 "{'sections': [1, 2]}")))) = None)
      by (vm_compute; reflexivity).
    rewrite Hin in Houtline. exact Houtline.
Defined.

Lemma settings_round_trip_witness :
  exists f',
    save_settings default_settings Absent = (Ok tt, f')
    /\ load_settings f' = (JObj default_settings, []).
Proof.
  apply settings_round_trip. vm_compute. reflexivity.
Defined.

(** *** Further scenarios *)

Module Session.

(** A research answer that names its sources in the text only. *)
Definition research_text : str :=
  u8 "Sprzedaż rośnie, zob. https://example.com/raport oraz https://www.gus.gov.pl/dane".

Definition found_in_text : list str :=
  [u8 "https://example.com/raport"; u8 "https://www.gus.gov.pl/dane"].


(** An outline with one section, whose prompt is short. *)
Definition outline_answer : str :=
  dq (u8 "{'article_title': 'Rowery', 'sections': [{'title': 'Wstęp', 'prompt': 'Krótko.'}]}").

Definition short_section : json :=
  JObj [(u8 "title", JStr (u8 "Wstęp")); (u8 "prompt", JStr (u8 "Krótko."))].

Definition read_outline : pydict :=
  [(u8 "article_title", JStr (u8 "Rowery")); (u8 "sections", JArr [short_section])].

Definition default_instructions : list str :=
  [u8 "Wykorzystaj pytania retoryczne do angażowania czytelnika";
   u8 "Włącz dane statystyczne i cytaty ekspertów";
   u8 "Dodaj przykłady i case studies"].

(** Settings that a damaged file may hold. *)
Definition without_length : pydict :=
  dict_set default_settings (u8 "section_length") JNull.

Definition without_elements : pydict :=
  dict_set default_settings (u8 "engagement_elements") (JStr (u8 "wszystkie")).

(** Three links to two sites. *)
Definition cited_sites : list site :=
  [ {| https := true; host := u8 "www.gus.gov.pl"; path := u8 "/dane" |};
    {| https := false; host := u8 "gus.gov.pl"; path := u8 "/raport?rok=2023" |};
    {| https := true; host := u8 "example.com"; path := [] |} ].

Definition answering_with_sites (history : list request) (req : request)
    : result response :=
  Ok {| choices :=
          [ {| content := Some (u8 "Sprzedaż rośnie.");
               annotations :=
                 Has (map (fun s => {| url_citation := Has (site_url s) |})
                        cited_sites) |} ] |}.

End Session.

Import Session.

Ltac each_char :=
  vm_compute;
  repeat (apply List.Forall_cons;
          [first [discriminate | reflexivity | split; discriminate]|]);
  apply List.Forall_nil.

Lemma service_failure_propagates_witness :
  generate_topics refusing (u8 "rowery elektryczne") settings fresh
  = (Raise (APIError (u8 "web_search_options is not supported with this model")),
     requested (topics_request (u8 "rowery elektryczne") settings) fresh)
  /\ generate_article_outline refusing topic settings fresh
     = (Raise (APIError (u8 "web_search_options is not supported with this model")),
        requested (outline_request topic settings 300 default_instructions (Some []))
          fresh).
Proof.
  split.
  - apply (proj1 (service_failure_propagates refusing)). reflexivity.
  - apply (proj2 (service_failure_propagates refusing) topic settings fresh 300%Z
             default_instructions _
             ltac:(vm_compute; reflexivity) ltac:(vm_compute; reflexivity)).
    reflexivity.
Defined.

Lemma research_success_is_cached_witness :
  fst (perform_web_research (answering research_text) in_given_order false topic
         research_settings fresh)
  = Ok (Some research_text)
  /\ cached_citations
       (research_results
          (snd (perform_web_research (answering research_text) in_given_order false
                  topic research_settings fresh)))
       topic
     = found_in_text.
Proof.
  pose proof (research_success_is_cached (answering research_text) in_given_order
                false topic research_settings fresh
                (answer (Some research_text)) _ found_in_text
                ltac:(vm_compute; reflexivity) eq_refl eq_refl
                ltac:(vm_compute; reflexivity)) as Hrun.
  cbv zeta in Hrun. destruct Hrun as (Hret & _ & _ & Hcits & _).
  split; [exact Hret | exact Hcits].
Defined.


Lemma outline_is_returned_with_warnings_witness :
  generate_article_outline (answering outline_answer) topic settings fresh
  = (Ok (Some (JObj read_outline)),
     {| calls := [outline_request topic settings 300 default_instructions (Some [])];
        events := [(StWarning, SectionCountMismatch 1 (JInt 7));
                   (StWarning, ShortPrompts 1 (JInt 7))];
        research_results := ∅ |}).
Proof.
  etransitivity.
  - apply (outline_is_returned_with_warnings (answering outline_answer) topic settings
             fresh 300%Z default_instructions (answer (Some outline_answer)) _
             outline_answer read_outline [short_section]
             ltac:(vm_compute; reflexivity) ltac:(vm_compute; reflexivity)
             eq_refl eq_refl eq_refl
             ltac:(vm_compute; reflexivity) ltac:(vm_compute; reflexivity)).
    apply List.Forall_cons; [|apply List.Forall_nil].
    exists [(u8 "title", JStr (u8 "Wstęp")); (u8 "prompt", JStr (u8 "Krótko."))],
      (u8 "Krótko.").
    split; vm_compute; reflexivity.
  - vm_compute. reflexivity.
Defined.

Lemma unusable_settings_witness :
  generate_article_outline refusing topic without_length fresh = (Raise TypeError, fresh)
  /\ generate_article_section_by_section refusing outline topic without_length fresh
     = (Raise TypeError, fresh)
  /\ generate_article_outline refusing topic without_elements fresh
     = (Raise AttributeError, fresh).
Proof.
  destruct (proj1 (unusable_settings_raise_before_any_request refusing without_length
                     fresh) ltac:(vm_compute; reflexivity)) as [Houtline Hdraft].
  split; [apply Houtline|]. split; [apply Hdraft|].
  apply (proj2 (unusable_settings_raise_before_any_request refusing without_elements
                  fresh) 300%Z ltac:(vm_compute; reflexivity)).
  vm_compute. exact I.
Defined.



Lemma drafter_stops_at_first_failure_witness :
  fst (generate_article_section_by_section refusing outline topic settings fresh)
  = Raise (APIError (u8 "web_search_options is not supported with this model"))
  /\ length (calls (snd (generate_article_section_by_section refusing outline topic
                           settings fresh))) = 1%nat.
Proof.
  pose proof (drafter_stops_at_first_failure refusing outline topic settings fresh
                (targets_for 300 240) first_section []
                (APIError (u8 "web_search_options is not supported with this model"))
                ltac:(vm_compute; reflexivity) eq_refl eq_refl) as Hrun.
  cbv zeta in Hrun. destruct Hrun as (Hret & Hcalls & _).
  split; [exact Hret|]. rewrite Hcalls. reflexivity.
Defined.

Lemma plain_answer_witness :
  strip_heading (u8 "Ala ma kota") = u8 "Ala ma kota"
  /\ word_count (join (u8 " ") [u8 "Ala"; u8 "ma"; u8 "kota"]) = 3%nat.
Proof.
  split.
  - apply (proj1 plain_answer_is_kept_and_counted). unfold plain. each_char.
  - apply (proj2 plain_answer_is_kept_and_counted [u8 "Ala"; u8 "ma"; u8 "kota"]).
    + repeat (apply List.Forall_cons; [split; [vm_compute; discriminate|each_char]|]).
      apply List.Forall_nil.
    + repeat (apply List.Forall_cons; [unfold plain; each_char|]).
      apply List.Forall_nil.
Defined.

Lemma repeated_heading_witness :
  strip_heading (h3 (u8 "Wstęp do tematu") ++ [0x0A%N] ++ u8 "<p>Ala ma kota</p>")
  = u8 "<p>Ala ma kota</p>".
Proof.
  apply (repeated_heading_is_removed (u8 "Wstęp do tematu") [0x0A%N]
           (u8 "<p>Ala ma kota</p>")).
  - each_char.
  - each_char.
  - vm_compute. reflexivity.
  - vm_compute. reflexivity.
Defined.

Lemma research_reaches_the_prompts_witness :
  prompts_carry (answering research_text)
    (snd (perform_web_research (answering research_text) in_given_order false topic
            research_settings fresh))
    topic research_settings
    (u8 "Dane z researchu:" ++ [0x0A%N] ++ research_text)
    (slice_first 2000 research_text)
  /\ prompts_carry refusing fresh topic settings [] (u8 "Brak danych z researchu.").
Proof.
  split.
  - apply (proj1 (research_reaches_the_prompts (answering research_text)
                    in_given_order false topic research_settings fresh)
             (answer (Some research_text))
             {| content := Some research_text; annotations := Missing |}
             found_in_text research_text).
    + vm_compute. reflexivity.
    + reflexivity.
    + reflexivity.
    + vm_compute. reflexivity.
    + reflexivity.
    + vm_compute. discriminate.
  - apply (proj2 (research_reaches_the_prompts refusing in_given_order false topic
                    settings fresh)).
    reflexivity.
Defined.

Lemma copy_button_payload_witness :
  get_copy_to_clipboard_button [0xD800%N] = Raise UnicodeEncodeError
  /\ get_copy_to_clipboard_button (u8 "<p>Zażółć</p>")
     = Ok (button_before ++ u8 "PHA+WmHFvMOzxYLEhzwvcD4=" ++ button_after).
Proof.
  split.
  - apply (proj1 (copy_button_payload_is_base64 [0xD800%N])). reflexivity.
  - destruct (proj2 (copy_button_payload_is_base64 (u8 "<p>Zażółć</p>"))
                ltac:(vm_compute; reflexivity)) as (payload & Hbutton & Hpayload & _).
    rewrite Hbutton, Hpayload. vm_compute. reflexivity.
Defined.

Lemma code_points_checked (text : str) :
  forallb (fun c => (c <=? 0x10FFFF)%N) text = true -> Forall code_point text.
Proof.
  intros Hall. apply Forall_forall. intros c Hc. apply list_elem_of_In in Hc.
  apply N.leb_le. exact (proj1 (forallb_forall _ _) Hall c Hc).
Qed.

Lemma ascii_checked (text : str) :
  forallb (fun c => (c <? 0x80)%N) text = true -> Forall (fun c => (c < 0x80)%N) text.
Proof.
  intros Hall. apply Forall_forall. intros c Hc. apply list_elem_of_In in Hc.
  apply N.ltb_lt. exact (proj1 (forallb_forall _ _) Hall c Hc).
Qed.

Lemma copy_button_decodes_witness :
  atob (u8 "PHA+WmHFvMOzxYLEhzwvcD4=")
  = Some (concat (map utf8_bytes (u8 "<p>Zażółć</p>")))
  /\ atob (b64encode (u8 "<p>Ala</p>")) = Some (u8 "<p>Ala</p>").
Proof.
  split.
  - transitivity (atob (b64encode (concat (map utf8_bytes (u8 "<p>Zażółć</p>"))))).
    + vm_compute. reflexivity.
    + apply (proj1 (copy_button_payload_decodes (u8 "<p>Zażółć</p>")
                      (code_points_checked (u8 "<p>Zażółć</p>")
                         ltac:(vm_compute; reflexivity)))).
  - apply (proj2 (copy_button_payload_decodes (u8 "<p>Ala</p>")
                    (code_points_checked (u8 "<p>Ala</p>")
                       ltac:(vm_compute; reflexivity)))).
    apply ascii_checked. vm_compute. reflexivity.
Defined.

Lemma sources_are_counted_by_host_witness :
  events (snd (perform_web_research answering_with_sites in_given_order false topic
                 research_settings fresh))
  = [(StInfo, ResearchStarting); (StInfo, UsingSearchModel);
     (StSuccess, ResearchFinished 2)].
Proof.
  etransitivity.
  - apply (sources_are_counted_by_host answering_with_sites in_given_order false topic
             research_settings fresh _ _ cited_sites
             ltac:(vm_compute; reflexivity) eq_refl eq_refl
             ltac:(vm_compute; reflexivity)).
    repeat (apply List.Forall_cons;
            [split; [vm_compute; discriminate|split; [each_char|vm_compute; auto]]|]).
    apply List.Forall_nil.
  - vm_compute. reflexivity.
Defined.

(** The file that [save_settings] writes for the default settings. *)
Example default_settings_file :
  save_settings default_settings Absent
  = (Ok tt, Text (dq (u8 "{
  'temperature': 0.7,
  'top_p': 1.0,
  'max_tokens': 2000,
  'do_research': false,
  'search_context_size': 'medium',
  'add_bibliography': true,
  'search_intent': 'informacyjna',
  'complexity_level': 'średniozaawansowany',
  'engagement_elements': {
    'rhetorical_questions': true,
    'statistics_quotes': true,
    'examples_cases': true,
    'stories': false
  },
  'content_type': 'przewodnik',
  'readability_index': 'standardowy',
  'num_topics': 5,
  'num_sections': 7,
  'section_length': 'średnia (250-350 słów)'
}"))).
Proof. vm_compute. reflexivity. Qed.

(** ** The regular expressions and the JSON reader and writer on examples *)

Example tag_re_strips :
  re_sub tag_re [] (u8 "<p>Ala ma <b>kota</b></p> a <> b < c <d> e") = u8 "Ala ma kota a <> b  e".
Proof. vm_compute. reflexivity. Qed.

Example h3_re_strips :
  re_sub h3_re [] (u8 "<h3>Tytuł</h3>
  <p>tekst</p><h3>a
b</h3>") = u8 "<p>tekst</p><h3>a
b</h3>".
Proof. vm_compute. reflexivity. Qed.

Example url_pattern_finds :
  re_findall url_pattern (u8 "zob. (https://a.pl/x?y=1) oraz http://www.b.org/z, koniec")
  = [u8 "https://a.pl/x?y=1"; u8 "http://www.b.org/z,"].
Proof. vm_compute. reflexivity. Qed.

Example domain_re_group :
  re_search domain_re (u8 "https://www.b.org/z") = Some [u8 "b.org"]
  /\ re_search domain_re (u8 "http://www./z") = Some [u8 "www."].
Proof. vm_compute. split; reflexivity. Qed.

Example json_loads_example :
  json_loads (H := Tenths.tenths_float)
    (dq (u8 " {'a': [1, -2.5, true, null], 'b\n': 'ą\ud83d\ude00\u0041', 'a': {}} "))
  = Ok (JObj [(u8 "a", JObj []); ([98; 10]%N, JStr [261; 128512; 65]%N)]).
Proof. vm_compute. reflexivity. Qed.

Example json_loads_rejects :
  json_loads (H := Tenths.tenths_float) (dq (u8 "{'a': 1,}")) = Raise JSONDecodeError
  /\ json_loads (H := Tenths.tenths_float) (u8 "01") = Raise JSONDecodeError
  /\ json_loads (H := Tenths.tenths_float) (u8 "[1 2]") = Raise JSONDecodeError
  /\ json_loads (H := Tenths.tenths_float) (u8 "") = Raise JSONDecodeError.
Proof. vm_compute. repeat split; reflexivity. Qed.

Example json_dumps_example :
  json_dumps
    (JObj [(u8 "temperature", JFloat (Tenths.of_Z 7)); (u8 "num", JInt 5);
           (u8 "e", JObj [(u8 "stories", JBool false)]); (u8 "l", JArr [])])
  = dq (u8 "{
  'temperature': 0.7,
  'num': 5,
  'e': {
    'stories': false
  },
  'l': []
}").
Proof. vm_compute. reflexivity. Qed.
